(** * asciimatics [screen.py]: the double-buffered screen, shallowly embedded

    The development follows [src/asciimatics/screen.py].  Python integers are
    [Z], text is a list of characters, a screen cell is the 4-tuple the code
    stores, and the two buffers are lists of rows.  Methods that mutate the
    screen are computations in a state monad whose outcome is a normal return
    or a raised Python exception; the state reached when an exception is
    raised is kept, as it is in Python. *)

From Stdlib Require Import ZArith Ascii String.
From stdpp Require Import base tactics option list numbers strings gmap.

Local Open Scope Z_scope.

(** ** Python values and containers *)

Module Py.

(** Text is a sequence of characters; [str] reads a literal. *)
Definition str (s : string) : list ascii := list_ascii_of_string s.

(** [ord(c)] *)
Definition ord (c : ascii) : Z := Z.of_N (N_of_ascii c).

(** [len(l)] *)
Definition len {A} (l : list A) : Z := Z.of_nat (length l).

(** [range(n)] *)
Definition range (n : Z) : list Z := Z.of_nat <$> seq 0 (Z.to_nat n).

(** The position a (possibly negative) index denotes in a sequence of
    length [n], when it denotes one. *)
Definition norm_index (n : nat) (i : Z) : option nat :=
  if bool_decide (0 <= i < Z.of_nat n) then Some (Z.to_nat i)
  else if bool_decide (- Z.of_nat n <= i < 0) then Some (Z.to_nat (Z.of_nat n + i))
  else None.

(** [l[i]]; [None] stands for IndexError. *)
Definition getitem {A} (l : list A) (i : Z) : option A :=
  k ← norm_index (length l) i; l !! k.

(** [l[i] = v]; [None] stands for IndexError. *)
Definition setitem {A} (l : list A) (i : Z) (v : A) : option (list A) :=
  k ← norm_index (length l) i; Some (<[k := v]> l).

(** The bound of a slice, clamped the way Python clamps it. *)
Definition slice_bound (n : nat) (i : Z) : nat :=
  if bool_decide (0 <= i) then Z.to_nat i else Z.to_nat (Z.of_nat n + i).

(** [l[a:]] *)
Definition slice_from {A} (l : list A) (a : Z) : list A :=
  drop (slice_bound (length l) a) l.

(** [l[:b]] *)
Definition slice_to {A} (l : list A) (b : Z) : list A :=
  take (slice_bound (length l) b) l.

(** [enumerate(l, start)] and [enumerate(l)] *)
Fixpoint enumerate_from {A} (start : Z) (l : list A) : list (Z * A) :=
  match l with
  | [] => []
  | a :: l' => (start, a) :: enumerate_from (start + 1) l'
  end.

Definition enumerate {A} (l : list A) : list (Z * A) := enumerate_from 0 l.

End Py.

(** ** Outcomes and the screen monad *)

Inductive Exn := IndexError | KeyError | TypeError.

(** A call returns, raises, or is cut off by the bound on loop iterations and
    recursion depth that [draw] and [putch] take. *)
Inductive Outcome (A : Type) :=
| Ok (a : A)
| Raise (e : Exn)
| OutOfFuel.
Arguments Ok {A} a.
Arguments Raise {A} e.
Arguments OutOfFuel {A}.

Definition M (S A : Type) : Type := S -> Outcome A * S.

Definition ret {S A} (a : A) : M S A := fun s => (Ok a, s).

Definition bind {S A B} (m : M S A) (k : A -> M S B) : M S B :=
  fun s =>
    match m s with
    | (Ok a, s') => k a s'
    | (Raise e, s') => (Raise e, s')
    | (OutOfFuel, s') => (OutOfFuel, s')
    end.

Definition raise {S A} (e : Exn) : M S A := fun s => (Raise e, s).
Definition out_of_fuel {S A} : M S A := fun s => (OutOfFuel, s).
Definition get {S} : M S S := fun s => (Ok s, s).
Definition modify {S} (f : S -> S) : M S unit := fun s => (Ok tt, f s).

(** An optional result, [None] raising [e]. *)
Definition or_raise {S A} (e : Exn) (o : option A) : M S A :=
  match o with Some a => ret a | None => raise e end.

Declare Scope screen_scope.
Delimit Scope screen_scope with screen.
Notation "x <- m ;; k" := (bind m (fun x => k))
  (at level 100, m at next level, right associativity) : screen_scope.
Notation "m ;;; k" := (bind m (fun _ => k))
  (at level 100, right associativity) : screen_scope.
Local Open Scope screen_scope.

(** [for a in l: body(a)] *)
Fixpoint for_each {S A} (l : list A) (body : A -> M S unit) : M S unit :=
  match l with
  | [] => ret tt
  | a :: l' => body a ;;; for_each l' body
  end.

(** [when b: m] *)
Definition when {S} (b : bool) (m : M S unit) : M S unit :=
  if b then m else ret tt.

(** ** Cells, buffers and the screen object *)

(** A cell is the tuple [(character, colour, attr, bg)]. *)
Abbreviation Cell := (ascii * Z * Z * Z)%type.

Abbreviation Buffer := (list (list Cell)).

(** The console window rectangle [GetConsoleScreenBufferInfo()['Window']]. *)
Record SMALL_RECT := { Left : Z; Top : Z; Right : Z; Bottom : Z }.

(** The three concrete classes, each with the fields it adds.  For the
    Windows console the window rectangle is the part of the device that
    [has_resized] polls. *)
Inductive Backend :=
| _WindowsScreen (Window : SMALL_RECT) (_last_width _last_height : option Z)
                 (_map_all : bool)
| _CursesScreen (_re_sized : bool)
| _BlessedScreen (_re_sized : bool).

(** What a backend primitive sends to the device.  [dev_scroll] is the
    request that scrolls the device up by one line; [_scroll] sends it, once
    per call, and no other primitive does. *)
Inductive DeviceOp :=
| dev_scroll
| dev_clear
| dev_console_attribute (new_attr : Z)
| dev_normal
| dev_attribute (attr : Z)
| dev_foreground (colour : Z)
| dev_background (bg : Z)
| dev_move (x y : Z)
| dev_write (text : list ascii).

(** The fields of a screen object.  [_screen_buffer] is the committed
    buffer, which [get_from] reads and [refresh] brings up to date, and
    [_double_buffer] the pending one, which [print_at] writes.  [_x] and
    [_y] serve both the pen of [move] and [draw] and the record of the
    device cursor of [_print_at], as they do in the code.  [device] is the
    log of what has been sent to the device. *)
Record Screen := {
  height : Z;
  width : Z;
  colours : Z;
  _start_line : Z;
  _x : option Z;
  _y : option Z;
  _screen_buffer : Buffer;
  _double_buffer : Buffer;
  _buffer_height : Z;
  _colour : option Z;
  _attr : option Z;
  _bg : option Z;
  _last_start_line : Z;
  backend : Backend;
  device : list DeviceOp
}.

(** Field assignments, [self.f = v]. *)
Definition set_start_line (v : Z) (s : Screen) : Screen :=
  {| height := height s; width := width s; colours := colours s;
     _start_line := v; _x := _x s; _y := _y s;
     _screen_buffer := _screen_buffer s; _double_buffer := _double_buffer s;
     _buffer_height := _buffer_height s; _colour := _colour s;
     _attr := _attr s; _bg := _bg s; _last_start_line := _last_start_line s;
     backend := backend s; device := device s |}.

Definition set_x (v : option Z) (s : Screen) : Screen :=
  {| height := height s; width := width s; colours := colours s;
     _start_line := _start_line s; _x := v; _y := _y s;
     _screen_buffer := _screen_buffer s; _double_buffer := _double_buffer s;
     _buffer_height := _buffer_height s; _colour := _colour s;
     _attr := _attr s; _bg := _bg s; _last_start_line := _last_start_line s;
     backend := backend s; device := device s |}.

Definition set_y (v : option Z) (s : Screen) : Screen :=
  {| height := height s; width := width s; colours := colours s;
     _start_line := _start_line s; _x := _x s; _y := v;
     _screen_buffer := _screen_buffer s; _double_buffer := _double_buffer s;
     _buffer_height := _buffer_height s; _colour := _colour s;
     _attr := _attr s; _bg := _bg s; _last_start_line := _last_start_line s;
     backend := backend s; device := device s |}.

Definition set_screen_buffer (v : Buffer) (s : Screen) : Screen :=
  {| height := height s; width := width s; colours := colours s;
     _start_line := _start_line s; _x := _x s; _y := _y s;
     _screen_buffer := v; _double_buffer := _double_buffer s;
     _buffer_height := _buffer_height s; _colour := _colour s;
     _attr := _attr s; _bg := _bg s; _last_start_line := _last_start_line s;
     backend := backend s; device := device s |}.

Definition set_double_buffer (v : Buffer) (s : Screen) : Screen :=
  {| height := height s; width := width s; colours := colours s;
     _start_line := _start_line s; _x := _x s; _y := _y s;
     _screen_buffer := _screen_buffer s; _double_buffer := v;
     _buffer_height := _buffer_height s; _colour := _colour s;
     _attr := _attr s; _bg := _bg s; _last_start_line := _last_start_line s;
     backend := backend s; device := device s |}.

Definition set_colour (v : option Z) (s : Screen) : Screen :=
  {| height := height s; width := width s; colours := colours s;
     _start_line := _start_line s; _x := _x s; _y := _y s;
     _screen_buffer := _screen_buffer s; _double_buffer := _double_buffer s;
     _buffer_height := _buffer_height s; _colour := v;
     _attr := _attr s; _bg := _bg s; _last_start_line := _last_start_line s;
     backend := backend s; device := device s |}.

Definition set_attr (v : option Z) (s : Screen) : Screen :=
  {| height := height s; width := width s; colours := colours s;
     _start_line := _start_line s; _x := _x s; _y := _y s;
     _screen_buffer := _screen_buffer s; _double_buffer := _double_buffer s;
     _buffer_height := _buffer_height s; _colour := _colour s;
     _attr := v; _bg := _bg s; _last_start_line := _last_start_line s;
     backend := backend s; device := device s |}.

Definition set_bg (v : option Z) (s : Screen) : Screen :=
  {| height := height s; width := width s; colours := colours s;
     _start_line := _start_line s; _x := _x s; _y := _y s;
     _screen_buffer := _screen_buffer s; _double_buffer := _double_buffer s;
     _buffer_height := _buffer_height s; _colour := _colour s;
     _attr := _attr s; _bg := v; _last_start_line := _last_start_line s;
     backend := backend s; device := device s |}.

Definition set_last_start_line (v : Z) (s : Screen) : Screen :=
  {| height := height s; width := width s; colours := colours s;
     _start_line := _start_line s; _x := _x s; _y := _y s;
     _screen_buffer := _screen_buffer s; _double_buffer := _double_buffer s;
     _buffer_height := _buffer_height s; _colour := _colour s;
     _attr := _attr s; _bg := _bg s; _last_start_line := v;
     backend := backend s; device := device s |}.

Definition set_backend (v : Backend) (s : Screen) : Screen :=
  {| height := height s; width := width s; colours := colours s;
     _start_line := _start_line s; _x := _x s; _y := _y s;
     _screen_buffer := _screen_buffer s; _double_buffer := _double_buffer s;
     _buffer_height := _buffer_height s; _colour := _colour s;
     _attr := _attr s; _bg := _bg s; _last_start_line := _last_start_line s;
     backend := v; device := device s |}.

(** The device log grows at its head: the latest operation comes first. *)
Definition emit (op : DeviceOp) (s : Screen) : Screen :=
  {| height := height s; width := width s; colours := colours s;
     _start_line := _start_line s; _x := _x s; _y := _y s;
     _screen_buffer := _screen_buffer s; _double_buffer := _double_buffer s;
     _buffer_height := _buffer_height s; _colour := _colour s;
     _attr := _attr s; _bg := _bg s; _last_start_line := _last_start_line s;
     backend := backend s; device := op :: device s |}.

Abbreviation SM := (M Screen).

Definition write (op : DeviceOp) : SM unit := modify (emit op).

(** ** Class constants of [Screen] *)

Definition A_BOLD : Z := 1.
Definition A_NORMAL : Z := 2.
Definition A_REVERSE : Z := 3.
Definition A_UNDERLINE : Z := 4.

Definition COLOUR_BLACK : Z := 0.
Definition COLOUR_RED : Z := 1.
Definition COLOUR_GREEN : Z := 2.
Definition COLOUR_YELLOW : Z := 3.
Definition COLOUR_BLUE : Z := 4.
Definition COLOUR_MAGENTA : Z := 5.
Definition COLOUR_CYAN : Z := 6.
Definition COLOUR_WHITE : Z := 7.

(** Characters for anti-aliasing line drawing. *)
Definition _line_chars : list ascii := Py.str " ''^.|/7.\|Ywbd#".

(** Colour palette for 8/16 colour terminals *)
Definition _8_palette : list Z :=
  [ 0x00; 0x00; 0x00;
    0x80; 0x00; 0x00;
    0x00; 0x80; 0x00;
    0x80; 0x80; 0x00;
    0x00; 0x00; 0x80;
    0x80; 0x00; 0x80;
    0x00; 0x80; 0x80;
    0xc0; 0xc0; 0xc0
  ] ++ ((fun _ => 0x00) <$> Py.range (248 * 3)).

(** Colour palette for 256 colour terminals *)
Definition _256_palette : list Z :=
  [
    0x00; 0x00; 0x00;  0x80; 0x00; 0x00;  0x00; 0x80; 0x00;  0x80; 0x80; 0x00;
    0x00; 0x00; 0x80;  0x80; 0x00; 0x80;  0x00; 0x80; 0x80;  0xc0; 0xc0; 0xc0;
    0x80; 0x80; 0x80;  0xff; 0x00; 0x00;  0x00; 0xff; 0x00;  0xff; 0xff; 0x00;
    0x00; 0x00; 0xff;  0xff; 0x00; 0xff;  0x00; 0xff; 0xff;  0xff; 0xff; 0xff;
    0x00; 0x00; 0x00;  0x00; 0x00; 0x5f;  0x00; 0x00; 0x87;  0x00; 0x00; 0xaf;
    0x00; 0x00; 0xd7;  0x00; 0x00; 0xff;  0x00; 0x5f; 0x00;  0x00; 0x5f; 0x5f;
    0x00; 0x5f; 0x87;  0x00; 0x5f; 0xaf;  0x00; 0x5f; 0xd7;  0x00; 0x5f; 0xff;
    0x00; 0x87; 0x00;  0x00; 0x87; 0x5f;  0x00; 0x87; 0x87;  0x00; 0x87; 0xaf;
    0x00; 0x87; 0xd7;  0x00; 0x87; 0xff;  0x00; 0xaf; 0x00;  0x00; 0xaf; 0x5f;
    0x00; 0xaf; 0x87;  0x00; 0xaf; 0xaf;  0x00; 0xaf; 0xd7;  0x00; 0xaf; 0xff;
    0x00; 0xd7; 0x00;  0x00; 0xd7; 0x5f;  0x00; 0xd7; 0x87;  0x00; 0xd7; 0xaf;
    0x00; 0xd7; 0xd7;  0x00; 0xd7; 0xff;  0x00; 0xff; 0x00;  0x00; 0xff; 0x5f;
    0x00; 0xff; 0x87;  0x00; 0xff; 0xaf;  0x00; 0xff; 0xd7;  0x00; 0xff; 0xff;
    0x5f; 0x00; 0x00;  0x5f; 0x00; 0x5f;  0x5f; 0x00; 0x87;  0x5f; 0x00; 0xaf;
    0x5f; 0x00; 0xd7;  0x5f; 0x00; 0xff;  0x5f; 0x5f; 0x00;  0x5f; 0x5f; 0x5f;
    0x5f; 0x5f; 0x87;  0x5f; 0x5f; 0xaf;  0x5f; 0x5f; 0xd7;  0x5f; 0x5f; 0xff;
    0x5f; 0x87; 0x00;  0x5f; 0x87; 0x5f;  0x5f; 0x87; 0x87;  0x5f; 0x87; 0xaf;
    0x5f; 0x87; 0xd7;  0x5f; 0x87; 0xff;  0x5f; 0xaf; 0x00;  0x5f; 0xaf; 0x5f;
    0x5f; 0xaf; 0x87;  0x5f; 0xaf; 0xaf;  0x5f; 0xaf; 0xd7;  0x5f; 0xaf; 0xff;
    0x5f; 0xd7; 0x00;  0x5f; 0xd7; 0x5f;  0x5f; 0xd7; 0x87;  0x5f; 0xd7; 0xaf;
    0x5f; 0xd7; 0xd7;  0x5f; 0xd7; 0xff;  0x5f; 0xff; 0x00;  0x5f; 0xff; 0x5f;
    0x5f; 0xff; 0x87;  0x5f; 0xff; 0xaf;  0x5f; 0xff; 0xd7;  0x5f; 0xff; 0xff;
    0x87; 0x00; 0x00;  0x87; 0x00; 0x5f;  0x87; 0x00; 0x87;  0x87; 0x00; 0xaf;
    0x87; 0x00; 0xd7;  0x87; 0x00; 0xff;  0x87; 0x5f; 0x00;  0x87; 0x5f; 0x5f;
    0x87; 0x5f; 0x87;  0x87; 0x5f; 0xaf;  0x87; 0x5f; 0xd7;  0x87; 0x5f; 0xff;
    0x87; 0x87; 0x00;  0x87; 0x87; 0x5f;  0x87; 0x87; 0x87;  0x87; 0x87; 0xaf;
    0x87; 0x87; 0xd7;  0x87; 0x87; 0xff;  0x87; 0xaf; 0x00;  0x87; 0xaf; 0x5f;
    0x87; 0xaf; 0x87;  0x87; 0xaf; 0xaf;  0x87; 0xaf; 0xd7;  0x87; 0xaf; 0xff;
    0x87; 0xd7; 0x00;  0x87; 0xd7; 0x5f;  0x87; 0xd7; 0x87;  0x87; 0xd7; 0xaf;
    0x87; 0xd7; 0xd7;  0x87; 0xd7; 0xff;  0x87; 0xff; 0x00;  0x87; 0xff; 0x5f;
    0x87; 0xff; 0x87;  0x87; 0xff; 0xaf;  0x87; 0xff; 0xd7;  0x87; 0xff; 0xff;
    0xaf; 0x00; 0x00;  0xaf; 0x00; 0x5f;  0xaf; 0x00; 0x87;  0xaf; 0x00; 0xaf;
    0xaf; 0x00; 0xd7;  0xaf; 0x00; 0xff;  0xaf; 0x5f; 0x00;  0xaf; 0x5f; 0x5f;
    0xaf; 0x5f; 0x87;  0xaf; 0x5f; 0xaf;  0xaf; 0x5f; 0xd7;  0xaf; 0x5f; 0xff;
    0xaf; 0x87; 0x00;  0xaf; 0x87; 0x5f;  0xaf; 0x87; 0x87;  0xaf; 0x87; 0xaf;
    0xaf; 0x87; 0xd7;  0xaf; 0x87; 0xff;  0xaf; 0xaf; 0x00;  0xaf; 0xaf; 0x5f;
    0xaf; 0xaf; 0x87;  0xaf; 0xaf; 0xaf;  0xaf; 0xaf; 0xd7;  0xaf; 0xaf; 0xff;
    0xaf; 0xd7; 0x00;  0xaf; 0xd7; 0x5f;  0xaf; 0xd7; 0x87;  0xaf; 0xd7; 0xaf;
    0xaf; 0xd7; 0xd7;  0xaf; 0xd7; 0xff;  0xaf; 0xff; 0x00;  0xaf; 0xff; 0x5f;
    0xaf; 0xff; 0x87;  0xaf; 0xff; 0xaf;  0xaf; 0xff; 0xd7;  0xaf; 0xff; 0xff;
    0xd7; 0x00; 0x00;  0xd7; 0x00; 0x5f;  0xd7; 0x00; 0x87;  0xd7; 0x00; 0xaf;
    0xd7; 0x00; 0xd7;  0xd7; 0x00; 0xff;  0xd7; 0x5f; 0x00;  0xd7; 0x5f; 0x5f;
    0xd7; 0x5f; 0x87;  0xd7; 0x5f; 0xaf;  0xd7; 0x5f; 0xd7;  0xd7; 0x5f; 0xff;
    0xd7; 0x87; 0x00;  0xd7; 0x87; 0x5f;  0xd7; 0x87; 0x87;  0xd7; 0x87; 0xaf;
    0xd7; 0x87; 0xd7;  0xd7; 0x87; 0xff;  0xd7; 0xaf; 0x00;  0xd7; 0xaf; 0x5f;
    0xd7; 0xaf; 0x87;  0xd7; 0xaf; 0xaf;  0xd7; 0xaf; 0xd7;  0xd7; 0xaf; 0xff;
    0xd7; 0xd7; 0x00;  0xd7; 0xd7; 0x5f;  0xd7; 0xd7; 0x87;  0xd7; 0xd7; 0xaf;
    0xd7; 0xd7; 0xd7;  0xd7; 0xd7; 0xff;  0xd7; 0xff; 0x00;  0xd7; 0xff; 0x5f;
    0xd7; 0xff; 0x87;  0xd7; 0xff; 0xaf;  0xd7; 0xff; 0xd7;  0xd7; 0xff; 0xff;
    0xff; 0x00; 0x00;  0xff; 0x00; 0x5f;  0xff; 0x00; 0x87;  0xff; 0x00; 0xaf;
    0xff; 0x00; 0xd7;  0xff; 0x00; 0xff;  0xff; 0x5f; 0x00;  0xff; 0x5f; 0x5f;
    0xff; 0x5f; 0x87;  0xff; 0x5f; 0xaf;  0xff; 0x5f; 0xd7;  0xff; 0x5f; 0xff;
    0xff; 0x87; 0x00;  0xff; 0x87; 0x5f;  0xff; 0x87; 0x87;  0xff; 0x87; 0xaf;
    0xff; 0x87; 0xd7;  0xff; 0x87; 0xff;  0xff; 0xaf; 0x00;  0xff; 0xaf; 0x5f;
    0xff; 0xaf; 0x87;  0xff; 0xaf; 0xaf;  0xff; 0xaf; 0xd7;  0xff; 0xaf; 0xff;
    0xff; 0xd7; 0x00;  0xff; 0xd7; 0x5f;  0xff; 0xd7; 0x87;  0xff; 0xd7; 0xaf;
    0xff; 0xd7; 0xd7;  0xff; 0xd7; 0xff;  0xff; 0xff; 0x00;  0xff; 0xff; 0x5f;
    0xff; 0xff; 0x87;  0xff; 0xff; 0xaf;  0xff; 0xff; 0xd7;  0xff; 0xff; 0xff;
    0x08; 0x08; 0x08;  0x12; 0x12; 0x12;  0x1c; 0x1c; 0x1c;  0x26; 0x26; 0x26;
    0x30; 0x30; 0x30;  0x3a; 0x3a; 0x3a;  0x44; 0x44; 0x44;  0x4e; 0x4e; 0x4e;
    0x58; 0x58; 0x58;  0x62; 0x62; 0x62;  0x6c; 0x6c; 0x6c;  0x76; 0x76; 0x76;
    0x80; 0x80; 0x80;  0x8a; 0x8a; 0x8a;  0x94; 0x94; 0x94;  0x9e; 0x9e; 0x9e;
    0xa8; 0xa8; 0xa8;  0xb2; 0xb2; 0xb2;  0xbc; 0xbc; 0xbc;  0xc6; 0xc6; 0xc6;
    0xd0; 0xd0; 0xd0;  0xda; 0xda; 0xda;  0xe4; 0xe4; 0xe4;  0xee; 0xee; 0xee
  ].

(** [Screen.palette] *)
Definition palette (s : Screen) : list Z :=
  if bool_decide (colours s < 256) then _8_palette else _256_palette.

(** [Screen.start_line] and [Screen.dimensions] *)
Definition start_line (s : Screen) : Z := _start_line s.
Definition dimensions (s : Screen) : Z * Z := (height s, width s).

(** [Screen.is_visible] *)
Definition is_visible (s : Screen) (x y : Z) : bool :=
  bool_decide (x >= 0) && bool_decide (x <= width s) &&
  bool_decide (y >= _start_line s) &&
  bool_decide (y < _start_line s + height s).

(** ** The backend primitives *)

(** Modelled from the spec: the [win32console] flag constants are declared
    outside this repository ("OR-combinations of 3 bit flags per channel",
    background in the top nibble); the values are those of the Windows
    console API. *)
Module win32console.
Definition FOREGROUND_BLUE : Z := 1.
Definition FOREGROUND_GREEN : Z := 2.
Definition FOREGROUND_RED : Z := 4.
Definition FOREGROUND_INTENSITY : Z := 8.
Definition BACKGROUND_BLUE : Z := 16.
Definition BACKGROUND_GREEN : Z := 32.
Definition BACKGROUND_RED : Z := 64.
End win32console.

Module Windows.
Import win32console.

(** Foreground colour lookup table. *)
Definition _COLOURS : gmap Z Z :=
  list_to_map
    [ (COLOUR_BLACK, 0);
      (COLOUR_RED, FOREGROUND_RED);
      (COLOUR_GREEN, FOREGROUND_GREEN);
      (COLOUR_YELLOW, Z.lor FOREGROUND_RED FOREGROUND_GREEN);
      (COLOUR_BLUE, FOREGROUND_BLUE);
      (COLOUR_MAGENTA, Z.lor FOREGROUND_RED FOREGROUND_BLUE);
      (COLOUR_CYAN, Z.lor FOREGROUND_BLUE FOREGROUND_GREEN);
      (COLOUR_WHITE,
       Z.lor (Z.lor FOREGROUND_RED FOREGROUND_GREEN) FOREGROUND_BLUE) ].

(** Background colour lookup table. *)
Definition _BG_COLOURS : gmap Z Z :=
  list_to_map
    [ (COLOUR_BLACK, 0);
      (COLOUR_RED, BACKGROUND_RED);
      (COLOUR_GREEN, BACKGROUND_GREEN);
      (COLOUR_YELLOW, Z.lor BACKGROUND_RED BACKGROUND_GREEN);
      (COLOUR_BLUE, BACKGROUND_BLUE);
      (COLOUR_MAGENTA, Z.lor BACKGROUND_RED BACKGROUND_BLUE);
      (COLOUR_CYAN, Z.lor BACKGROUND_BLUE BACKGROUND_GREEN);
      (COLOUR_WHITE,
       Z.lor (Z.lor BACKGROUND_RED BACKGROUND_GREEN) BACKGROUND_BLUE) ].

(** Attribute lookup table; reverse swaps the two nibbles. *)
Definition _ATTRIBUTES : gmap Z (Z -> Z) :=
  list_to_map
    [ (0, fun x => x);
      (A_BOLD, fun x => Z.lor x FOREGROUND_INTENSITY);
      (A_NORMAL, fun x => x);
      (A_REVERSE, fun x => (Z.land x 15) * 16 + (Z.land x 240) / 16);
      (A_UNDERLINE, fun x => x) ].

(** [_WindowsScreen._change_colours] *)
Definition _change_colours (colour attr bg : Z) : SM unit :=
  s <- get ;;
  when (bool_decide (Some colour <> _colour s) ||
        bool_decide (Some attr <> _attr s) ||
        bool_decide (_bg s <> Some bg))
    (f <- or_raise KeyError (_ATTRIBUTES !! attr) ;;
     fg <- or_raise KeyError (_COLOURS !! colour) ;;
     b <- or_raise KeyError (_BG_COLOURS !! bg) ;;
     write (dev_console_attribute (f (fg + b))) ;;;
     modify (set_attr (Some attr)) ;;;
     modify (set_colour (Some colour)) ;;;
     modify (set_bg (Some bg))).

(** [_WindowsScreen._print_at] *)
Definition _print_at (text : list ascii) (x y : Z) : SM unit :=
  s <- get ;;
  when (bool_decide (Some x <> _x s) || bool_decide (Some y <> _y s))
    (write (dev_move x y)) ;;;
  write (dev_write text) ;;;
  modify (set_x (Some (x + Py.len text))) ;;;
  modify (set_y (Some y)).

(** [_WindowsScreen._scroll]: one [ScrollConsoleScreenBuffer] request. *)
Definition _scroll : SM unit := write dev_scroll.

(** [_WindowsScreen._clear] *)
Definition _clear : SM unit := write dev_clear.

Definition rect_width (r : SMALL_RECT) : Z := Right r - Left r + 1.
Definition rect_height (r : SMALL_RECT) : Z := Bottom r - Top r + 1.

(** [_WindowsScreen.has_resized] on the fields of the Windows backend. *)
Definition has_resized (info : SMALL_RECT) (last_width last_height : option Z)
  : bool * option Z * option Z :=
  let w := rect_width info in
  let h := rect_height info in
  let re_sized :=
    bool_decide (last_width <> None) &&
    (bool_decide (Some w <> last_width) ||
     bool_decide (Some h <> last_height)) in
  (re_sized, Some w, Some h).
End Windows.

Module Curses.

(** Conversion from Screen attributes to the terminal's escape codes. *)
Definition _ATTRIBUTES : gmap Z DeviceOp :=
  list_to_map
    [ (A_BOLD, dev_attribute A_BOLD);
      (A_NORMAL, dev_normal);
      (A_REVERSE, dev_attribute A_REVERSE);
      (A_UNDERLINE, dev_attribute A_UNDERLINE) ].

(** [_CursesScreen._change_colours] *)
Definition _change_colours (colour attr bg : Z) : SM unit :=
  s <- get ;;
  when (bool_decide (Some attr <> _attr s))
    (write dev_normal ;;;
     when (bool_decide (attr <> 0))
       (op <- or_raise KeyError (_ATTRIBUTES !! attr) ;; write op) ;;;
     modify (set_attr (Some attr)) ;;;
     modify (set_colour None) ;;;
     modify (set_bg None)) ;;;
  s <- get ;;
  when (bool_decide (Some colour <> _colour s))
    (write (dev_foreground colour) ;;; modify (set_colour (Some colour))) ;;;
  s <- get ;;
  when (bool_decide (Some bg <> _bg s))
    (write (dev_background bg) ;;; modify (set_bg (Some bg))).

(** [_CursesScreen._print_at]: the cursor position is not recorded. *)
Definition _print_at (text : list ascii) (x y : Z) : SM unit :=
  s <- get ;;
  when (bool_decide (Some x <> _x s) || bool_decide (Some y <> _y s))
    (write (dev_move x y)) ;;;
  write (dev_write text).

(** [_CursesScreen._scroll]: a line feed on the bottom line. *)
Definition _scroll : SM unit := write dev_scroll.

(** [_CursesScreen._clear] *)
Definition _clear : SM unit := write dev_clear.
End Curses.

Module Blessed.

(** Conversion from Screen attributes to blessed equivalents; normal is
    the empty string. *)
Definition ATTRIBUTES : gmap Z (list DeviceOp) :=
  list_to_map
    [ (A_BOLD, [dev_attribute A_BOLD]);
      (A_NORMAL, []);
      (A_REVERSE, [dev_attribute A_REVERSE]);
      (A_UNDERLINE, [dev_attribute A_UNDERLINE]) ].

(** [_BlessedScreen._change_colours] *)
Definition _change_colours (colour attr bg : Z) : SM unit :=
  s <- get ;;
  when (bool_decide (Some attr <> _attr s))
    (write dev_normal ;;; write (dev_background 0) ;;;
     when (bool_decide (attr <> 0))
       (ops <- or_raise KeyError (ATTRIBUTES !! attr) ;; for_each ops write) ;;;
     modify (set_attr (Some attr)) ;;;
     modify (set_colour None)) ;;;
  s <- get ;;
  when (bool_decide (Some colour <> _colour s))
    (write (dev_foreground colour) ;;; modify (set_colour (Some colour))) ;;;
  s <- get ;;
  when (bool_decide (Some bg <> _bg s))
    (write (dev_background bg) ;;; modify (set_bg (Some bg))).

(** [_BlessedScreen._print_at] *)
Definition _print_at (text : list ascii) (x y : Z) : SM unit :=
  s <- get ;;
  when (bool_decide (Some x <> _x s) || bool_decide (Some y <> _y s))
    (write (dev_move x y)) ;;;
  write (dev_write text) ;;;
  modify (set_x (Some (x + Py.len text))) ;;;
  modify (set_y (Some y)).

(** [_BlessedScreen._scroll]: a line feed on the bottom line. *)
Definition _scroll : SM unit := write dev_scroll.

(** [_BlessedScreen._clear] *)
Definition _clear : SM unit := write dev_clear.
End Blessed.

(** The abstract methods of [_BufferedScreen], dispatched on the class. *)
Definition _change_colours (colour attr bg : Z) : SM unit :=
  s <- get ;;
  match backend s with
  | _WindowsScreen _ _ _ _ => Windows._change_colours colour attr bg
  | _CursesScreen _ => Curses._change_colours colour attr bg
  | _BlessedScreen _ => Blessed._change_colours colour attr bg
  end.

Definition _print_at (text : list ascii) (x y : Z) : SM unit :=
  s <- get ;;
  match backend s with
  | _WindowsScreen _ _ _ _ => Windows._print_at text x y
  | _CursesScreen _ => Curses._print_at text x y
  | _BlessedScreen _ => Blessed._print_at text x y
  end.

Definition _scroll : SM unit :=
  s <- get ;;
  match backend s with
  | _WindowsScreen _ _ _ _ => Windows._scroll
  | _CursesScreen _ => Curses._scroll
  | _BlessedScreen _ => Blessed._scroll
  end.

Definition _clear : SM unit :=
  s <- get ;;
  match backend s with
  | _WindowsScreen _ _ _ _ => Windows._clear
  | _CursesScreen _ => Curses._clear
  | _BlessedScreen _ => Blessed._clear
  end.

(** [has_resized], one body per class. *)
Definition has_resized : SM bool :=
  s <- get ;;
  match backend s with
  | _WindowsScreen info lw lh map_all =>
      let '(re_sized, lw', lh') := Windows.has_resized info lw lh in
      modify (set_backend (_WindowsScreen info lw' lh' map_all)) ;;;
      ret re_sized
  | _CursesScreen re_sized =>
      modify (set_backend (_CursesScreen false)) ;;; ret re_sized
  | _BlessedScreen re_sized =>
      modify (set_backend (_BlessedScreen false)) ;;; ret re_sized
  end.

(** The resize occurrences of the environment: the SIGWINCH handler
    [_resize_handler] of the two terminal classes, and a change of the
    console window of the Windows class. *)
Definition _resize_handler (s : Screen) : Screen :=
  match backend s with
  | _WindowsScreen _ _ _ _ => s
  | _CursesScreen _ => set_backend (_CursesScreen true) s
  | _BlessedScreen _ => set_backend (_BlessedScreen true) s
  end.

Definition console_window_changed (info : SMALL_RECT) (s : Screen) : Screen :=
  match backend s with
  | _WindowsScreen _ lw lh map_all =>
      set_backend (_WindowsScreen info lw lh map_all) s
  | _ => s
  end.

(** ** [_BufferedScreen] *)

(** [_BufferedScreen._reset] *)
Definition _reset : SM unit :=
  modify (set_start_line 0) ;;;
  modify (set_last_start_line 0) ;;;
  modify (set_x None) ;;;
  modify (set_y None) ;;;
  s <- get ;;
  let line : list Cell := (fun _ => (" "%char, 7, 0, 0)) <$> Py.range (width s) in
  let buffer : Buffer := (fun _ => line) <$> Py.range (_buffer_height s) in
  modify (set_screen_buffer buffer) ;;;
  modify (set_double_buffer buffer).

(** [_BufferedScreen.scroll] *)
Definition scroll : SM unit :=
  s <- get ;; modify (set_start_line (_start_line s + 1)).

(** [_BufferedScreen.clear] *)
Definition clear : SM unit :=
  _change_colours COLOUR_WHITE 0 0 ;;;
  _clear ;;;
  _reset.

(** [buffer[y][x]] *)
Definition cell_at (b : Buffer) (x y : Z) : option Cell :=
  row ← Py.getitem b y; Py.getitem row x.

(** [buffer[y][x] = v]; the row is updated in place. *)
Definition store_cell (b : Buffer) (x y : Z) (v : Cell) : option Buffer :=
  row ← Py.getitem b y; row' ← Py.setitem row x v; Py.setitem b y row'.

(** [self._screen_buffer[y][x] = v] *)
Definition store_committed (x y : Z) (v : Cell) : SM unit :=
  s <- get ;;
  b <- or_raise IndexError (store_cell (_screen_buffer s) x y v) ;;
  modify (set_screen_buffer b).

(** [self._double_buffer[y][x] = v] *)
Definition store_pending (x y : Z) (v : Cell) : SM unit :=
  s <- get ;;
  b <- or_raise IndexError (store_cell (_double_buffer s) x y v) ;;
  modify (set_double_buffer b).

(** The body of the two loops of [refresh], for one cell. *)
Definition refresh_cell (y x : Z) : SM unit :=
  s <- get ;;
  new_cell <- or_raise IndexError (cell_at (_double_buffer s) x (y + _start_line s)) ;;
  old_cell <- or_raise IndexError (cell_at (_screen_buffer s) x (y + _start_line s)) ;;
  when (bool_decide (old_cell <> new_cell))
    (let '(c, colour, attr, bg) := new_cell in
     _change_colours colour attr bg ;;;
     _print_at [c] x y ;;;
     s <- get ;;
     store_committed x (y + _start_line s) new_cell).

(** [_BufferedScreen.refresh].  The terminal classes flush standard output
    afterwards and ignore an interrupted flush. *)
Definition refresh : SM unit :=
  s <- get ;;
  for_each (Py.range (_start_line s - _last_start_line s)) (fun _ => _scroll) ;;;
  modify (set_last_start_line (_start_line s)) ;;;
  for_each (Py.range (height s)) (fun y =>
    for_each (Py.range (width s)) (fun x => refresh_cell y x)).

(** [_BufferedScreen.get_from] *)
Definition get_from (x y : Z) : SM (Z * Z * Z * Z) :=
  s <- get ;;
  cell <- or_raise IndexError (cell_at (_screen_buffer s) x y) ;;
  let '(c, colour, attr, bg) := cell in
  ret (Py.ord c, colour, attr, bg).

(** [Screen.getch] *)
Definition getch (x y : Z) : SM (Z * Z * Z * Z) := get_from x y.

(** [_BufferedScreen.print_at] *)
Definition print_at (text : list ascii) (x y colour attr bg : Z)
    (transparent : bool) : SM unit :=
  s <- get ;;
  if bool_decide (y < 0) || bool_decide (y >= _buffer_height s) then ret tt
  else
    let '(text, x) :=
      if bool_decide (x < 0) then (Py.slice_from text (- x), 0) else (text, x) in
    let text :=
      if bool_decide (x + Py.len text >= width s)
      then Py.slice_to text (width s - x) else text in
    when (bool_decide (Py.len text > 0))
      (for_each (Py.enumerate text) (fun '(i, c) =>
         when (bool_decide (c <> " "%char) || negb transparent)
           (store_pending (x + i) y (c, colour, attr, bg)))).

(** ** The drawing methods of [Screen] *)

(** [Screen.putch]: the body is a call of [putch] itself; [depth] bounds the
    number of nested calls. *)
Fixpoint putch (depth : nat) (text : list ascii) (x y colour attr bg : Z)
    (transparent : bool) : SM unit :=
  match depth with
  | O => out_of_fuel
  | S depth' => putch depth' text x y colour attr bg transparent
  end.

(** An entry of a colour map: a tuple of up to three optional values. *)
Abbreviation ColourMap := (list (list (option Z))).

(** [if len(entry) > k and entry[k] is not None: v = entry[k]] *)
Definition override (entry : list (option Z)) (k : nat) (v : Z) : Z :=
  match entry !! k with
  | Some (Some v') => v'
  | _ => v
  end.

(** The loop of [paint]; colour, attr and bg are carried from one character
    to the next. *)
Fixpoint paint_loop (cs : list (Z * ascii)) (x y colour attr bg : Z)
    (transparent : bool) (colour_map : ColourMap) : SM unit :=
  match cs with
  | [] => ret tt
  | (i, c) :: cs' =>
      entry <- or_raise IndexError (Py.getitem colour_map i) ;;
      let colour := override entry 0 colour in
      let attr := override entry 1 attr in
      let bg := override entry 2 bg in
      print_at [c] (x + i) y colour attr bg transparent ;;;
      paint_loop cs' x y colour attr bg transparent colour_map
  end.

(** [Screen.paint] *)
Definition paint (text : list ascii) (x y colour attr bg : Z)
    (transparent : bool) (colour_map : option ColourMap) : SM unit :=
  match colour_map with
  | None => print_at text x y colour attr bg transparent
  | Some cm => paint_loop (Py.enumerate text) x y colour attr bg transparent cm
  end.

(** [Screen.centre] *)
Definition centre (text : list ascii) (y colour attr : Z)
    (colour_map : option ColourMap) : SM unit :=
  s <- get ;;
  let x := (width s - Py.len text) / 2 in
  paint text x y colour attr 0 false colour_map.

(** [Screen.move], for integer coordinates. *)
Definition move (x y : Z) : SM unit :=
  modify (set_x (Some (x * 2))) ;;;
  modify (set_y (Some (y * 2))).

(** *** [Screen.draw] *)

(** [range(0, 2) if s > 0 else range(1, -1, -1)] *)
Definition sub_range (step : Z) : list Z :=
  if bool_decide (step > 0) then [0; 1] else [1; 0].

(** The local variables of a pass of the loop: [x], [y], [err] and the two
    entries of [next_chars]. *)
Abbreviation Pen := (Z * Z * Z * Z * Z)%type.

(** One turn of [for ix in x_range] when the line is closer to horizontal. *)
Definition x_major_step (thin : bool) (dx dy sx sy py : Z) (pen : Pen) (ix : Z)
    : Pen :=
  let '(x, y, err, n0, n1) := pen in
  let '(n0, n1) :=
    if bool_decide (y >= py) && bool_decide (y - py < 2)
    then (Z.lor n0 (2 ^ ix * 4 ^ (y `mod` 2)), n1)
    else (n0, Z.lor n1 (2 ^ ix * 4 ^ (y `mod` 2))) in
  let '(n0, n1) :=
    if thin then (n0, n1)
    else if bool_decide (y + sy >= py) && bool_decide (y + sy - py < 2)
    then (Z.lor n0 (2 ^ ix * 4 ^ ((y + sy) `mod` 2)), n1)
    else (n0, Z.lor n1 (2 ^ ix * 4 ^ ((y + sy) `mod` 2))) in
  let err := err - 2 * dy in
  let '(y, err) :=
    if bool_decide (err < 0) then (y + sy, err + 2 * dx) else (y, err) in
  (x + sx, y, err, n0, n1).

(** One turn of [for iy in y_range] when the line is closer to vertical. *)
Definition y_major_step (thin : bool) (dx dy sx sy px : Z) (pen : Pen) (iy : Z)
    : Pen :=
  let '(x, y, err, n0, n1) := pen in
  let '(n0, n1) :=
    if bool_decide (x >= px) && bool_decide (x - px < 2)
    then (Z.lor n0 (2 ^ (x `mod` 2) * 4 ^ iy), n1)
    else (n0, Z.lor n1 (2 ^ (x `mod` 2) * 4 ^ iy)) in
  let '(n0, n1) :=
    if thin then (n0, n1)
    else if bool_decide (x + sx >= px) && bool_decide (x + sx - px < 2)
    then (Z.lor n0 (2 ^ ((x + sx) `mod` 2) * 4 ^ iy), n1)
    else (n0, Z.lor n1 (2 ^ ((x + sx) `mod` 2) * 4 ^ iy)) in
  let err := err - 2 * dx in
  let '(x, err) :=
    if bool_decide (err < 0) then (x + sx, err + 2 * dy) else (x, err) in
  (x, y + sy, err, n0, n1).

(** What a pass prints: the glyphs of the two masks, two blanks, or the
    given character.  [(cx, cy)] is the cell of the pass and [(cx', cy')]
    its neighbour in the direction of the minor axis. *)
Definition plot (char : option (list ascii)) (colour bg n0 n1 : Z)
    (cx cy cx' cy' : Z) : SM unit :=
  match char with
  | None =>
      g0 <- or_raise IndexError (Py.getitem _line_chars n0) ;;
      print_at [g0] cx cy colour 0 bg false ;;;
      when (bool_decide (n1 <> 0))
        (g1 <- or_raise IndexError (Py.getitem _line_chars n1) ;;
         print_at [g1] cx' cy' colour 0 bg false)
  | Some c =>
      if bool_decide (c = [" "%char]) then
        print_at c cx cy 7 0 bg false ;;;
        print_at c cx' cy' 7 0 bg false
      else
        print_at c cx cy colour 0 bg false
  end.

(** [while x != x1: ...]; [fuel] bounds the number of passes. *)
Fixpoint draw_x_major (fuel : nat) (char : option (list ascii))
    (colour bg : Z) (thin : bool) (dx dy sx sy x1 : Z) (x y err : Z)
    : SM unit :=
  if bool_decide (x <> x1) then
    match fuel with
    | O => out_of_fuel
    | S fuel' =>
        let px := Z.land x (Z.lnot 1) in
        let py := Z.land y (Z.lnot 1) in
        let '(x, y, err, n0, n1) :=
          foldl (x_major_step thin dx dy sx sy py) (x, y, err, 0, 0)
                (sub_range sx) in
        plot char colour bg n0 n1 (px / 2) (py / 2) (px / 2) (py / 2 + sy) ;;;
        draw_x_major fuel' char colour bg thin dx dy sx sy x1 x y err
    end
  else ret tt.

(** [while y != y1: ...] *)
Fixpoint draw_y_major (fuel : nat) (char : option (list ascii))
    (colour bg : Z) (thin : bool) (dx dy sx sy y1 : Z) (x y err : Z)
    : SM unit :=
  if bool_decide (y <> y1) then
    match fuel with
    | O => out_of_fuel
    | S fuel' =>
        let px := Z.land x (Z.lnot 1) in
        let py := Z.land y (Z.lnot 1) in
        let '(x, y, err, n0, n1) :=
          foldl (y_major_step thin dx dy sx sy px) (x, y, err, 0, 0)
                (sub_range sy) in
        plot char colour bg n0 n1 (px / 2) (py / 2) (px / 2 + sx) (py / 2) ;;;
        draw_y_major fuel' char colour bg thin dx dy sx sy y1 x y err
    end
  else ret tt.

(** [Screen.draw], for integer coordinates.  The cursor is moved to the end
    point before the line is traced. *)
Definition draw (fuel : nat) (x y : Z) (char : option (list ascii))
    (colour bg : Z) (thin : bool) : SM unit :=
  s <- get ;;
  let x1 := x * 2 in
  let y1 := y * 2 in
  modify (set_x (Some x1)) ;;;
  modify (set_y (Some y1)) ;;;
  x0 <- or_raise TypeError (_x s) ;;
  y0 <- or_raise TypeError (_y s) ;;
  let dx := Z.abs (x1 - x0) in
  let dy := Z.abs (y1 - y0) in
  let sx := if bool_decide (x0 > x1) then -1 else 1 in
  let sy := if bool_decide (y0 > y1) then -1 else 1 in
  if bool_decide (dx > dy)
  then draw_x_major fuel char colour bg thin dx dy sx sy x1 x0 y0 dx
  else draw_y_major fuel char colour bg thin dx dy sx sy y1 x0 y0 dy.

(** ** Construction *)

(** [_BufferedScreen.__init__], after [Screen.__init__]. *)
Definition _BufferedScreen__init__ (height width buffer_height : Z)
    (b : Backend) : Screen :=
  snd (_reset
    {| height := height; width := width; colours := 0;
       _start_line := 0; _x := None; _y := None;
       _screen_buffer := []; _double_buffer := [];
       _buffer_height := buffer_height;
       _colour := None; _attr := None; _bg := None;
       _last_start_line := 0; backend := b; device := [] |}).

Definition set_colours (v : Z) (s : Screen) : Screen :=
  {| height := height s; width := width s; colours := v;
     _start_line := _start_line s; _x := _x s; _y := _y s;
     _screen_buffer := _screen_buffer s; _double_buffer := _double_buffer s;
     _buffer_height := _buffer_height s; _colour := _colour s;
     _attr := _attr s; _bg := _bg s; _last_start_line := _last_start_line s;
     backend := backend s; device := device s |}.

(** [_WindowsScreen.__init__]: the size is that of the console window, and
    Windows is limited to the ANSI colour set. *)
Definition _WindowsScreen__init__ (info : SMALL_RECT) (buffer_height : Z)
    : Screen :=
  set_colours 8
    (_BufferedScreen__init__ (Windows.rect_height info) (Windows.rect_width info)
       buffer_height (_WindowsScreen info None None false)).

(** [_CursesScreen.__init__]: [maxy], [maxx] are [win.getmaxyx()] and
    [COLORS] is [curses.COLORS]. *)
Definition _CursesScreen__init__ (maxy maxx COLORS : Z) (height : Z) : Screen :=
  set_colours COLORS
    (_BufferedScreen__init__ maxy maxx height (_CursesScreen false)).

(** [_BlessedScreen.__init__] *)
Definition _BlessedScreen__init__ (term_height term_width number_of_colors : Z)
    (height : Z) : Screen :=
  set_colours number_of_colors
    (_BufferedScreen__init__ term_height term_width height (_BlessedScreen false)).

(** ** Calls, runs and reachable states *)

(** The calls that draw: they take the pen or write text. *)
Inductive DrawingCall :=
| call_print_at (text : list ascii) (x y colour attr bg : Z) (transparent : bool)
| call_paint (text : list ascii) (x y colour attr bg : Z) (transparent : bool)
             (colour_map : option ColourMap)
| call_centre (text : list ascii) (y colour attr : Z)
              (colour_map : option ColourMap)
| call_move (x y : Z)
| call_draw (x y : Z) (char : option (list ascii)) (colour bg : Z) (thin : bool).

Definition exec_drawing (fuel : nat) (c : DrawingCall) : SM unit :=
  match c with
  | call_print_at text x y colour attr bg transparent =>
      print_at text x y colour attr bg transparent
  | call_paint text x y colour attr bg transparent colour_map =>
      paint text x y colour attr bg transparent colour_map
  | call_centre text y colour attr colour_map =>
      centre text y colour attr colour_map
  | call_move x y => move x y
  | call_draw x y char colour bg thin => draw fuel x y char colour bg thin
  end.

(** A sequence of drawing calls, each started whatever became of the one
    before it (a caller may catch what a call raises); the screen that
    results. *)
Fixpoint run_drawing (fuel : nat) (cs : list DrawingCall) (s : Screen) : Screen :=
  match cs with
  | [] => s
  | c :: cs' => run_drawing fuel cs' (snd (exec_drawing fuel c s))
  end.

(** Everything that can happen to a screen: a call of its interface, or a
    resize occurrence of the environment. *)
Inductive Call :=
| call_drawing (d : DrawingCall)
| call_putch (text : list ascii) (x y colour attr bg : Z) (transparent : bool)
| call_scroll
| call_clear
| call_refresh
| call_get_from (x y : Z)
| call_has_resized
| env_resize_signal
| env_window_changed (info : SMALL_RECT).

Definition exec (fuel : nat) (c : Call) (s : Screen) : Screen :=
  match c with
  | call_drawing d => snd (exec_drawing fuel d s)
  | call_putch text x y colour attr bg transparent =>
      snd (putch fuel text x y colour attr bg transparent s)
  | call_scroll => snd (scroll s)
  | call_clear => snd (clear s)
  | call_refresh => snd (refresh s)
  | call_get_from x y => snd (get_from x y s)
  | call_has_resized => snd (has_resized s)
  | env_resize_signal => _resize_handler s
  | env_window_changed info => console_window_changed info s
  end.

(** The screens a program can hold: a freshly constructed one of any of the
    three classes, and what any call or occurrence makes of one, also when
    the call raises or is cut off. *)
Inductive reachable : Screen -> Prop :=
| reach_windows info buffer_height :
    reachable (_WindowsScreen__init__ info buffer_height)
| reach_curses maxy maxx COLORS buffer_height :
    reachable (_CursesScreen__init__ maxy maxx COLORS buffer_height)
| reach_blessed term_height term_width number_of_colors buffer_height :
    reachable (_BlessedScreen__init__ term_height term_width number_of_colors
                 buffer_height)
| reach_call s fuel c :
    reachable s -> reachable (exec fuel c s).

(** ** Predicates of the statements *)

(** A buffer of [h] rows of [w] cells. *)
Definition shaped (h w : nat) (b : Buffer) : Prop :=
  length b = h /\ Forall (fun row => length row = w) b.

(** Both buffers have [_buffer_height] rows of [width] cells, and the window
    starts at a row that is not negative. *)
Definition wf (s : Screen) : Prop :=
  0 <= _start_line s /\
  shaped (Z.to_nat (_buffer_height s)) (Z.to_nat (width s)) (_screen_buffer s) /\
  shaped (Z.to_nat (_buffer_height s)) (Z.to_nat (width s)) (_double_buffer s).

(** [(x, y)] is a cell of the window on the buffer. *)
Definition in_viewport (s : Screen) (x y : Z) : Prop :=
  _start_line s <= y < _start_line s + height s /\ 0 <= x < width s.

(** The window lies inside the buffer. *)
Definition viewport_in_buffer (s : Screen) : Prop :=
  _start_line s + height s <= _buffer_height s.

(** The colours and attribute of a cell are keys of the tables of the
    backend, so that [_change_colours] accepts them. *)
Definition renderable (b : Backend) (colour attr bg : Z) : bool :=
  match b with
  | _WindowsScreen _ _ _ _ =>
      bool_decide (0 <= attr <= 4) && bool_decide (0 <= colour <= 7) &&
      bool_decide (0 <= bg <= 7)
  | _CursesScreen _ | _BlessedScreen _ => bool_decide (0 <= attr <= 4)
  end.

Definition renderable_cell (b : Backend) (c : Cell) : bool :=
  let '(_, colour, attr, bg) := c in renderable b colour attr bg.

(** Every pending cell of the window can be sent to the device. *)
Definition pending_renderable (s : Screen) : Prop :=
  forall x y c, in_viewport s x y ->
    cell_at (_double_buffer s) x y = Some c ->
    renderable_cell (backend s) c = true.

#[global] Instance DeviceOp_eq_dec : EqDecision DeviceOp.
Proof. solve_decision. Defined.

(** How many times [_scroll] has been invoked so far. *)
Definition scroll_calls (s : Screen) : nat :=
  length (filter (fun op => op = dev_scroll) (device s)).

(** [scroll()] called [n] times. *)
Definition scroll_times (n : nat) (s : Screen) : Screen :=
  Nat.iter n (fun s => snd (scroll s)) s.

(** The start lines and the number of [_scroll] calls so far. *)
Definition scroll_state (a l : Z) (n : nat) (s : Screen) : Prop :=
  _start_line s = a /\ _last_start_line s = l /\ scroll_calls s = n.

(** The latest refresh has seen the present start line. *)
Definition baseline_current (s : Screen) : Prop :=
  _last_start_line s = _start_line s.

(** A single resize occurrence: the console window becomes [info] for the
    Windows class, SIGWINCH is delivered for the terminal classes. *)
Definition resize_occurs (info : SMALL_RECT) (s : Screen) : Screen :=
  match backend s with
  | _WindowsScreen _ _ _ _ => console_window_changed info s
  | _CursesScreen _ | _BlessedScreen _ => _resize_handler s
  end.

(** The occurrence changes the size of the window. *)
Definition changes_size (info : SMALL_RECT) (s : Screen) : Prop :=
  match backend s with
  | _WindowsScreen cur _ _ _ =>
      Windows.rect_width info <> Windows.rect_width cur \/
      Windows.rect_height info <> Windows.rect_height cur
  | _CursesScreen _ | _BlessedScreen _ => True
  end.

(** The size recorded by the latest poll of [has_resized] is the present
    size of the window; the terminal classes record no size. *)
Definition size_polled (s : Screen) : Prop :=
  match backend s with
  | _WindowsScreen cur lw lh _ =>
      lw = Some (Windows.rect_width cur) /\ lh = Some (Windows.rect_height cur)
  | _CursesScreen _ | _BlessedScreen _ => True
  end.

(** ** Sample screens *)

Definition console_80x25 : SMALL_RECT :=
  {| Left := 0; Top := 0; Right := 79; Bottom := 24 |}.

Definition console_100x25 : SMALL_RECT :=
  {| Left := 0; Top := 0; Right := 99; Bottom := 24 |}.

(** A Windows console of 25 lines of 80 columns, with a buffer of 30 lines. *)
Definition windows_screen : Screen := _WindowsScreen__init__ console_80x25 30.

(** A 256 colour terminal of 2 lines of 10 columns, with a buffer of 5 lines. *)
Definition curses_screen : Screen := _CursesScreen__init__ 2 10 256 5.

(** The character that text printed at [(x, y)] puts on cell [(x', y')]. *)
Definition text_at (text : list ascii) (x y x' y' : Z) : option ascii :=
  if bool_decide (y' = y /\ x <= x') then text !! Z.to_nat (x' - x) else None.

(** A cell after a character, if any, has been printed over it. *)
Definition overlay (old : option Cell) (c : option ascii)
    (colour attr bg : Z) (transparent : bool) : option Cell :=
  match c with
  | Some c =>
      if bool_decide (c <> " "%char) || negb transparent
      then Some (c, colour, attr, bg) else old
  | None => old
  end.

(** What no step of a refresh changes: the sizes, the start line, the
    pending buffer and the class of the screen. *)
Definition same_pending (s0 s : Screen) : Prop :=
  height s = height s0 /\ width s = width s0 /\
  _start_line s = _start_line s0 /\ _buffer_height s = _buffer_height s0 /\
  _double_buffer s = _double_buffer s0 /\ backend s = backend s0.

(** The same, and the committed buffer too: what the backend primitives
    leave as it was. *)
Definition same_buffers (s0 s : Screen) : Prop :=
  same_pending s0 s /\ _screen_buffer s = _screen_buffer s0.

(** A computation returns from every state. *)
Definition total {A} (m : SM A) : Prop :=
  forall s, exists a s', m s = (Ok a, s').

(** The start line seen by the latest refresh is a row that is not
    negative, at or before the present start line. *)
Definition baseline_behind (s : Screen) : Prop :=
  0 <= _last_start_line s <= _start_line s.

(** What drawing leaves as it was: everything but the pending buffer and
    the pen. *)
Definition same_but_drawn (s0 s : Screen) : Prop :=
  height s = height s0 /\ width s = width s0 /\ colours s = colours s0 /\
  _start_line s = _start_line s0 /\ _screen_buffer s = _screen_buffer s0 /\
  _buffer_height s = _buffer_height s0 /\ _colour s = _colour s0 /\
  _attr s = _attr s0 /\ _bg s = _bg s0 /\
  _last_start_line s = _last_start_line s0 /\ backend s = backend s0 /\
  device s = device s0.

(** A call that is neither [move] nor [draw]. *)
Definition writes_text (c : DrawingCall) : Prop :=
  match c with
  | call_move _ _ | call_draw _ _ _ _ _ _ => False
  | _ => True
  end.

(** The value of the colour, attribute or background (component [k] of the
    entries) that [paint] has reached after the entries [entries] of the
    colour map, starting from [v]: the latest entry that gives one wins. *)
Definition running (k : nat) (v : Z) (entries : list (list (option Z))) : Z :=
  foldl (fun v entry => override entry k v) v entries.

(** The operations that set the colours and the attribute of the device. *)
Definition colour_op (op : DeviceOp) : Prop :=
  match op with
  | dev_console_attribute _ | dev_normal | dev_attribute _
  | dev_foreground _ | dev_background _ => True
  | _ => False
  end.

(** From [s0] to [s] the device has been sent operations in [P] only. *)
Definition sent_only (P : DeviceOp -> Prop) (s0 s : Screen) : Prop :=
  exists ops, device s = ops ++ device s0 /\ Forall P ops.

(** How many times the device has been cleared so far. *)
Definition clear_calls (s : Screen) : nat :=
  length (filter (fun op => op = dev_clear) (device s)).

(** The blank buffer of [_reset]. *)
Definition blank_buffer (buffer_height width : Z) : Buffer :=
  (fun _ => (fun _ => (" "%char, 7, 0, 0)) <$> Py.range width)
    <$> Py.range buffer_height.

(** A computation is never cut off for want of fuel. *)
Definition finishes {A} (m : SM A) : Prop :=
  forall s, fst (m s) <> OutOfFuel.

(** What a refresh leaves as it was: the sizes, the start line, the pending
    buffer, the class of the screen and the number of colours, and on a
    curses screen the pen as well. *)
Definition kept_by_refresh (s0 s : Screen) : Prop :=
  same_pending s0 s /\ colours s = colours s0 /\
  (forall re_sized, backend s0 = _CursesScreen re_sized ->
     _x s = _x s0 /\ _y s = _y s0).

(** A statement keeps holding across a computation, whatever its outcome. *)
Definition preserves {A} (P : Screen -> Prop) (m : SM A) : Prop :=
  forall s, P s -> P (snd (m s)).

(** * Properties *)

(** ** The monad and its loops *)

Lemma bind_ret_l {S A B} (a : A) (k : A -> M S B) : bind (ret a) k = k a.
Proof. reflexivity. Qed.

Lemma bind_get_l {S B} (k : S -> M S B) (s : S) : bind get k s = k s s.
Proof. reflexivity. Qed.

Lemma bind_modify_l {S B} (f : S -> S) (k : unit -> M S B) (s : S) :
  bind (modify f) k s = k tt (f s).
Proof. reflexivity. Qed.

Section Preserves.
Context (P : Screen -> Prop).

Lemma preserves_ret {A} (a : A) : preserves P (ret a).
Proof. by intros s Hs. Qed.

Lemma preserves_raise {A} e : preserves P (@raise Screen A e).
Proof. by intros s Hs. Qed.

Lemma preserves_out_of_fuel {A} : preserves P (@out_of_fuel Screen A).
Proof. by intros s Hs. Qed.

Lemma preserves_get : preserves P get.
Proof. by intros s Hs. Qed.

Lemma preserves_or_raise {A} e (o : option A) : preserves P (or_raise e o).
Proof. by destruct o; intros s Hs. Qed.

Lemma preserves_modify f :
  (forall s, P s -> P (f s)) -> preserves P (modify f).
Proof. intros Hf s Hs. by apply Hf. Qed.

Lemma preserves_bind {A B} (m : SM A) (k : A -> SM B) :
  preserves P m -> (forall a, preserves P (k a)) -> preserves P (bind m k).
Proof.
  intros Hm Hk s Hs. unfold bind. specialize (Hm s Hs).
  destruct (m s) as [[a| |] s']; simpl in *; auto. by apply Hk.
Qed.

(** After a lookup, the rest may use that it found its result. *)
Lemma preserves_or_raise_bind {A B} e (o : option A) (k : A -> SM B) :
  (forall a, o = Some a -> preserves P (k a)) ->
  preserves P (bind (or_raise e o) k).
Proof.
  intros Hk. destruct o as [a|]; [|by intros s Hs].
  intros s Hs. by apply Hk.
Qed.

(** After [get], the rest may use that the state read satisfies [P]. *)
Lemma preserves_get_bind {B} (k : Screen -> SM B) :
  (forall s0, P s0 -> preserves P (k s0)) -> preserves P (bind get k).
Proof. intros Hk s Hs. unfold bind, get. by apply Hk. Qed.

Lemma preserves_when b (m : SM unit) :
  preserves P m -> preserves P (when b m).
Proof. destruct b; simpl; auto using preserves_ret. Qed.

Lemma preserves_for_each {A} (l : list A) (body : A -> SM unit) :
  (forall a, a ∈ l -> preserves P (body a)) -> preserves P (for_each l body).
Proof.
  intros Hb. induction l as [|a l IH]; simpl.
  - apply preserves_ret.
  - apply preserves_bind.
    + apply Hb. left.
    + intros _. apply IH. intros a' Ha'. apply Hb. by right.
Qed.
End Preserves.

(** Walks down a computation, leaving the assignments it meets. *)
Ltac frame_step :=
  lazymatch goal with
  | |- preserves _ (bind get _) => apply preserves_get_bind; intros ? ?
  | |- preserves _ (bind (or_raise _ _) _) =>
      apply preserves_or_raise_bind; intros ? ?
  | |- preserves _ (bind _ _) => apply preserves_bind; [|intros ?]
  | |- preserves _ (when _ _) => apply preserves_when
  | |- preserves _ (for_each _ _) => apply preserves_for_each; intros ? ?
  | |- preserves _ (ret _) => apply preserves_ret
  | |- preserves _ (raise _) => apply preserves_raise
  | |- preserves _ out_of_fuel => apply preserves_out_of_fuel
  | |- preserves _ (or_raise _ _) => apply preserves_or_raise
  | |- preserves _ (modify _) => apply preserves_modify
  | |- preserves _ (write _) => apply preserves_modify
  | |- preserves _ (match ?x with _ => _ end) => destruct x
  | |- preserves _ (let '(_, _) := ?x in _) => destruct x
  end.

Ltac frame := repeat frame_step.

(** ** Python indexing *)

Lemma getitem_nonneg {A} (l : list A) (i : Z) :
  0 <= i -> Py.getitem l i = l !! Z.to_nat i.
Proof.
  intros Hi. unfold Py.getitem, Py.norm_index.
  repeat case_bool_decide; simpl; try lia; try done.
  symmetry. apply lookup_ge_None. lia.
Qed.

Lemma setitem_nonneg {A} (l : list A) (i : Z) (v : A) :
  0 <= i ->
  Py.setitem l i v =
    if bool_decide (i < Py.len l) then Some (<[Z.to_nat i := v]> l) else None.
Proof.
  intros Hi. unfold Py.setitem, Py.norm_index, Py.len.
  repeat case_bool_decide; simpl; try lia; done.
Qed.

Lemma getitem_negative {A} (l : list A) (i : Z) :
  - Py.len l <= i < 0 -> Py.getitem l i = l !! Z.to_nat (Py.len l + i).
Proof.
  intros Hi. unfold Py.getitem, Py.norm_index, Py.len in *.
  repeat case_bool_decide; simpl; try lia; done.
Qed.

Lemma getitem_out_of_range {A} (l : list A) (i : Z) :
  i < - Py.len l \/ Py.len l <= i -> Py.getitem l i = None.
Proof.
  intros Hi. unfold Py.getitem, Py.norm_index, Py.len in *.
  repeat case_bool_decide; simpl; try lia; done.
Qed.

Lemma cell_at_nonneg (b : Buffer) (x y : Z) :
  0 <= x -> 0 <= y ->
  cell_at b x y = row ← b !! Z.to_nat y; row !! Z.to_nat x.
Proof.
  intros Hx Hy. unfold cell_at. rewrite getitem_nonneg by done.
  destruct (b !! Z.to_nat y) as [row|]; simpl; [|done].
  by apply getitem_nonneg.
Qed.

Lemma store_cell_nonneg (b : Buffer) (x y : Z) (v : Cell) :
  0 <= x -> 0 <= y ->
  store_cell b x y v =
    row ← b !! Z.to_nat y;
    if bool_decide (x < Py.len row)
    then Some (<[Z.to_nat y := <[Z.to_nat x := v]> row]> b) else None.
Proof.
  intros Hx Hy. unfold store_cell. rewrite getitem_nonneg by done.
  destruct (b !! Z.to_nat y) as [row|] eqn:Hrow; simpl; [|done].
  rewrite setitem_nonneg by done. case_bool_decide; simpl; [|done].
  rewrite setitem_nonneg by done. apply lookup_lt_Some in Hrow.
  rewrite bool_decide_eq_true_2; [done|]. unfold Py.len. lia.
Qed.

Lemma setitem_inv {A} (l l' : list A) (i : Z) (v : A) :
  Py.setitem l i v = Some l' -> exists k, l' = <[k := v]> l.
Proof.
  unfold Py.setitem. destruct (Py.norm_index _ _) as [k|]; simpl; [|done].
  intros [= <-]. by exists k.
Qed.

Lemma getitem_elem_of {A} (l : list A) (i : Z) (a : A) :
  Py.getitem l i = Some a -> a ∈ l.
Proof.
  unfold Py.getitem. destruct (Py.norm_index _ _) as [k|]; simpl; [|done].
  apply list_elem_of_lookup_2.
Qed.

Lemma store_cell_shaped h w (b b' : Buffer) x y v :
  shaped h w b -> store_cell b x y v = Some b' -> shaped h w b'.
Proof.
  intros [Hlen Hrows]. unfold store_cell.
  destruct (Py.getitem b y) as [row|] eqn:Hrow; simpl; [|done].
  destruct (Py.setitem row x v) as [row'|] eqn:Hrow'; simpl; [|done].
  intros Hb. apply setitem_inv in Hb as [k ->]. apply setitem_inv in Hrow' as [j ->].
  split; [by rewrite length_insert|].
  apply Forall_insert; [done|]. rewrite length_insert.
  apply getitem_elem_of in Hrow. by eapply Forall_forall in Hrows.
Qed.

Lemma shaped_lookup h w (b : Buffer) (r : nat) row :
  shaped h w b -> b !! r = Some row -> length row = w.
Proof.
  intros [_ Hrows] Hr. eapply Forall_forall in Hrows; [done|].
  by eapply list_elem_of_lookup_2.
Qed.

Lemma store_cell_is_Some h w (b : Buffer) x y v :
  shaped h w b -> 0 <= y < Z.of_nat h -> 0 <= x < Z.of_nat w ->
  exists b', store_cell b x y v = Some b'.
Proof.
  intros Hb Hy Hx. rewrite store_cell_nonneg by lia.
  destruct (lookup_lt_is_Some_2 b (Z.to_nat y)) as [row Hrow].
  { destruct Hb as [-> _]. lia. }
  rewrite Hrow. simpl. rewrite bool_decide_eq_true_2; [by eexists|].
  unfold Py.len. rewrite (shaped_lookup _ _ _ _ _ Hb Hrow). lia.
Qed.

Lemma store_cell_beyond h w (b : Buffer) x y v :
  shaped h w b -> 0 <= y -> Z.of_nat w <= x -> store_cell b x y v = None.
Proof.
  intros Hb Hy Hx. rewrite store_cell_nonneg by lia.
  destruct (b !! Z.to_nat y) as [row|] eqn:Hrow; simpl; [|done].
  rewrite bool_decide_eq_false_2; [done|].
  unfold Py.len. rewrite (shaped_lookup _ _ _ _ _ Hb Hrow). lia.
Qed.

(** Reading a buffer after one cell of it has been stored. *)
Lemma store_cell_lookup (b b' : Buffer) x y v x' y' :
  0 <= x -> 0 <= y -> 0 <= x' -> 0 <= y' ->
  store_cell b x y v = Some b' ->
  cell_at b' x' y' =
    if bool_decide (x' = x /\ y' = y) then Some v else cell_at b x' y'.
Proof.
  intros Hx Hy Hx' Hy'. rewrite store_cell_nonneg by done.
  rewrite !cell_at_nonneg by done.
  destruct (b !! Z.to_nat y) as [row|] eqn:Hrow; simpl; [|done].
  case_bool_decide as Hlen; [|done]. intros [= <-].
  unfold Py.len in Hlen.
  destruct (decide (y' = y)) as [->|Hne].
  - rewrite list_lookup_insert_eq by (by eapply lookup_lt_Some).
    rewrite Hrow. simpl.
    destruct (decide (x' = x)) as [->|Hnx].
    + rewrite bool_decide_eq_true_2 by done.
      apply list_lookup_insert_eq. lia.
    + rewrite bool_decide_eq_false_2 by (intros [? _]; done).
      apply list_lookup_insert_ne. lia.
  - rewrite bool_decide_eq_false_2 by (intros [_ ?]; done).
    rewrite list_lookup_insert_ne by lia. done.
Qed.

(** ** Well-formed screens *)

Lemma store_pending_wf x y v : preserves wf (store_pending x y v).
Proof.
  intros s (Hs & Hc & Hp). unfold store_pending, bind, get.
  destruct (store_cell _ _ _ _) as [b|] eqn:Hb; simpl; [|done].
  split_and!; try done. by eapply store_cell_shaped.
Qed.

Lemma store_committed_wf x y v : preserves wf (store_committed x y v).
Proof.
  intros s (Hs & Hc & Hp). unfold store_committed, bind, get.
  destruct (store_cell _ _ _ _) as [b|] eqn:Hb; simpl; [|done].
  split_and!; try done. eapply store_cell_shaped; [exact Hc|exact Hb].
Qed.

(** Closes the goals [frame] leaves when the assignment does not touch what
    the statement reads. *)
Ltac untouched := try (intros ? ?; assumption).

Lemma _change_colours_wf colour attr bg :
  preserves wf (_change_colours colour attr bg).
Proof.
  unfold _change_colours, Windows._change_colours, Curses._change_colours,
    Blessed._change_colours.
  frame; untouched.
Qed.

Lemma _print_at_wf text x y : preserves wf (_print_at text x y).
Proof.
  unfold _print_at, Windows._print_at, Curses._print_at, Blessed._print_at.
  frame; untouched.
Qed.

Lemma _scroll_wf : preserves wf _scroll.
Proof.
  unfold _scroll, Windows._scroll, Curses._scroll, Blessed._scroll.
  frame; untouched.
Qed.

Lemma _clear_wf : preserves wf _clear.
Proof.
  unfold _clear, Windows._clear, Curses._clear, Blessed._clear.
  frame; untouched.
Qed.

Lemma length_range n : length (Py.range n) = Z.to_nat n.
Proof. unfold Py.range. by rewrite length_fmap, length_seq. Qed.

Lemma shaped_blank (h w : Z) (c : Cell) :
  shaped (Z.to_nat h) (Z.to_nat w)
    ((fun _ => (fun _ => c) <$> Py.range w) <$> Py.range h).
Proof.
  split.
  - by rewrite length_fmap, length_range.
  - apply Forall_fmap, Forall_forall. intros ? _. simpl.
    by rewrite length_fmap, length_range.
Qed.

Lemma _reset_wf s : wf (snd (_reset s)).
Proof. split_and!; simpl; [lia|apply shaped_blank..]. Qed.

Lemma print_at_wf text x y colour attr bg transparent :
  preserves wf (print_at text x y colour attr bg transparent).
Proof. unfold print_at. frame. apply store_pending_wf. Qed.

(** What [print_at] and the moves of the pen keep, every drawing call
    keeps. *)
Section Drawing.
Context (P : Screen -> Prop).
Hypothesis print_at_keeps :
  forall text x y colour attr bg transparent,
    preserves P (print_at text x y colour attr bg transparent).
Hypothesis set_x_keeps : forall v s, P s -> P (set_x v s).
Hypothesis set_y_keeps : forall v s, P s -> P (set_y v s).

Lemma paint_keeps text x y colour attr bg transparent colour_map :
  preserves P (paint text x y colour attr bg transparent colour_map).
Proof.
  unfold paint. destruct colour_map as [cm|]; [|apply print_at_keeps].
  generalize (Py.enumerate text). intros cs.
  revert colour attr bg. induction cs as [|[i c] cs IH]; intros; simpl.
  - apply preserves_ret.
  - frame; [apply print_at_keeps|apply IH].
Qed.

Lemma centre_keeps text y colour attr colour_map :
  preserves P (centre text y colour attr colour_map).
Proof. unfold centre. frame. apply paint_keeps. Qed.

Lemma move_keeps x y : preserves P (move x y).
Proof. unfold move. frame; auto. Qed.

Lemma plot_keeps char colour bg n0 n1 cx cy cx' cy' :
  preserves P (plot char colour bg n0 n1 cx cy cx' cy').
Proof. unfold plot. frame; apply print_at_keeps. Qed.

Lemma draw_x_major_keeps fuel char colour bg thin dx dy sx sy x1 x y err :
  preserves P
    (draw_x_major fuel char colour bg thin dx dy sx sy x1 x y err).
Proof.
  revert x y err. induction fuel as [|fuel IH]; intros; simpl.
  - frame.
  - case_bool_decide; [|apply preserves_ret].
    destruct (foldl _ _ _) as [[[[x' y'] err'] n0] n1].
    frame; [apply plot_keeps|apply IH].
Qed.

Lemma draw_y_major_keeps fuel char colour bg thin dx dy sx sy y1 x y err :
  preserves P
    (draw_y_major fuel char colour bg thin dx dy sx sy y1 x y err).
Proof.
  revert x y err. induction fuel as [|fuel IH]; intros; simpl.
  - frame.
  - case_bool_decide; [|apply preserves_ret].
    destruct (foldl _ _ _) as [[[[x' y'] err'] n0] n1].
    frame; [apply plot_keeps|apply IH].
Qed.

Lemma draw_keeps fuel x y char colour bg thin :
  preserves P (draw fuel x y char colour bg thin).
Proof.
  unfold draw. frame; auto.
  - apply draw_x_major_keeps.
  - apply draw_y_major_keeps.
Qed.

Lemma exec_drawing_keeps fuel c : preserves P (exec_drawing fuel c).
Proof.
  destruct c; simpl;
    auto using paint_keeps, centre_keeps, move_keeps, draw_keeps.
Qed.
End Drawing.

Lemma putch_wf depth text x y colour attr bg transparent :
  preserves wf (putch depth text x y colour attr bg transparent).
Proof. induction depth; simpl; [apply preserves_out_of_fuel|done]. Qed.

Lemma scroll_wf : preserves wf scroll.
Proof.
  unfold scroll. frame. intros s (? & ? & ?). split_and!; try done.
  simpl. destruct H as (? & _). lia.
Qed.

Lemma clear_wf : preserves wf clear.
Proof.
  unfold clear. frame.
  - apply _change_colours_wf.
  - apply _clear_wf.
  - intros s _. apply _reset_wf.
Qed.

Lemma refresh_cell_wf y x : preserves wf (refresh_cell y x).
Proof.
  unfold refresh_cell. frame.
  - apply _change_colours_wf.
  - apply _print_at_wf.
  - apply store_committed_wf.
Qed.

Lemma refresh_wf : preserves wf refresh.
Proof.
  unfold refresh. frame; untouched.
  - apply _scroll_wf.
  - apply refresh_cell_wf.
Qed.

Lemma get_from_wf x y : preserves wf (get_from x y).
Proof. unfold get_from. frame. Qed.

Lemma has_resized_wf : preserves wf has_resized.
Proof. unfold has_resized. frame; untouched. Qed.

Lemma exec_drawing_wf fuel c : preserves wf (exec_drawing fuel c).
Proof. apply exec_drawing_keeps; [apply print_at_wf|done..]. Qed.

Lemma exec_wf fuel c s : wf s -> wf (exec fuel c s).
Proof.
  intros Hs. destruct c; simpl.
  - by apply exec_drawing_wf.
  - by apply putch_wf.
  - by apply scroll_wf.
  - by apply clear_wf.
  - by apply refresh_wf.
  - by apply get_from_wf.
  - by apply has_resized_wf.
  - unfold _resize_handler. by destruct (backend s).
  - unfold console_window_changed. by destruct (backend s).
Qed.

(** Every screen a program can hold is well formed. *)
Lemma reachable_wf s : reachable s -> wf s.
Proof.
  induction 1 as [| | |s fuel c _ IH].
  - apply (_reset_wf _).
  - apply (_reset_wf _).
  - apply (_reset_wf _).
  - by apply exec_wf.
Qed.

Lemma run_drawing_reachable fuel cs s :
  reachable s -> reachable (run_drawing fuel cs s).
Proof.
  revert s. induction cs as [|c cs IH]; intros s Hs; simpl; [done|].
  apply IH. apply (reach_call s fuel (call_drawing c) Hs).
Qed.

(** ** The palette *)

Lemma length_8_palette : length _8_palette = 768%nat.
Proof. reflexivity. Qed.

Lemma length_256_palette : length _256_palette = 768%nat.
Proof. reflexivity. Qed.

(** C6, as amended: at every colour depth the palette is a flat sequence of
    768 values, that is 256 RGB triples; below 256 colours these are the
    eight ANSI triples followed by 744 zeros. *)
Theorem palette_length (s : Screen) :
  length (palette s) = 768%nat /\
  palette s =
    if bool_decide (colours s < 256)
    then take 24 _8_palette ++ replicate 744 0
    else _256_palette.
Proof.
  unfold palette. case_bool_decide; split; reflexivity.
Qed.

(** C6, as stated, fails: the palette of an 8 colour Windows console has 768
    entries, not 24. *)
Lemma palette_8_colours_not_24 :
  colours windows_screen = 8 /\ length (palette windows_screen) <> 24%nat.
Proof. split; [reflexivity|]. vm_compute. discriminate. Qed.

(** ** [putch] *)

(** C9: a call of [putch] is a call of [putch] with the same arguments, so
    that whatever the bound on the depth of the calls, the call is cut off:
    it neither returns nor raises, and it leaves the screen as it was, the
    pending buffer included ([print_at] is never reached). *)
Theorem putch_never_returns (depth : nat) (text : list ascii)
    (x y colour attr bg : Z) (transparent : bool) (s : Screen) :
  putch (S depth) text x y colour attr bg transparent =
    putch depth text x y colour attr bg transparent /\
  putch depth text x y colour attr bg transparent s = (OutOfFuel, s).
Proof.
  split; [reflexivity|]. induction depth as [|depth IH]; [reflexivity|exact IH].
Qed.

(** ** [has_resized] *)

(** A poll records the present size. *)
Lemma has_resized_size_polled s : size_polled (snd (has_resized s)).
Proof.
  unfold has_resized, size_polled, bind, get. by destruct (backend s).
Qed.

Lemma has_resized_not_twice s :
  ~ (fst (has_resized s) = Ok true /\
     fst (has_resized (snd (has_resized s))) = Ok true).
Proof.
  unfold has_resized, bind, get. destruct (backend s) as [cur lw lh ma|b|b];
    simpl; intros [_ H]; [|done..].
  injection H as H.
  apply orb_prop in H as [H|H]; by apply bool_decide_eq_true_1 in H.
Qed.

(** C7, as amended: after a single resize occurrence the first call of
    [has_resized] returns true and the call that follows it returns false,
    on the terminal classes always and on the Windows class when the size
    had been polled before the occurrence; and on every class two calls in
    a row, with no occurrence between them, never both return true. *)
Theorem has_resized_edge_triggered (s : Screen) (info : SMALL_RECT) :
  size_polled s -> changes_size info s ->
  (fst (has_resized (resize_occurs info s)) = Ok true /\
   fst (has_resized (snd (has_resized (resize_occurs info s)))) = Ok false) /\
  (forall s' : Screen,
     ~ (fst (has_resized s') = Ok true /\
        fst (has_resized (snd (has_resized s'))) = Ok true)).
Proof.
  intros Hp Hc. split; [|apply has_resized_not_twice].
  unfold size_polled, changes_size, resize_occurs, console_window_changed,
    _resize_handler in *.
  destruct (backend s) as [cur lw lh ma|b|b] eqn:Hb;
    unfold has_resized, bind, get; simpl; [|done..].
  destruct Hp as [-> ->]. simpl. split; f_equal.
  - apply orb_true_iff.
    destruct Hc as [Hc|Hc]; [left|right]; apply bool_decide_eq_true_2; congruence.
  - rewrite !bool_decide_eq_false_2 by (intros ?; done). done.
Qed.

Lemma has_resized_edge_triggered_witness :
  fst (has_resized
         (resize_occurs console_100x25 (snd (has_resized windows_screen))))
    = Ok true /\
  fst (has_resized (snd (has_resized
         (resize_occurs console_100x25 (snd (has_resized windows_screen))))))
    = Ok false.
Proof.
  refine (proj1 (has_resized_edge_triggered
                   (snd (has_resized windows_screen)) console_100x25 _ _)).
  - apply has_resized_size_polled.
  - left. vm_compute. discriminate.
Defined.

(** C7, as stated, fails on the Windows class: the first poll after the
    window of a new screen has changed size only records the size. *)
Lemma has_resized_first_poll_misses_resize :
  changes_size console_100x25 windows_screen /\
  reachable windows_screen /\
  fst (has_resized (resize_occurs console_100x25 windows_screen)) = Ok false.
Proof.
  split_and!.
  - left. vm_compute. discriminate.
  - apply reach_windows.
  - reflexivity.
Qed.

(** ** [get_from] *)

Lemma getitem_in_range {A} (l : list A) (i : Z) :
  - Py.len l <= i < Py.len l ->
  exists a, l !! Z.to_nat (i `mod` Py.len l) = Some a /\ Py.getitem l i = Some a.
Proof.
  intros Hi. destruct (decide (0 <= i)) as [Hpos|Hneg].
  - rewrite getitem_nonneg, Z.mod_small by lia.
    destruct (lookup_lt_is_Some_2 l (Z.to_nat i)) as [a Ha];
      [unfold Py.len in *; lia|].
    by exists a.
  - rewrite getitem_negative by lia.
    replace (i `mod` Py.len l) with (Py.len l + i).
    + destruct (lookup_lt_is_Some_2 l (Z.to_nat (Py.len l + i))) as [a Ha];
        [unfold Py.len in *; lia|].
      by exists a.
    + apply Z.mod_unique with (q := -1); lia.
Qed.

Lemma wf_committed_rows s :
  wf s -> Py.len (_screen_buffer s) = Z.max 0 (_buffer_height s).
Proof. intros (_ & [Hlen _] & _). unfold Py.len. rewrite Hlen. lia. Qed.

Lemma wf_committed_row s (r : nat) row :
  wf s -> _screen_buffer s !! r = Some row -> Py.len row = Z.max 0 (width s).
Proof.
  intros (_ & Hc & _) Hr. unfold Py.len.
  rewrite (shaped_lookup _ _ _ _ _ Hc Hr). lia.
Qed.

(** C10: [get_from] indexes the committed buffer without a check.  For [y]
    in [[-buffer_height, buffer_height)] and [x] in [[-width, width)] it
    returns the cell of row [y mod buffer_height] and column [x mod width],
    so that a negative coordinate counts from the end; for any other
    coordinates it raises IndexError. *)
Theorem get_from_unchecked (s : Screen) (x y : Z) :
  reachable s ->
  (- _buffer_height s <= y < _buffer_height s -> - width s <= x < width s ->
   exists c colour attr bg,
     (row ← _screen_buffer s !! Z.to_nat (y `mod` _buffer_height s);
      row !! Z.to_nat (x `mod` width s)) = Some (c, colour, attr, bg) /\
     get_from x y s = (Ok (Py.ord c, colour, attr, bg), s)) /\
  (~ (- _buffer_height s <= y < _buffer_height s) \/
   ~ (- width s <= x < width s) ->
   get_from x y s = (Raise IndexError, s)).
Proof.
  intros Hs%reachable_wf. pose proof (wf_committed_rows s Hs) as Hrows.
  unfold get_from, bind, get, cell_at. split.
  - intros Hy Hx.
    destruct (getitem_in_range (_screen_buffer s) y) as (row & Hrow & ->); [lia|].
    rewrite Hrows, Z.max_r in Hrow by lia. rewrite Hrow. simpl.
    pose proof (wf_committed_row s _ _ Hs Hrow) as Hlen.
    destruct (getitem_in_range row x) as ([[[c colour] attr] bg] & Hc & ->); [lia|].
    rewrite Hlen, Z.max_r in Hc by lia.
    by exists c, colour, attr, bg.
  - intros Hout.
    destruct (Py.getitem (_screen_buffer s) y) as [row|] eqn:Hrow; simpl; [|done].
    assert (- _buffer_height s <= y < _buffer_height s) as Hy.
    { destruct (decide (- _buffer_height s <= y < _buffer_height s)); [done|].
      rewrite getitem_out_of_range in Hrow; [done|lia]. }
    unfold Py.getitem in Hrow.
    destruct (Py.norm_index _ y) as [k|]; simpl in Hrow; [|done].
    pose proof (wf_committed_row s _ _ Hs Hrow) as Hlen.
    rewrite getitem_out_of_range; [done|lia].
Qed.

Lemma get_from_unchecked_witness :
  (exists c colour attr bg,
     (row ← _screen_buffer curses_screen
              !! Z.to_nat (-1 `mod` _buffer_height curses_screen);
      row !! Z.to_nat (-1 `mod` width curses_screen))
       = Some (c, colour, attr, bg) /\
     get_from (-1) (-1) curses_screen
       = (Ok (Py.ord c, colour, attr, bg), curses_screen)) /\
  get_from 10 0 curses_screen = (Raise IndexError, curses_screen).
Proof.
  split.
  - apply (proj1 (get_from_unchecked curses_screen (-1) (-1)
                    (reach_curses 2 10 256 5))); by vm_compute.
  - apply (proj2 (get_from_unchecked curses_screen 10 0
                    (reach_curses 2 10 256 5))).
    right. intros [_ H]. by vm_compute in H.
Defined.

(** ** Drawing leaves the committed buffer alone *)

Lemma print_at_committed b text x y colour attr bg transparent :
  preserves (fun s => _screen_buffer s = b)
    (print_at text x y colour attr bg transparent).
Proof. unfold print_at, store_pending. frame; untouched. Qed.

Lemma exec_drawing_committed b fuel c :
  preserves (fun s => _screen_buffer s = b) (exec_drawing fuel c).
Proof. apply exec_drawing_keeps; [apply print_at_committed|done..]. Qed.

Lemma run_drawing_committed fuel cs s :
  _screen_buffer (run_drawing fuel cs s) = _screen_buffer s.
Proof.
  revert s. induction cs as [|c cs IH]; intros s; simpl; [done|].
  rewrite IH. by apply (exec_drawing_committed (_screen_buffer s)).
Qed.

(** C8: whatever sequence of drawing calls is made ([print_at], [paint],
    [centre], [move], [draw]), the committed buffer is the one from before
    the sequence, and [get_from] gives at every coordinate what it gave
    before: the same cell, or the same IndexError. *)
Theorem drawing_leaves_committed (fuel : nat) (cs : list DrawingCall)
    (s : Screen) (x y : Z) :
  _screen_buffer (run_drawing fuel cs s) = _screen_buffer s /\
  fst (get_from x y (run_drawing fuel cs s)) = fst (get_from x y s).
Proof.
  pose proof (run_drawing_committed fuel cs s) as H. split; [done|].
  unfold get_from, bind, get. rewrite H.
  by destruct (cell_at (_screen_buffer s) x y) as [[[[c colour] attr] bg]|].
Qed.

(** ** Scrolling *)

Lemma scroll_calls_emit op s :
  scroll_calls (emit op s) =
    if bool_decide (op = dev_scroll) then S (scroll_calls s) else scroll_calls s.
Proof.
  unfold scroll_calls. simpl. rewrite filter_cons.
  case_decide; case_bool_decide; done.
Qed.

Lemma curses_attribute_op attr op :
  Curses._ATTRIBUTES !! attr = Some op -> op <> dev_scroll.
Proof.
  intros H%elem_of_list_to_map_2.
  repeat (apply elem_of_cons in H as [[= -> ->]|H]; [done|]).
  by apply elem_of_nil in H.
Qed.

Lemma blessed_attribute_ops attr ops :
  Blessed.ATTRIBUTES !! attr = Some ops -> Forall (fun op => op <> dev_scroll) ops.
Proof.
  intros H%elem_of_list_to_map_2.
  repeat (apply elem_of_cons in H as [[= -> ->]|H];
          [by repeat constructor|]).
  by apply elem_of_nil in H.
Qed.

Lemma scroll_state_emit a l n op s :
  op <> dev_scroll -> scroll_state a l n s -> scroll_state a l n (emit op s).
Proof.
  intros Hop (? & ? & ?). split_and!; try done.
  rewrite scroll_calls_emit. by rewrite bool_decide_eq_false_2.
Qed.

(** Closes the goals [frame] leaves for an operation sent to the device. *)
Ltac emits :=
  try (intros ? ?; apply scroll_state_emit; [discriminate|assumption]).

Lemma _change_colours_scroll_state a l n colour attr bg :
  preserves (scroll_state a l n) (_change_colours colour attr bg).
Proof.
  unfold _change_colours, Windows._change_colours, Curses._change_colours,
    Blessed._change_colours.
  frame; untouched; emits.
  - intros ? ?. apply scroll_state_emit; [|done]. by eapply curses_attribute_op.
  - intros ? ?. apply scroll_state_emit; [|done].
    match goal with H : Blessed.ATTRIBUTES !! _ = Some _ |- _ =>
      apply blessed_attribute_ops in H; rename H into Hops end.
    by eapply Forall_forall in Hops.
Qed.

Lemma _print_at_scroll_state a l n text x y :
  preserves (scroll_state a l n) (_print_at text x y).
Proof.
  unfold _print_at, Windows._print_at, Curses._print_at, Blessed._print_at.
  frame; untouched; emits.
Qed.

Lemma refresh_cell_scroll_state a l n y x :
  preserves (scroll_state a l n) (refresh_cell y x).
Proof.
  unfold refresh_cell, store_committed. frame; untouched.
  - apply _change_colours_scroll_state.
  - apply _print_at_scroll_state.
Qed.

Lemma _scroll_emits s : _scroll s = (Ok tt, emit dev_scroll s).
Proof. unfold _scroll, bind, get. by destruct (backend s). Qed.

(** The loop of [refresh] that scrolls the device. *)
Lemma scroll_loop {A} (l : list A) a b n s :
  scroll_state a b n s ->
  exists s', for_each l (fun _ => _scroll) s = (Ok tt, s') /\
             scroll_state a b (n + length l) s'.
Proof.
  revert n s. induction l as [|i l IH]; intros n s Hs; simpl.
  - exists s. split; [done|]. by rewrite Nat.add_0_r.
  - unfold bind. rewrite _scroll_emits.
    destruct (IH (S n) (emit dev_scroll s)) as (s' & -> & Hs').
    { destruct Hs as (? & ? & ?). split_and!; try done.
      rewrite scroll_calls_emit. simpl. by f_equal. }
    exists s'. split; [done|]. by rewrite Nat.add_succ_r.
Qed.

(** What a refresh does to the start lines and to the device, whether it
    completes or not. *)
Lemma refresh_scroll_state a l n s :
  scroll_state a l n s ->
  scroll_state a a (n + Z.to_nat (a - l)) (snd (refresh s)).
Proof.
  intros Hs. unfold refresh, bind at 1, get.
  unfold bind at 1.
  destruct (scroll_loop (Py.range (_start_line s - _last_start_line s)) a l n s Hs)
    as (s1 & -> & Hs1).
  rewrite length_range in Hs1. destruct Hs as (Ha & Hl & Hn).
  rewrite Ha, Hl in *.
  unfold bind at 1, modify.
  assert (scroll_state a a (n + Z.to_nat (a - l)) (set_last_start_line a s1))
    as Hs2 by (destruct Hs1 as (? & ? & ?); by split_and!).
  revert Hs2. generalize (set_last_start_line a s1).
  change (preserves (scroll_state a a (n + Z.to_nat (a - l)))
            (for_each (Py.range (height s)) (fun y =>
               for_each (Py.range (width s)) (fun x => refresh_cell y x)))).
  frame. apply refresh_cell_scroll_state.
Qed.

Lemma scroll_times_state a l n k s :
  scroll_state a l n s -> scroll_state (a + Z.of_nat k) l n (scroll_times k s).
Proof.
  intros Hs. induction k as [|k IH]; simpl.
  - by rewrite Z.add_0_r.
  - destruct IH as (IHa & ? & ?). split_and!; try done.
    simpl. rewrite IHa. lia.
Qed.

(** C4: from a screen whose latest refresh has seen the present start line
    (a new or cleared screen, or one just refreshed), [scroll()] called [N]
    times and then [refresh()] invokes [_scroll] exactly [N] times during
    that refresh, whether or not the refresh then completes, and a refresh
    that follows with no [scroll()] between invokes it no more. *)
Theorem scroll_then_refresh (N : nat) (s : Screen) :
  baseline_current s ->
  scroll_calls (snd (refresh (scroll_times N s)))
    = (scroll_calls (scroll_times N s) + N)%nat /\
  scroll_calls (snd (refresh (snd (refresh (scroll_times N s)))))
    = scroll_calls (snd (refresh (scroll_times N s))).
Proof.
  intros Hb. unfold baseline_current in Hb.
  assert (scroll_state (_start_line s) (_start_line s) (scroll_calls s) s)
    as H0 by done.
  apply (scroll_times_state _ _ _ N) in H0.
  pose proof (refresh_scroll_state _ _ _ _ H0) as H1.
  pose proof (refresh_scroll_state _ _ _ _ H1) as H2.
  destruct H0 as (_ & _ & H0), H1 as (_ & _ & H1), H2 as (_ & _ & H2).
  rewrite H2, H1, H0. split; lia.
Qed.

Lemma scroll_then_refresh_witness :
  scroll_calls (snd (refresh (scroll_times 2 curses_screen)))
    = (scroll_calls (scroll_times 2 curses_screen) + 2)%nat /\
  scroll_calls (snd (refresh (snd (refresh (scroll_times 2 curses_screen)))))
    = scroll_calls (snd (refresh (scroll_times 2 curses_screen))).
Proof. apply (scroll_then_refresh 2 curses_screen). reflexivity. Defined.

(** The baseline is current on a new screen, after [clear] and after
    [refresh]. *)
Lemma baseline_current_init height width buffer_height b :
  baseline_current (_BufferedScreen__init__ height width buffer_height b).
Proof. reflexivity. Qed.

Lemma baseline_current_refresh s : baseline_current (snd (refresh s)).
Proof.
  assert (scroll_state (_start_line s) (_last_start_line s) (scroll_calls s) s)
    as H by done.
  apply refresh_scroll_state in H as (H1 & H2 & _).
  unfold baseline_current. by rewrite H1, H2.
Qed.

(** ** [print_at] *)

Lemma set_double_buffer_same s : set_double_buffer (_double_buffer s) s = s.
Proof. by destruct s. Qed.

(** The loop of [print_at] over text that fits on the line. *)
Lemma print_loop (t : list ascii) (k x y colour attr bg : Z) (tr : bool) s :
  wf s -> 0 <= y < _buffer_height s ->
  0 <= x + k -> x + k + Py.len t <= width s ->
  exists b',
    for_each (Py.enumerate_from k t) (fun '(i, c) =>
      when (bool_decide (c <> " "%char) || negb tr)
        (store_pending (x + i) y (c, colour, attr, bg))) s
      = (Ok tt, set_double_buffer b' s) /\
    shaped (Z.to_nat (_buffer_height s)) (Z.to_nat (width s)) b' /\
    forall x' y', 0 <= x' -> 0 <= y' ->
      cell_at b' x' y' =
        overlay (cell_at (_double_buffer s) x' y')
          (text_at t (x + k) y x' y') colour attr bg tr.
Proof.
  revert k s. induction t as [|c t IH]; intros k s Hs Hy Hk Hw.
  - exists (_double_buffer s). simpl. rewrite set_double_buffer_same.
    split_and!; [done|apply Hs|]. intros x' y' _ _.
    unfold text_at. by case_bool_decide.
  - unfold Py.len in Hw. simpl in Hw.
    assert (forall s1 : Screen,
      wf s1 -> _buffer_height s1 = _buffer_height s -> width s1 = width s ->
      (forall x' y', 0 <= x' -> 0 <= y' ->
         cell_at (_double_buffer s1) x' y' =
           overlay (cell_at (_double_buffer s) x' y')
             (if bool_decide (x' = x + k /\ y' = y) then Some c else None)
             colour attr bg tr) ->
      exists b',
        for_each (Py.enumerate_from (k + 1) t) (fun '(i, c) =>
          when (bool_decide (c <> " "%char) || negb tr)
            (store_pending (x + i) y (c, colour, attr, bg))) s1
          = (Ok tt, set_double_buffer b' s1) /\
        shaped (Z.to_nat (_buffer_height s)) (Z.to_nat (width s)) b' /\
        forall x' y', 0 <= x' -> 0 <= y' ->
          cell_at b' x' y' =
            overlay (cell_at (_double_buffer s) x' y')
              (text_at (c :: t) (x + k) y x' y') colour attr bg tr) as Hrest.
    { intros s1 Hs1 Hbh Hwd Hfirst.
      destruct (IH (k + 1) s1) as (b' & Hrun & Hshape & Hcells);
        [done|lia|lia|unfold Py.len; lia|].
      exists b'. rewrite Hbh, Hwd in Hshape. split_and!; [done..|].
      intros x' y' Hx' Hy'. rewrite Hcells, Hfirst by done.
      unfold text_at. replace (x + (k + 1)) with (x + k + 1) by lia.
      destruct (decide (y' = y /\ x + k <= x')) as [[-> Hle]|Hno].
      - rewrite (bool_decide_eq_true_2 (y = y /\ x + k <= x')) by done.
        destruct (decide (x' = x + k)) as [->|Hne].
        + rewrite (bool_decide_eq_false_2 (y = y /\ x + k + 1 <= x + k)) by lia.
          rewrite (bool_decide_eq_true_2 (x + k = x + k /\ y = y)) by done.
          by replace (Z.to_nat (x + k - (x + k))) with 0%nat by lia.
        + rewrite (bool_decide_eq_true_2 (y = y /\ x + k + 1 <= x')) by lia.
          rewrite (bool_decide_eq_false_2 (x' = x + k /\ y = y)) by lia.
          replace (Z.to_nat (x' - (x + k))) with (S (Z.to_nat (x' - (x + k + 1))))
            by lia.
          done.
      - rewrite (bool_decide_eq_false_2 (y' = y /\ x + k <= x')) by done.
        rewrite (bool_decide_eq_false_2 (y' = y /\ x + k + 1 <= x')) by lia.
        rewrite (bool_decide_eq_false_2 (x' = x + k /\ y' = y)) by lia. done. }
    simpl. unfold bind at 1.
    destruct (bool_decide (c <> " "%char) || negb tr) eqn:Hcond; simpl.
    + destruct (store_cell_is_Some _ _ (_double_buffer s) (x + k) y
                  (c, colour, attr, bg) (proj2 (proj2 Hs)))
        as [b1 Hb1]; [lia..|].
      unfold store_pending, bind at 1, get. rewrite Hb1. simpl.
      destruct (Hrest (set_double_buffer b1 s)) as (b' & Hrun & Hrest');
        [|done|done| |by exists b'].
      * destruct Hs as (? & ? & ?). split_and!; try done.
        by eapply store_cell_shaped.
      * intros x' y' Hx' Hy'. simpl.
        rewrite (store_cell_lookup _ _ _ _ _ x' y' Hk (proj1 Hy) Hx' Hy' Hb1).
        unfold overlay.
        destruct (bool_decide (x' = x + k /\ y' = y)); [by rewrite Hcond|done].
    + destruct (Hrest s) as (b' & Hrun & Hrest'); [done..| |by exists b'].
      intros x' y' _ _. unfold overlay.
      destruct (bool_decide (x' = x + k /\ y' = y)); [by rewrite Hcond|done].
Qed.

Lemma slice_from_nonneg {A} (l : list A) (a : Z) :
  0 <= a -> Py.slice_from l a = drop (Z.to_nat a) l.
Proof.
  intros Ha. unfold Py.slice_from, Py.slice_bound.
  by rewrite bool_decide_eq_true_2.
Qed.

Lemma slice_to_nonneg {A} (l : list A) (b : Z) :
  0 <= b -> Py.slice_to l b = take (Z.to_nat b) l.
Proof.
  intros Hb. unfold Py.slice_to, Py.slice_bound.
  by rewrite bool_decide_eq_true_2.
Qed.

(** The text that [print_at] keeps, when it starts at or before the right
    edge: what is left of the characters before column 0 and at or after
    column [w]. *)
Lemma clipped_text (text : list ascii) (x w : Z) :
  0 <= w -> x <= w ->
  (let '(text0, x0) :=
     if bool_decide (x < 0) then (Py.slice_from text (- x), 0) else (text, x) in
   (if bool_decide (x0 + Py.len text0 >= w)
    then Py.slice_to text0 (w - x0) else text0, x0))
  = (take (Z.to_nat (w - Z.max x 0)) (drop (Z.to_nat (- x)) text), Z.max x 0).
Proof.
  intros Hw Hx. case_bool_decide as Hneg.
  - rewrite slice_from_nonneg, Z.max_r by lia. f_equal.
    case_bool_decide as Hclip.
    + by rewrite slice_to_nonneg by lia.
    + rewrite take_ge; [done|]. unfold Py.len in Hclip. lia.
  - rewrite Z.max_l by lia. replace (Z.to_nat (- x)) with 0%nat by lia.
    rewrite drop_0. f_equal. case_bool_decide as Hclip.
    + by rewrite slice_to_nonneg by lia.
    + rewrite take_ge; [done|]. unfold Py.len in Hclip. lia.
Qed.

Lemma text_at_clipped (text : list ascii) (x w y x' y' : Z) :
  0 <= x' ->
  text_at (take (Z.to_nat (w - Z.max x 0)) (drop (Z.to_nat (- x)) text))
          (Z.max x 0) y x' y'
  = if bool_decide (x' < w) then text_at text x y x' y' else None.
Proof.
  intros Hx'. unfold text_at.
  destruct (decide (y' = y /\ x <= x')) as [[-> Hle]|Hno].
  - rewrite (bool_decide_eq_true_2 (y = y /\ x <= x')) by done.
    rewrite (bool_decide_eq_true_2 (y = y /\ Z.max x 0 <= x')) by lia.
    case_bool_decide as Hin.
    + rewrite lookup_take_lt, lookup_drop by lia. f_equal. lia.
    + apply lookup_take_ge. lia.
  - rewrite (bool_decide_eq_false_2 (y' = y /\ x <= x')) by done.
    rewrite (bool_decide_eq_false_2 (y' = y /\ Z.max x 0 <= x')) by lia.
    by case_bool_decide.
Qed.

(** What [print_at] does on a line of the buffer when the text starts at or
    before the right edge: it returns, and the pending buffer changes on the
    line [y] only, at the columns [x' < width] on which a character of the
    text falls; a negative [x] drops the leading [-x] characters. *)
Lemma print_at_spec text x y colour attr bg tr s :
  wf s -> 0 <= y < _buffer_height s -> 0 <= width s -> x <= width s ->
  exists b',
    print_at text x y colour attr bg tr s = (Ok tt, set_double_buffer b' s) /\
    shaped (Z.to_nat (_buffer_height s)) (Z.to_nat (width s)) b' /\
    forall x' y', 0 <= x' -> 0 <= y' ->
      cell_at b' x' y' =
        overlay (cell_at (_double_buffer s) x' y')
          (if bool_decide (x' < width s) then text_at text x y x' y' else None)
          colour attr bg tr.
Proof.
  intros Hs Hy Hw Hx. unfold print_at, bind at 1, get.
  rewrite (bool_decide_eq_false_2 (y < 0)) by lia.
  rewrite (bool_decide_eq_false_2 (y >= _buffer_height s)) by lia.
  simpl.
  pose proof (clipped_text text x (width s) Hw Hx) as Hclip.
  destruct (if bool_decide (x < 0) then _ else _) as [text0 x0].
  injection Hclip as Htext ->.
  rewrite Htext. clear Htext text0.
  set (t := take _ _).
  assert (Py.len t <= width s - Z.max x 0) as Hlen.
  { unfold Py.len, t. rewrite length_take. lia. }
  destruct (print_loop t 0 (Z.max x 0) y colour attr bg tr s)
    as (b' & Hrun & Hshape & Hcells); [done|done|lia|lia|].
  exists b'. split_and!; [|done|].
  - unfold when. case_bool_decide as Hpos; [exact Hrun|].
    destruct t; [|unfold Py.len in Hpos; simpl in Hpos; lia].
    exact Hrun.
  - intros x' y' Hx' Hy'. rewrite Hcells by done.
    rewrite Z.add_0_r. unfold t. by rewrite text_at_clipped.
Qed.

(** C3: [print_at] does not clip text that starts to the right of the right
    edge.  On a line of the buffer of a reachable screen, for [x > width]
    and text longer than [x - width], the text is cut to [text[:width - x]],
    whose bound is negative and which is therefore not empty, and the
    assignment to column [x] raises IndexError: nothing is written, but the
    call is not silent.  (For [x <= width] the text is clipped as claimed,
    see [print_at_spec].) *)
Theorem print_at_right_of_edge_raises (text : list ascii)
    (x y colour attr bg : Z) (s : Screen) :
  reachable s -> 0 <= y < _buffer_height s -> 0 <= width s < x ->
  x - width s < Py.len text ->
  print_at text x y colour attr bg false s = (Raise IndexError, s).
Proof.
  intros Hs%reachable_wf Hy Hx Hlen. unfold print_at. rewrite bind_get_l.
  rewrite (bool_decide_eq_false_2 (y < 0)) by lia.
  rewrite (bool_decide_eq_false_2 (y >= _buffer_height s)) by lia.
  rewrite (bool_decide_eq_false_2 (x < 0)) by lia. simpl.
  rewrite (bool_decide_eq_true_2 (x + Py.len text >= width s)) by lia.
  unfold Py.slice_to, Py.slice_bound.
  rewrite (bool_decide_eq_false_2 (0 <= width s - x)) by lia.
  unfold Py.len in *.
  destruct (take _ text) as [|c t] eqn:Ht.
  { apply (f_equal length) in Ht. rewrite length_take in Ht. simpl in Ht. lia. }
  rewrite bool_decide_eq_true_2 by (simpl; lia). simpl.
  rewrite orb_true_r. simpl.
  unfold bind at 1, store_pending. rewrite bind_get_l.
  rewrite (store_cell_beyond _ _ _ _ _ _ (proj2 (proj2 Hs))) by lia.
  done.
Qed.

(** On a screen of 10 columns, [print_at("HELLO", 12, 0)] cuts the text to
    [text[:-2]], which is "HEL", and raises. *)
Lemma print_at_right_of_edge_raises_witness :
  width curses_screen = 10 /\
  Py.slice_to (Py.str "HELLO") (10 - 12) = Py.str "HEL" /\
  print_at (Py.str "HELLO") 12 0 7 0 0 false curses_screen
    = (Raise IndexError, curses_screen).
Proof.
  split_and!; [reflexivity..|].
  apply (print_at_right_of_edge_raises (Py.str "HELLO") 12 0 7 0 0
           curses_screen (reach_curses 2 10 256 5)); by vm_compute.
Defined.

(** ** [move] and [draw] *)

Lemma draw_x_major_done fuel char colour bg thin dx dy sx sy x1 y err :
  draw_x_major fuel char colour bg thin dx dy sx sy x1 x1 y err = ret tt.
Proof.
  destruct fuel; simpl; by rewrite bool_decide_eq_false_2 by (intros ?; done).
Qed.

(** One pass of the loop of a line closer to horizontal, drawn with a
    character that is not a space. *)
Lemma draw_x_major_pass fuel c colour bg thin dx dy sx sy x1 x y err
    x' y' err' n0 n1 cx cy :
  x <> x1 -> c <> [" "%char] ->
  foldl (x_major_step thin dx dy sx sy (Z.land y (Z.lnot 1))) (x, y, err, 0, 0)
        (sub_range sx) = (x', y', err', n0, n1) ->
  Z.land x (Z.lnot 1) / 2 = cx -> Z.land y (Z.lnot 1) / 2 = cy ->
  draw_x_major (S fuel) (Some c) colour bg thin dx dy sx sy x1 x y err
  = (print_at c cx cy colour 0 bg false ;;;
     draw_x_major fuel (Some c) colour bg thin dx dy sx sy x1 x' y' err').
Proof.
  intros Hx Hc Hpass <- <-. simpl.
  rewrite bool_decide_eq_true_2 by done. rewrite Hpass. unfold plot.
  by rewrite bool_decide_eq_false_2 by done.
Qed.

(** [draw] with the pen at [(x0, y0)], for a line closer to horizontal. *)
Lemma draw_x_major_from fuel x y char colour bg thin s x0 y0 x1 dx dy sx sy :
  _x s = Some x0 -> _y s = Some y0 ->
  x * 2 = x1 -> Z.abs (x1 - x0) = dx -> Z.abs (y * 2 - y0) = dy ->
  (if bool_decide (x0 > x1) then -1 else 1) = sx ->
  (if bool_decide (y0 > y * 2) then -1 else 1) = sy ->
  dx > dy ->
  draw fuel x y char colour bg thin s
  = draw_x_major fuel char colour bg thin dx dy sx sy x1 x0 y0 dx
      (set_y (Some (y * 2)) (set_x (Some x1) s)).
Proof.
  intros Hx0 Hy0 <- <- <- <- <- Hgt. unfold draw, bind, get, modify. simpl.
  rewrite Hx0, Hy0. simpl. by rewrite bool_decide_eq_true_2.
Qed.

(** The line from (0, 0) to (3, 0) drawn with '#', as the calls of
    [print_at] it makes. *)
Lemma draw_3_0_hash fuel s :
  (move 0 0 ;;; draw (3 + fuel) 3 0 (Some (Py.str "#")) 7 0 false) s
  = (print_at (Py.str "#") 0 0 7 0 0 false ;;;
     print_at (Py.str "#") 1 0 7 0 0 false ;;;
     print_at (Py.str "#") 2 0 7 0 0 false ;;;
     ret tt)
      (set_y (Some 0) (set_x (Some 6) s)).
Proof.
  unfold bind at 1. unfold move, bind at 1, modify.
  erewrite (draw_x_major_from _ 3 0 _ _ _ _ _ 0 0);
    [|reflexivity|reflexivity|reflexivity|reflexivity|reflexivity
     |reflexivity|reflexivity|reflexivity].
  simpl Nat.add.
  erewrite draw_x_major_pass;
    [|done|done|vm_compute; reflexivity|reflexivity|reflexivity].
  erewrite draw_x_major_pass;
    [|done|done|vm_compute; reflexivity|reflexivity|reflexivity].
  erewrite draw_x_major_pass;
    [|done|done|vm_compute; reflexivity|reflexivity|reflexivity].
  rewrite draw_x_major_done. reflexivity.
Qed.

Lemma set_double_buffer_wf b s :
  wf s -> shaped (Z.to_nat (_buffer_height s)) (Z.to_nat (width s)) b ->
  wf (set_double_buffer b s).
Proof. intros (? & ? & ?) ?. by split_and!. Qed.

Lemma text_at_single c x y x' y' :
  0 <= x' ->
  text_at [c] x y x' y' = if bool_decide (y' = y /\ x' = x) then Some c else None.
Proof.
  intros Hx'. unfold text_at.
  destruct (decide (y' = y /\ x' = x)) as [[-> ->]|Hno].
  - rewrite !bool_decide_eq_true_2 by (split; [done|lia]).
    by replace (Z.to_nat (x - x)) with 0%nat by lia.
  - rewrite (bool_decide_eq_false_2 (y' = y /\ x' = x)) by done.
    case_bool_decide as H; [|done].
    replace (Z.to_nat (x' - x)) with (S (Z.to_nat (x' - x - 1))) by lia. done.
Qed.

(** C5, as amended: after [move(0, 0)], [draw(3, 0, char='#')] returns, on a
    screen with a line in its buffer and more than 3 columns; it writes '#'
    in white on black on the cells (0, 0), (1, 0) and (2, 0) of the pending
    buffer and on no other cell, so that the end cell (3, 0) keeps what it
    held; and it leaves the pen at (3, 0), which is (6, 0) in half cells. *)
Theorem move_draw_3_0 (fuel : nat) (s : Screen) :
  reachable s -> 0 < _buffer_height s -> 3 < width s ->
  exists s',
    (move 0 0 ;;; draw (3 + fuel) 3 0 (Some (Py.str "#")) 7 0 false) s
      = (Ok tt, s') /\
    _x s' = Some (3 * 2) /\ _y s' = Some (0 * 2) /\
    _screen_buffer s' = _screen_buffer s /\
    (forall x' y', 0 <= x' -> 0 <= y' ->
       cell_at (_double_buffer s') x' y' =
         if bool_decide (y' = 0 /\ x' < 3) then Some ("#"%char, 7, 0, 0)
         else cell_at (_double_buffer s) x' y') /\
    cell_at (_double_buffer s') 3 0 = cell_at (_double_buffer s) 3 0.
Proof.
  intros Hs%reachable_wf Hbh Hw. rewrite draw_3_0_hash.
  set (s0 := set_y (Some 0) (set_x (Some 6) s)).
  assert (wf s0) as Hs0 by done.
  destruct (print_at_spec (Py.str "#") 0 0 7 0 0 false s0)
    as (b1 & Hrun1 & Hshape1 & Hcells1); [done|simpl; lia..|].
  pose proof (set_double_buffer_wf b1 s0 Hs0 Hshape1) as Hs1.
  destruct (print_at_spec (Py.str "#") 1 0 7 0 0 false (set_double_buffer b1 s0))
    as (b2 & Hrun2 & Hshape2 & Hcells2); [done|simpl; lia..|].
  pose proof (set_double_buffer_wf b2 _ Hs1 Hshape2) as Hs2.
  destruct (print_at_spec (Py.str "#") 2 0 7 0 0 false
              (set_double_buffer b2 (set_double_buffer b1 s0)))
    as (b3 & Hrun3 & Hshape3 & Hcells3); [done|simpl; lia..|].
  assert (forall x' y', 0 <= x' -> 0 <= y' ->
            cell_at b3 x' y' =
              if bool_decide (y' = 0 /\ x' < 3) then Some ("#"%char, 7, 0, 0)
              else cell_at (_double_buffer s) x' y') as Hcells.
  { intros x' y' Hx' Hy'.
    rewrite Hcells3, Hcells2, Hcells1 by done. simpl.
    unfold Py.str. simpl. rewrite !text_at_single by done.
    destruct (decide (y' = 0 /\ x' < 3)) as [[-> Hlt]|Hno].
    - rewrite (bool_decide_eq_true_2 (0 = 0 /\ x' < 3)) by done.
      rewrite (bool_decide_eq_true_2 (x' < width s)) by lia.
      destruct (decide (x' = 2)) as [->|]; [done|].
      rewrite (bool_decide_eq_false_2 (0 = 0 /\ x' = 2)) by lia.
      destruct (decide (x' = 1)) as [->|]; [done|].
      rewrite (bool_decide_eq_false_2 (0 = 0 /\ x' = 1)) by lia.
      by rewrite (bool_decide_eq_true_2 (0 = 0 /\ x' = 0)) by lia.
    - rewrite (bool_decide_eq_false_2 (y' = 0 /\ x' < 3)) by done.
      rewrite (bool_decide_eq_false_2 (y' = 0 /\ x' = 2)) by lia.
      rewrite (bool_decide_eq_false_2 (y' = 0 /\ x' = 1)) by lia.
      rewrite (bool_decide_eq_false_2 (y' = 0 /\ x' = 0)) by lia.
      by destruct (bool_decide (x' < width s)). }
  exists (set_double_buffer b3 (set_double_buffer b2 (set_double_buffer b1 s0))).
  split_and!; try done.
  - unfold bind at 1. rewrite Hrun1. unfold bind at 1. rewrite Hrun2.
    unfold bind at 1. by rewrite Hrun3.
  - simpl. by rewrite Hcells.
Qed.

Lemma move_draw_3_0_witness :
  exists s',
    (move 0 0 ;;; draw (3 + 0) 3 0 (Some (Py.str "#")) 7 0 false) curses_screen
      = (Ok tt, s') /\
    _x s' = Some (3 * 2) /\ _y s' = Some (0 * 2) /\
    _screen_buffer s' = _screen_buffer curses_screen /\
    (forall x' y', 0 <= x' -> 0 <= y' ->
       cell_at (_double_buffer s') x' y' =
         if bool_decide (y' = 0 /\ x' < 3) then Some ("#"%char, 7, 0, 0)
         else cell_at (_double_buffer curses_screen) x' y') /\
    cell_at (_double_buffer s') 3 0
      = cell_at (_double_buffer curses_screen) 3 0.
Proof.
  apply (move_draw_3_0 0 curses_screen (reach_curses 2 10 256 5));
    by vm_compute.
Defined.

(** C5, as stated, fails: the line stops short of its end point, and the
    cell (3, 0) is still blank, in the pending buffer and, after a refresh,
    on the screen. *)
Lemma draw_leaves_end_cell_blank :
  fst ((move 0 0 ;;; draw 3 3 0 (Some (Py.str "#")) 7 0 false) curses_screen)
    = Ok tt /\
  cell_at (_double_buffer
             (snd ((move 0 0 ;;; draw 3 3 0 (Some (Py.str "#")) 7 0 false)
                     curses_screen))) 3 0
    = Some (" "%char, 7, 0, 0) /\
  fst (get_from 3 0
         (snd ((move 0 0 ;;; draw 3 3 0 (Some (Py.str "#")) 7 0 false ;;;
                refresh) curses_screen)))
    = Ok (Py.ord " "%char, 7, 0, 0).
Proof. split_and!; by vm_compute. Qed.

(** ** [refresh] *)

Lemma same_pending_refl s : same_pending s s.
Proof. by split_and!. Qed.

Lemma same_buffers_refl s : same_buffers s s.
Proof. split; [apply same_pending_refl|done]. Qed.

Lemma _change_colours_same s0 colour attr bg :
  preserves (same_buffers s0) (_change_colours colour attr bg).
Proof.
  unfold _change_colours, Windows._change_colours, Curses._change_colours,
    Blessed._change_colours.
  frame; untouched.
Qed.

Lemma _print_at_same s0 text x y :
  preserves (same_buffers s0) (_print_at text x y).
Proof.
  unfold _print_at, Windows._print_at, Curses._print_at, Blessed._print_at.
  frame; untouched.
Qed.

Lemma _scroll_same s0 : preserves (same_buffers s0) _scroll.
Proof.
  unfold _scroll, Windows._scroll, Curses._scroll, Blessed._scroll.
  frame; untouched.
Qed.

(** One cell of a refresh that goes through: the committed cell becomes the
    pending one, which exists, and no other cell changes. *)
Lemma refresh_cell_ok y x s s' :
  0 <= x -> 0 <= y + _start_line s ->
  refresh_cell y x s = (Ok tt, s') ->
  same_pending s s' /\
  is_Some (cell_at (_double_buffer s) x (y + _start_line s)) /\
  forall x' y', 0 <= x' -> 0 <= y' ->
    cell_at (_screen_buffer s') x' y' =
      if bool_decide (x' = x /\ y' = y + _start_line s)
      then cell_at (_double_buffer s) x' y'
      else cell_at (_screen_buffer s) x' y'.
Proof.
  intros Hx Hy. unfold refresh_cell. rewrite bind_get_l.
  destruct (cell_at (_double_buffer s) x (y + _start_line s))
    as [new_cell|] eqn:Hnew; simpl; [|done].
  rewrite bind_ret_l.
  destruct (cell_at (_screen_buffer s) x (y + _start_line s))
    as [old_cell|] eqn:Hold; simpl; [|done].
  rewrite bind_ret_l.
  destruct (bool_decide (old_cell <> new_cell)) eqn:Hdiff; simpl.
  - destruct new_cell as [[[c colour] attr] bg].
    unfold bind at 1.
    pose proof (_change_colours_same s colour attr bg s (same_buffers_refl s))
      as Hs1.
    destruct (_change_colours colour attr bg s) as [[[]| |] s1]; [|done..].
    unfold bind at 1.
    pose proof (_print_at_same s [c] x y s1 Hs1) as Hs2.
    destruct (_print_at [c] x y s1) as [[[]| |] s2]; [|done..].
    simpl in Hs1, Hs2. destruct Hs2 as [(Hh & Hw & Ha & Hbh & Hp & Hb) Hc].
    unfold bind at 1, get, store_committed, bind at 1, get.
    destruct (store_cell _ _ _ _) as [b|] eqn:Hb'; simpl; [|done].
    intros [= <-]. split_and!; [by split_and!|done|].
    intros x' y' Hx' Hy'. simpl.
    rewrite Ha, Hc in Hb'.
    rewrite (store_cell_lookup _ _ _ _ _ x' y' Hx Hy Hx' Hy' Hb').
    destruct (decide (x' = x /\ y' = y + _start_line s)) as [[-> ->]|Hne].
    + rewrite bool_decide_eq_true_2 by done. by rewrite Hnew.
    + by rewrite bool_decide_eq_false_2 by done.
  - intros [= <-]. split_and!; [apply same_pending_refl|done|].
    intros x' y' _ _.
    destruct (decide (x' = x /\ y' = y + _start_line s)) as [[-> ->]|Hne].
    + rewrite bool_decide_eq_true_2 by done. rewrite Hnew, Hold. f_equal.
      apply bool_decide_eq_false_1 in Hdiff.
      by destruct (decide (old_cell = new_cell)).
    + by rewrite bool_decide_eq_false_2 by done.
Qed.

(** A loop over [range(n)] that goes through. *)
Lemma for_each_seq_inv (I : nat -> Screen -> Prop) (a n : nat)
    (body : Z -> SM unit) s s' :
  I a s ->
  (forall k s1 s2, (a <= k < a + n)%nat -> I k s1 ->
     body (Z.of_nat k) s1 = (Ok tt, s2) -> I (S k) s2) ->
  for_each (Z.of_nat <$> seq a n) body s = (Ok tt, s') ->
  I (a + n)%nat s'.
Proof.
  revert a s. induction n as [|n IH]; intros a s Ha Hstep; simpl.
  - intros [= <-]. by rewrite Nat.add_0_r.
  - unfold bind at 1.
    destruct (body (Z.of_nat a) s) as [[[]| |] s1] eqn:Hbody; [|done..].
    intros Hrest. rewrite Nat.add_succ_r. apply (IH (S a) s1); [| |done].
    + apply (Hstep a s s1); [lia|done..].
    + intros k s2 s3 Hk. apply Hstep. lia.
Qed.

Lemma for_each_range_inv (I : nat -> Screen -> Prop) (n : Z)
    (body : Z -> SM unit) s s' :
  I 0%nat s ->
  (forall k s1 s2, (k < Z.to_nat n)%nat -> I k s1 ->
     body (Z.of_nat k) s1 = (Ok tt, s2) -> I (S k) s2) ->
  for_each (Py.range n) body s = (Ok tt, s') ->
  I (Z.to_nat n) s'.
Proof.
  intros H0 Hstep Hrun.
  apply (for_each_seq_inv I 0 (Z.to_nat n) body s s'); [done| |done].
  intros k s1 s2 Hk. apply Hstep. lia.
Qed.

Lemma same_pending_trans s0 s1 s2 :
  same_pending s0 s1 -> same_pending s1 s2 -> same_pending s0 s2.
Proof.
  intros (? & ? & ? & ? & ? & ?) (? & ? & ? & ? & ? & ?).
  split_and!; congruence.
Qed.

(** One line of a refresh that goes through. *)
Lemma refresh_row_ok (w : Z) (ky : nat) s s' :
  0 <= _start_line s ->
  for_each (Py.range w) (fun x => refresh_cell (Z.of_nat ky) x) s = (Ok tt, s') ->
  same_pending s s' /\
  (forall x', 0 <= x' < w ->
     is_Some (cell_at (_double_buffer s) x' (Z.of_nat ky + _start_line s))) /\
  forall x' y', 0 <= x' -> 0 <= y' ->
    cell_at (_screen_buffer s') x' y' =
      if bool_decide (y' = Z.of_nat ky + _start_line s /\ x' < w)
      then cell_at (_double_buffer s) x' y'
      else cell_at (_screen_buffer s) x' y'.
Proof.
  intros Ha Hrun.
  pose (I := fun (k : nat) (s1 : Screen) =>
    same_pending s s1 /\
    (forall x', 0 <= x' < Z.of_nat k ->
       is_Some (cell_at (_double_buffer s) x' (Z.of_nat ky + _start_line s))) /\
    forall x' y', 0 <= x' -> 0 <= y' ->
      cell_at (_screen_buffer s1) x' y' =
        if bool_decide (y' = Z.of_nat ky + _start_line s /\ x' < Z.of_nat k)
        then cell_at (_double_buffer s) x' y'
        else cell_at (_screen_buffer s) x' y').
  assert (I (Z.to_nat w) s') as (Hsame & Hsome & Hcells); [|clear I].
  { refine (for_each_range_inv I w _ s s' _ _ Hrun); unfold I; clear I.
    - split_and!; [apply same_pending_refl|intros; lia|].
      intros x' y' ? ?. by rewrite bool_decide_eq_false_2 by lia.
    - intros k s1 s2 Hk (Hsame & Hsome & Hcells) Hcell.
      pose proof Hsame as (_ & _ & Ha1 & _ & Hp1 & _).
      apply refresh_cell_ok in Hcell as (Hsame' & Hsome' & Hcells'); [|lia..].
      rewrite Ha1, Hp1 in *.
      split_and!; [by eapply same_pending_trans| |].
      + intros x' Hx'. destruct (decide (x' = Z.of_nat k)) as [->|]; [done|].
        apply Hsome. lia.
      + intros x' y' Hx' Hy'. rewrite Hcells', Hcells by done.
        destruct (decide (x' = Z.of_nat k /\ y' = Z.of_nat ky + _start_line s))
          as [[-> ->]|Hne].
        * rewrite (bool_decide_eq_true_2 (_ = _ /\ _ = _)) by done.
          by rewrite bool_decide_eq_true_2 by lia.
        * rewrite (bool_decide_eq_false_2 (x' = _ /\ y' = _)) by done.
          destruct (decide (y' = Z.of_nat ky + _start_line s /\ x' < Z.of_nat k)).
          -- by rewrite !bool_decide_eq_true_2 by lia.
          -- by rewrite !bool_decide_eq_false_2 by lia. }
  split_and!; [done|intros; apply Hsome; lia|].
  intros x' y' Hx' Hy'. rewrite Hcells by done.
  destruct (decide (y' = Z.of_nat ky + _start_line s /\ x' < w)).
  - by rewrite !bool_decide_eq_true_2 by lia.
  - by rewrite !bool_decide_eq_false_2 by lia.
Qed.

(** The lines of a refresh that goes through. *)
Lemma refresh_rows_ok (h w : Z) s s' :
  0 <= _start_line s ->
  for_each (Py.range h) (fun y =>
    for_each (Py.range w) (fun x => refresh_cell y x)) s = (Ok tt, s') ->
  same_pending s s' /\
  (forall x' y', _start_line s <= y' < _start_line s + h -> 0 <= x' < w ->
     is_Some (cell_at (_double_buffer s) x' y')) /\
  forall x' y', 0 <= x' -> 0 <= y' ->
    cell_at (_screen_buffer s') x' y' =
      if bool_decide (_start_line s <= y' < _start_line s + h /\ x' < w)
      then cell_at (_double_buffer s) x' y'
      else cell_at (_screen_buffer s) x' y'.
Proof.
  intros Ha Hrun.
  pose (I := fun (k : nat) (s1 : Screen) =>
    same_pending s s1 /\
    (forall x' y', _start_line s <= y' < _start_line s + Z.of_nat k ->
       0 <= x' < w -> is_Some (cell_at (_double_buffer s) x' y')) /\
    forall x' y', 0 <= x' -> 0 <= y' ->
      cell_at (_screen_buffer s1) x' y' =
        if bool_decide (_start_line s <= y' < _start_line s + Z.of_nat k /\ x' < w)
        then cell_at (_double_buffer s) x' y'
        else cell_at (_screen_buffer s) x' y').
  assert (I (Z.to_nat h) s') as (Hsame & Hsome & Hcells); [|clear I].
  { refine (for_each_range_inv I h _ s s' _ _ Hrun); unfold I; clear I.
    - split_and!; [apply same_pending_refl|intros; lia|].
      intros x' y' _ _. by rewrite bool_decide_eq_false_2 by lia.
    - intros k s1 s2 Hk (Hsame & Hsome & Hcells) Hrow.
      pose proof Hsame as (_ & _ & Ha1 & _ & Hp1 & _).
      apply refresh_row_ok in Hrow as (Hsame' & Hsome' & Hcells'); [|lia].
      rewrite Ha1, Hp1 in *.
      split_and!; [by eapply same_pending_trans| |].
      + intros x' y' Hy' Hx'.
        destruct (decide (y' = Z.of_nat k + _start_line s)) as [->|].
        * by apply Hsome'.
        * apply Hsome; lia.
      + intros x' y' Hx' Hy'. rewrite Hcells', Hcells by done.
        destruct (decide (y' = Z.of_nat k + _start_line s /\ x' < w))
          as [[-> Hlt]|Hne].
        * rewrite (bool_decide_eq_true_2 (_ = _ /\ _ < _)) by done.
          by rewrite bool_decide_eq_true_2 by lia.
        * rewrite (bool_decide_eq_false_2 (y' = _ /\ x' < _)) by done.
          destruct (decide (_start_line s <= y' < _start_line s + Z.of_nat k
                            /\ x' < w)).
          -- by rewrite !bool_decide_eq_true_2 by lia.
          -- by rewrite !bool_decide_eq_false_2 by lia. }
  split_and!; [done|intros; apply Hsome; lia|].
  intros x' y' Hx' Hy'. rewrite Hcells by done.
  destruct (decide (_start_line s <= y' < _start_line s + h /\ x' < w)).
  - by rewrite !bool_decide_eq_true_2 by lia.
  - by rewrite !bool_decide_eq_false_2 by lia.
Qed.

(** A refresh that goes through copies the pending cells of the window, and
    those only, to the committed buffer. *)
Lemma refresh_ok s s' :
  wf s -> refresh s = (Ok tt, s') ->
  same_pending s s' /\
  (forall x y, in_viewport s x y -> is_Some (cell_at (_double_buffer s) x y)) /\
  forall x' y', 0 <= x' -> 0 <= y' ->
    cell_at (_screen_buffer s') x' y' =
      if bool_decide (_start_line s <= y' < _start_line s + height s /\
                      x' < width s)
      then cell_at (_double_buffer s) x' y'
      else cell_at (_screen_buffer s) x' y'.
Proof.
  intros (Ha & _) Hrun. unfold refresh in Hrun. rewrite bind_get_l in Hrun.
  unfold bind at 1 in Hrun.
  pose proof (preserves_for_each (same_buffers s)
                (Py.range (_start_line s - _last_start_line s))
                (fun _ => _scroll) (fun _ _ => _scroll_same s) s
                (same_buffers_refl s)) as Hs1.
  destruct (for_each _ (fun _ => _scroll) s) as [[[]| |] s1]; [|done..].
  rewrite bind_modify_l in Hrun. simpl in Hs1.
  destruct Hs1 as [(Hh & Hw & Ha1 & Hbh & Hp & Hb) Hc].
  apply refresh_rows_ok in Hrun as (Hsame & Hsome & Hcells); [|simpl; lia].
  simpl in Hsame, Hsome, Hcells. rewrite Ha1, Hp, Hc in *.
  split_and!.
  - eapply same_pending_trans; [|exact Hsame]. by split_and!.
  - intros x y [Hy Hx]. by apply Hsome.
  - done.
Qed.

(** C1, as amended: on every reachable screen, after a refresh that has
    completed, the committed buffer equals the pending buffer on every cell
    of the current window (rows [start_line] to [start_line + height - 1],
    every column); the cells outside the window keep the committed value
    they had, whatever has been drawn on them. *)
Theorem refresh_commits_viewport (s s' : Screen) (x y : Z) :
  reachable s -> refresh s = (Ok tt, s') ->
  (in_viewport s' x y ->
   exists c, cell_at (_screen_buffer s') x y = Some c /\
             cell_at (_double_buffer s') x y = Some c) /\
  (0 <= x -> 0 <= y -> ~ in_viewport s' x y ->
   cell_at (_screen_buffer s') x y = cell_at (_screen_buffer s) x y).
Proof.
  intros Hs%reachable_wf Hrun. pose proof Hs as (Ha & _).
  apply refresh_ok in Hrun as ((Hh & Hw & Ha' & _ & Hp & _) & Hsome & Hcells);
    [|done].
  unfold in_viewport. rewrite Hh, Hw, Ha', Hp. split.
  - intros [Hy Hx]. destruct (Hsome x y) as [c Hc]; [done|].
    exists c. rewrite Hcells by lia.
    by rewrite bool_decide_eq_true_2 by lia.
  - intros Hx Hy Hout. rewrite Hcells by done.
    by rewrite bool_decide_eq_false_2 by lia.
Qed.

Lemma refresh_commits_viewport_witness :
  exists c,
    cell_at (_screen_buffer
               (snd (refresh (snd (print_at (Py.str "A") 3 1 7 0 0 false
                                     curses_screen))))) 3 1 = Some c /\
    cell_at (_double_buffer
               (snd (refresh (snd (print_at (Py.str "A") 3 1 7 0 0 false
                                     curses_screen))))) 3 1 = Some c.
Proof.
  refine (proj1 (refresh_commits_viewport
                   (snd (print_at (Py.str "A") 3 1 7 0 0 false curses_screen))
                   _ 3 1 _ _) _).
  - apply (reach_call curses_screen 0
             (call_drawing (call_print_at (Py.str "A") 3 1 7 0 0 false))).
    apply reach_curses.
  - by vm_compute.
  - by vm_compute.
Defined.

(** C1, as stated, fails: a cell drawn outside the window is still
    different in the two buffers after a refresh that has completed. *)
Lemma refresh_skips_cells_outside_viewport :
  reachable (snd (print_at (Py.str "A") 0 4 7 0 0 false curses_screen)) /\
  fst (refresh (snd (print_at (Py.str "A") 0 4 7 0 0 false curses_screen)))
    = Ok tt /\
  cell_at (_double_buffer
             (snd (refresh
                (snd (print_at (Py.str "A") 0 4 7 0 0 false curses_screen))))) 0 4
    = Some ("A"%char, 7, 0, 0) /\
  cell_at (_screen_buffer
             (snd (refresh
                (snd (print_at (Py.str "A") 0 4 7 0 0 false curses_screen))))) 0 4
    = Some (" "%char, 7, 0, 0).
Proof.
  split_and!; [|by vm_compute..].
  apply (reach_call curses_screen 0
           (call_drawing (call_print_at (Py.str "A") 0 4 7 0 0 false))).
  apply reach_curses.
Qed.

(** ** When a refresh goes through *)

Lemma total_ret {A} (a : A) : total (ret a).
Proof. intros s. by exists a, s. Qed.

Lemma total_modify f : total (modify f).
Proof. intros s. by exists tt, (f s). Qed.

Lemma total_bind {A B} (m : SM A) (k : A -> SM B) :
  total m -> (forall a, total (k a)) -> total (bind m k).
Proof.
  intros Hm Hk s. destruct (Hm s) as (a & s1 & Hms).
  destruct (Hk a s1) as (b & s2 & Hks).
  exists b, s2. unfold bind. by rewrite Hms.
Qed.

Lemma total_get_bind {B} (k : Screen -> SM B) :
  (forall s, total (k s)) -> total (bind get k).
Proof. intros Hk s. rewrite bind_get_l. apply Hk. Qed.

Lemma total_or_raise_bind {A B} e (o : option A) (k : A -> SM B) :
  is_Some o -> (forall a, total (k a)) -> total (bind (or_raise e o) k).
Proof. intros [a ->] Hk. simpl. rewrite bind_ret_l. apply Hk. Qed.

Lemma total_when b (m : SM unit) : (b = true -> total m) -> total (when b m).
Proof. destruct b; simpl; [auto|]. intros _. apply total_ret. Qed.

Lemma total_for_each {A} (l : list A) (body : A -> SM unit) :
  (forall a, total (body a)) -> total (for_each l body).
Proof.
  intros Hb. induction l as [|a l IH]; simpl.
  - apply total_ret.
  - by apply total_bind.
Qed.

(** Walks down a computation that cannot raise. *)
Ltac total_step :=
  lazymatch goal with
  | |- total (bind get _) => apply total_get_bind; intros ?
  | |- total (bind (or_raise _ _) _) => apply total_or_raise_bind; [|intros ?]
  | |- total (bind _ _) => apply total_bind; [|intros ?]
  | |- total (when _ _) => apply total_when; intros ?
  | |- total (for_each _ _) => apply total_for_each; intros ?
  | |- total (ret _) => apply total_ret
  | |- total (modify _) => apply total_modify
  | |- total (write _) => apply total_modify
  end.

Lemma windows_attribute attr :
  0 <= attr <= 4 -> is_Some (Windows._ATTRIBUTES !! attr).
Proof.
  intros H.
  assert (attr = 0 \/ attr = 1 \/ attr = 2 \/ attr = 3 \/ attr = 4)
    as [->|[->|[->|[->| ->]]]] by lia; by eexists.
Qed.

Lemma windows_colour colour :
  0 <= colour <= 7 -> is_Some (Windows._COLOURS !! colour).
Proof.
  intros H.
  assert (colour = 0 \/ colour = 1 \/ colour = 2 \/ colour = 3 \/ colour = 4 \/
          colour = 5 \/ colour = 6 \/ colour = 7)
    as [->|[->|[->|[->|[->|[->|[->| ->]]]]]]] by lia; by eexists.
Qed.

Lemma windows_bg_colour bg :
  0 <= bg <= 7 -> is_Some (Windows._BG_COLOURS !! bg).
Proof.
  intros H.
  assert (bg = 0 \/ bg = 1 \/ bg = 2 \/ bg = 3 \/ bg = 4 \/
          bg = 5 \/ bg = 6 \/ bg = 7)
    as [->|[->|[->|[->|[->|[->|[->| ->]]]]]]] by lia; by eexists.
Qed.

Lemma curses_attribute attr :
  0 <= attr <= 4 -> attr <> 0 -> is_Some (Curses._ATTRIBUTES !! attr).
Proof.
  intros H H0.
  assert (attr = 1 \/ attr = 2 \/ attr = 3 \/ attr = 4)
    as [->|[->|[->| ->]]] by lia; by eexists.
Qed.

Lemma blessed_attribute attr :
  0 <= attr <= 4 -> attr <> 0 -> is_Some (Blessed.ATTRIBUTES !! attr).
Proof.
  intros H H0.
  assert (attr = 1 \/ attr = 2 \/ attr = 3 \/ attr = 4)
    as [->|[->|[->| ->]]] by lia; by eexists.
Qed.

Lemma windows_change_colours_total colour attr bg :
  0 <= attr <= 4 -> 0 <= colour <= 7 -> 0 <= bg <= 7 ->
  total (Windows._change_colours colour attr bg).
Proof.
  intros Ha Hc Hb. unfold Windows._change_colours.
  repeat total_step;
    auto using windows_attribute, windows_colour, windows_bg_colour.
Qed.

Lemma curses_change_colours_total colour attr bg :
  0 <= attr <= 4 -> total (Curses._change_colours colour attr bg).
Proof.
  intros Ha. unfold Curses._change_colours.
  repeat total_step. apply curses_attribute; [done|].
  by eapply bool_decide_eq_true_1.
Qed.

Lemma blessed_change_colours_total colour attr bg :
  0 <= attr <= 4 -> total (Blessed._change_colours colour attr bg).
Proof.
  intros Ha. unfold Blessed._change_colours.
  repeat total_step. apply blessed_attribute; [done|].
  by eapply bool_decide_eq_true_1.
Qed.

Lemma _change_colours_returns colour attr bg s :
  renderable (backend s) colour attr bg = true ->
  exists s', _change_colours colour attr bg s = (Ok tt, s').
Proof.
  intros Hr. unfold _change_colours. rewrite bind_get_l.
  unfold renderable in Hr.
  destruct (backend s).
  - apply andb_prop in Hr as [[Ha Hc]%andb_prop Hb].
    apply bool_decide_eq_true_1 in Ha, Hc, Hb.
    destruct (windows_change_colours_total colour attr bg Ha Hc Hb s)
      as ([] & s' & ->).
    by exists s'.
  - apply bool_decide_eq_true_1 in Hr.
    destruct (curses_change_colours_total colour attr bg Hr s) as ([] & s' & ->).
    by exists s'.
  - apply bool_decide_eq_true_1 in Hr.
    destruct (blessed_change_colours_total colour attr bg Hr s) as ([] & s' & ->).
    by exists s'.
Qed.

Lemma _print_at_total text x y : total (_print_at text x y).
Proof.
  unfold _print_at, Windows._print_at, Curses._print_at, Blessed._print_at.
  apply total_get_bind. intros s. destruct (backend s); repeat total_step.
Qed.

Lemma cell_at_is_Some h w (b : Buffer) x y :
  shaped h w b -> 0 <= y < Z.of_nat h -> 0 <= x < Z.of_nat w ->
  is_Some (cell_at b x y).
Proof.
  intros Hb Hy Hx. rewrite cell_at_nonneg by lia.
  destruct (lookup_lt_is_Some_2 b (Z.to_nat y)) as [row Hrow].
  { destruct Hb as [-> _]. lia. }
  rewrite Hrow. simpl. apply lookup_lt_is_Some_2.
  rewrite (shaped_lookup _ _ _ _ _ Hb Hrow). lia.
Qed.

Lemma cell_at_Some_inv h w (b : Buffer) x y c :
  shaped h w b -> 0 <= y -> 0 <= x -> cell_at b x y = Some c ->
  y < Z.of_nat h /\ x < Z.of_nat w.
Proof.
  intros Hb Hy Hx. rewrite cell_at_nonneg by lia.
  destruct (b !! Z.to_nat y) as [row|] eqn:Hrow; simpl; [|done].
  intros Hc%lookup_lt_Some. rewrite (shaped_lookup _ _ _ _ _ Hb Hrow) in Hc.
  apply lookup_lt_Some in Hrow. destruct Hb as [<- _]. lia.
Qed.

(** One cell of a refresh, when the window lies in the buffer and the
    pending cell can be sent to the device. *)
Lemma refresh_cell_returns y x s :
  wf s -> viewport_in_buffer s -> pending_renderable s ->
  0 <= y < height s -> 0 <= x < width s ->
  exists s', refresh_cell y x s = (Ok tt, s').
Proof.
  intros Hs Hv Hr Hy Hx. pose proof Hs as (Ha & Hc & Hp).
  unfold viewport_in_buffer in Hv.
  unfold refresh_cell. rewrite bind_get_l.
  destruct (cell_at_is_Some _ _ _ x (y + _start_line s) Hp) as [new_cell Hnew];
    [lia..|].
  destruct (cell_at_is_Some _ _ _ x (y + _start_line s) Hc) as [old_cell Hold];
    [lia..|].
  rewrite Hnew, Hold. simpl. rewrite !bind_ret_l.
  destruct (bool_decide (old_cell <> new_cell)); simpl; [|by eexists].
  specialize (Hr x (y + _start_line s) new_cell).
  destruct new_cell as [[[c colour] attr] bg]. simpl in Hr.
  destruct (_change_colours_returns colour attr bg s) as [s1 Hs1].
  { apply Hr; [|done]. unfold in_viewport. lia. }
  pose proof (_change_colours_same s colour attr bg s (same_buffers_refl s))
    as Hsame1.
  unfold bind at 1. rewrite Hs1 in *. simpl in Hsame1.
  destruct (_print_at_total [c] x y s1) as ([] & s2 & Hs2).
  pose proof (_print_at_same s [c] x y s1 Hsame1) as Hsame2.
  unfold bind at 1. rewrite Hs2 in *. simpl in Hsame2.
  destruct Hsame2 as [(_ & _ & Ha2 & _ & _ & _) Hc2].
  rewrite bind_get_l. unfold store_committed. rewrite bind_get_l.
  rewrite Ha2, Hc2.
  destruct (store_cell_is_Some _ _ (_screen_buffer s) x (y + _start_line s)
              (c, colour, attr, bg) Hc) as [b' ->]; [lia..|].
  simpl. by eexists.
Qed.

(** A loop whose passes all return. *)
Lemma for_each_returns {A} (J : Screen -> Prop) (l : list A)
    (body : A -> SM unit) s :
  (forall a s1, a ∈ l -> J s1 -> exists s2, body a s1 = (Ok tt, s2) /\ J s2) ->
  J s -> exists s', for_each l body s = (Ok tt, s') /\ J s'.
Proof.
  revert s. induction l as [|a l IH]; intros s Hbody Hs; simpl.
  - by exists s.
  - destruct (Hbody a s) as (s1 & Hs1 & HJ1); [left|done|].
    destruct (IH s1) as (s' & Hs' & HJ'); [|done|].
    { intros a' s2 Ha'. apply Hbody. by right. }
    exists s'. split; [|done]. unfold bind. by rewrite Hs1.
Qed.

Lemma elem_of_range a n : a ∈ Py.range n -> 0 <= a < n.
Proof.
  unfold Py.range. intros (k & -> & Hk%elem_of_seq)%list_elem_of_fmap. lia.
Qed.

(** A refresh returns when the window lies in the buffer and every pending
    cell of the window can be sent to the device. *)
Lemma refresh_returns s :
  wf s -> viewport_in_buffer s -> pending_renderable s ->
  exists s', refresh s = (Ok tt, s').
Proof.
  intros Hs Hv Hr. unfold refresh. rewrite bind_get_l.
  destruct (scroll_loop (Py.range (_start_line s - _last_start_line s))
              (_start_line s) (_last_start_line s) (scroll_calls s) s)
    as (s1 & Hs1 & _); [done|].
  pose proof (preserves_for_each (same_buffers s)
                (Py.range (_start_line s - _last_start_line s))
                (fun _ => _scroll) (fun _ _ => _scroll_same s) s
                (same_buffers_refl s)) as Hsame.
  pose proof (preserves_for_each wf
                (Py.range (_start_line s - _last_start_line s))
                (fun _ => _scroll) (fun _ _ => _scroll_wf) s Hs) as Hwf.
  unfold bind at 1. rewrite Hs1 in *. simpl in Hsame, Hwf.
  rewrite bind_modify_l.
  set (J := fun s2 : Screen => wf s2 /\ same_pending s s2).
  assert (J (set_last_start_line (_start_line s) s1)) as HJ.
  { split; [done|]. by destruct Hsame as [? _]. }
  destruct (for_each_returns J (Py.range (height s))
              (fun y => for_each (Py.range (width s)) (fun x => refresh_cell y x))
              (set_last_start_line (_start_line s) s1))
    as (s' & Hs' & _); [|done|by exists s'].
  intros y s2 Hy%elem_of_range HJ2.
  apply (for_each_returns J); [|done].
  intros x s3 Hx%elem_of_range [Hwf3 Hsame3].
  pose proof Hsame3 as (Hh & Hw & Ha & Hbh & Hp & Hb).
  destruct (refresh_cell_returns y x s3) as [s4 Hs4]; [done| | |lia..|].
  { unfold viewport_in_buffer. by rewrite Ha, Hh, Hbh. }
  { intros x' y' c. unfold in_viewport. rewrite Ha, Hh, Hw, Hp, Hb. apply Hr. }
  exists s4. split; [done|]. split.
  - pose proof (refresh_cell_wf y x s3 Hwf3) as H. by rewrite Hs4 in H.
  - pose proof Hwf3 as (Ha3 & _).
    apply refresh_cell_ok in Hs4 as (Hsame4 & _); [|lia..].
    by eapply same_pending_trans.
Qed.

(** ** Printing, then refreshing, then reading *)

Lemma print_at_off_buffer text x y colour attr bg tr s :
  y < 0 \/ _buffer_height s <= y ->
  print_at text x y colour attr bg tr s = (Ok tt, s).
Proof.
  intros Hy. unfold print_at. rewrite bind_get_l.
  destruct Hy.
  - by rewrite (bool_decide_eq_true_2 (y < 0)) by done.
  - rewrite (bool_decide_eq_true_2 (y >= _buffer_height s)) by lia.
    by rewrite orb_true_r.
Qed.

Lemma get_from_cell x y s c colour attr bg :
  cell_at (_screen_buffer s) x y = Some (c, colour, attr, bg) ->
  get_from x y s = (Ok (Py.ord c, colour, attr, bg), s).
Proof. intros H. unfold get_from. rewrite bind_get_l. by rewrite H. Qed.

(** C2: on a reachable screen, for [(x, y)] in the window and text that is
    not empty, [print_at(text, x, y, colour, attr, bg)] followed by
    [refresh()] returns when the window lies in the buffer and the backend
    has the colours and attribute of the pending cells and of the text in
    its tables; and whenever the two calls return, [get_from(x + i, y)]
    returns [(ord(text[i]), colour, attr, bg)] for every character [i] of
    the text whose cell lies in the window. *)
Theorem print_at_refresh_get_from (s : Screen) (text : list ascii)
    (x y colour attr bg : Z) :
  reachable s -> in_viewport s x y -> text <> [] ->
  (viewport_in_buffer s -> pending_renderable s ->
   renderable (backend s) colour attr bg = true ->
   exists s2,
     (print_at text x y colour attr bg false ;;; refresh) s = (Ok tt, s2)) /\
  (forall s2 (i : nat) c,
     (print_at text x y colour attr bg false ;;; refresh) s = (Ok tt, s2) ->
     text !! i = Some c -> x + Z.of_nat i < width s ->
     get_from (x + Z.of_nat i) y s2 = (Ok (Py.ord c, colour, attr, bg), s2)).
Proof.
  intros Hs%reachable_wf [Hy Hx] Htext. pose proof Hs as (Ha & Hc & Hp).
  split.
  - intros Hv Hr Hnew. unfold viewport_in_buffer in Hv.
    destruct (print_at_spec text x y colour attr bg false s)
      as (b' & Hrun & Hshape & Hcells); [done|lia..|].
    unfold bind. rewrite Hrun.
    apply refresh_returns.
    + by apply set_double_buffer_wf.
    + done.
    + intros x' y' c' [Hy' Hx']. simpl in Hy', Hx' |- *.
      rewrite Hcells by lia. unfold overlay.
      destruct (if bool_decide (x' < width s) then _ else _) as [c|];
        [|by apply Hr].
      rewrite orb_true_r. by intros [= <-].
  - intros s2 i c Hrun Hi Hxi. unfold bind in Hrun.
    destruct (decide (y < _buffer_height s)) as [Hlt|Hge].
    + destruct (print_at_spec text x y colour attr bg false s)
        as (b' & Hprint & Hshape & Hcells); [done|lia..|].
      rewrite Hprint in Hrun.
      apply refresh_ok in Hrun as (_ & _ & Hcommitted);
        [|by apply set_double_buffer_wf].
      simpl in Hcommitted. apply get_from_cell.
      rewrite Hcommitted by lia.
      rewrite bool_decide_eq_true_2 by lia.
      rewrite Hcells by lia.
      rewrite bool_decide_eq_true_2 by lia.
      unfold text_at. rewrite bool_decide_eq_true_2 by lia.
      replace (Z.to_nat (x + Z.of_nat i - x)) with i by lia.
      rewrite Hi. simpl. by rewrite orb_true_r.
    + rewrite print_at_off_buffer in Hrun by lia.
      apply refresh_ok in Hrun as (_ & Hsome & _); [|done].
      destruct (Hsome x y) as [c' Hc']; [done|].
      apply (cell_at_Some_inv _ _ _ _ _ _ Hp) in Hc'; lia.
Qed.

(** On a new screen every cell is a white blank on black, which every
    backend can send. *)
Lemma new_screen_pending_renderable height width buffer_height b colours :
  pending_renderable
    (set_colours colours (_BufferedScreen__init__ height width buffer_height b)).
Proof.
  intros x y c _. simpl. unfold cell_at.
  destruct (Py.getitem _ y) as [row|] eqn:Hrow; simpl; [|done].
  intros Hc%getitem_elem_of.
  apply getitem_elem_of, list_elem_of_fmap in Hrow as (? & -> & _).
  apply list_elem_of_fmap in Hc as (? & -> & _).
  by destruct b.
Qed.

Lemma print_at_refresh_get_from_witness :
  (exists s2,
     (print_at (Py.str "HI") 3 1 2 1 4 false ;;; refresh) curses_screen
       = (Ok tt, s2)) /\
  get_from (3 + Z.of_nat 1) 1
    (snd ((print_at (Py.str "HI") 3 1 2 1 4 false ;;; refresh) curses_screen))
  = (Ok (Py.ord "I"%char, 2, 1, 4),
     snd ((print_at (Py.str "HI") 3 1 2 1 4 false ;;; refresh) curses_screen)).
Proof.
  assert (in_viewport curses_screen 3 1) as Hin by (by vm_compute).
  assert (Py.str "HI" <> []) as Hne by done.
  destruct (print_at_refresh_get_from curses_screen (Py.str "HI") 3 1 2 1 4
              (reach_curses 2 10 256 5) Hin Hne) as [Hreturns Hvalue].
  split.
  - apply Hreturns; [by vm_compute| |done].
    apply new_screen_pending_renderable.
  - apply Hvalue; by vm_compute.
Defined.

(** * Further properties *)

(** ** What every reachable screen satisfies *)

Lemma print_at_baseline_behind text x y colour attr bg transparent :
  preserves baseline_behind (print_at text x y colour attr bg transparent).
Proof. unfold print_at, store_pending. frame; untouched. Qed.

Lemma clear_baseline_behind : preserves baseline_behind clear.
Proof.
  unfold clear. frame.
  - unfold _change_colours, Windows._change_colours, Curses._change_colours,
      Blessed._change_colours.
    frame; untouched.
  - unfold _clear, Windows._clear, Curses._clear, Blessed._clear.
    frame; untouched.
  - by intros s _.
Qed.

Lemma exec_baseline_behind fuel c s :
  wf s -> baseline_behind s -> baseline_behind (exec fuel c s).
Proof.
  intros Hs Hb. destruct c; simpl.
  - apply exec_drawing_keeps; [apply print_at_baseline_behind|done..].
  - clear Hs. induction fuel as [|fuel IH]; simpl; [done|apply IH].
  - unfold baseline_behind in *. simpl. lia.
  - by apply clear_baseline_behind.
  - assert (scroll_state (_start_line s) (_last_start_line s) (scroll_calls s) s)
      as H by done.
    apply refresh_scroll_state in H as (H1 & H2 & _).
    unfold baseline_behind. rewrite H1, H2. destruct Hs as (? & _). lia.
  - revert Hb. unfold get_from. generalize s. 
    change (preserves baseline_behind (get_from x y)). unfold get_from. frame.
  - revert Hb. generalize s.
    change (preserves baseline_behind has_resized).
    unfold has_resized. frame; untouched.
  - unfold _resize_handler. by destruct (backend s).
  - unfold console_window_changed. by destruct (backend s).
Qed.

(** X1: on every reachable screen both buffers have [_buffer_height] rows
    of [width] cells, the start line is not negative, and the start line seen
    by the latest refresh is between 0 and the present start line. *)
Theorem reachable_invariant (s : Screen) :
  reachable s -> wf s /\ baseline_behind s.
Proof.
  intros Hs. split; [by apply reachable_wf|].
  induction Hs as [| | |s fuel c Hs IH]; [by unfold baseline_behind..|].
  apply exec_baseline_behind; [by apply reachable_wf|done].
Qed.

Lemma reachable_invariant_witness :
  let s := exec 0 call_refresh (exec 0 call_scroll curses_screen) in
  wf s /\ baseline_behind s.
Proof.
  apply (reachable_invariant
           (exec 0 call_refresh (exec 0 call_scroll curses_screen))).
  apply reach_call, reach_call, reach_curses.
Defined.


(** ** What drawing touches *)

Lemma same_but_drawn_refl s : same_but_drawn s s.
Proof. by split_and!. Qed.

Lemma run_drawing_keeps (P : Screen -> Prop) fuel cs s :
  (forall c, c ∈ cs -> preserves P (exec_drawing fuel c)) ->
  P s -> P (run_drawing fuel cs s).
Proof.
  revert s. induction cs as [|c cs IH]; intros s Hcs Hs; simpl; [done|].
  apply IH.
  - intros c' Hc'. apply Hcs. by right.
  - apply Hcs; [left|done].
Qed.

Lemma print_at_same_but_drawn s0 text x y colour attr bg transparent :
  preserves (same_but_drawn s0) (print_at text x y colour attr bg transparent).
Proof. unfold print_at, store_pending. frame; untouched. Qed.

Lemma print_at_pen s0 text x y colour attr bg transparent :
  preserves (fun s => _x s = _x s0 /\ _y s = _y s0)
    (print_at text x y colour attr bg transparent).
Proof. unfold print_at, store_pending. frame; untouched. Qed.

(** X2: a sequence of drawing calls changes the pending buffer and the pen
    and nothing else, whatever the calls raise: the sizes, the start lines,
    the committed buffer, the record of the colours of the device and the
    class are as before, and nothing is sent to the device.  [print_at],
    [paint] and [centre] leave the pen as it was too. *)
Theorem drawing_touches_pending_and_pen (fuel : nat) (cs : list DrawingCall)
    (s : Screen) :
  same_but_drawn s (run_drawing fuel cs s) /\
  (Forall writes_text cs ->
   _x (run_drawing fuel cs s) = _x s /\ _y (run_drawing fuel cs s) = _y s).
Proof.
  split.
  - apply run_drawing_keeps; [|apply same_but_drawn_refl].
    intros c _. apply exec_drawing_keeps; [|done..].
    apply print_at_same_but_drawn.
  - intros Hcs.
    apply (run_drawing_keeps (fun s' => _x s' = _x s /\ _y s' = _y s));
      [|done].
    intros c Hc. eapply Forall_forall in Hcs; [|done].
    destruct c; simpl; try done.
    + apply print_at_pen.
    + apply paint_keeps, print_at_pen.
    + apply centre_keeps, print_at_pen.
Qed.

Lemma drawing_touches_pending_and_pen_witness :
  let cs := [call_print_at (Py.str "A") 0 0 7 0 0 false;
             call_centre (Py.str "abc") 1 7 0 None] in
  let s := snd (move 2 1 curses_screen) in
  same_but_drawn s (run_drawing 0 cs s) /\
  _x (run_drawing 0 cs s) = Some 4 /\ _y (run_drawing 0 cs s) = Some 2.
Proof.
  intros cs s.
  destruct (drawing_touches_pending_and_pen 0 cs s) as [Hsame Hpen].
  split; [exact Hsame|]. apply Hpen. by repeat constructor.
Defined.


(** ** More on [print_at] *)

(** X3: on a line of the buffer of a reachable screen, text that starts at
    or before the right edge is clipped, not refused: [print_at] returns,
    only the pending buffer changes, and in it only the cells of line [y] at
    the columns from [max(x, 0)] to [width - 1] on which a character of the
    text falls, the character [text[x' - x]] on column [x'] (so a negative
    [x] drops the leading [-x] characters); with [transparent] a space
    leaves the cell as it was. *)
Theorem print_at_clips (s : Screen) (text : list ascii)
    (x y colour attr bg : Z) (transparent : bool) :
  reachable s -> 0 <= y < _buffer_height s -> 0 <= width s -> x <= width s ->
  exists b',
    print_at text x y colour attr bg transparent s
      = (Ok tt, set_double_buffer b' s) /\
    forall x' y', 0 <= x' -> 0 <= y' ->
      cell_at b' x' y' =
        match (if bool_decide (y' = y /\ x <= x' < width s)
               then text !! Z.to_nat (x' - x) else None) with
        | Some c =>
            if bool_decide (c = " "%char) && transparent
            then cell_at (_double_buffer s) x' y'
            else Some (c, colour, attr, bg)
        | None => cell_at (_double_buffer s) x' y'
        end.
Proof.
  intros Hs%reachable_wf Hy Hw Hx.
  destruct (print_at_spec text x y colour attr bg transparent s)
    as (b' & Hrun & _ & Hcells); [done..|].
  exists b'. split; [done|]. intros x' y' Hx' Hy'. rewrite Hcells by done.
  unfold overlay, text_at.
  destruct (decide (y' = y /\ x <= x' < width s)) as [(-> & ? & ?)|Hno].
  - rewrite (bool_decide_eq_true_2 (y = y /\ x <= x' < width s)) by done.
    rewrite (bool_decide_eq_true_2 (x' < width s)) by done.
    rewrite (bool_decide_eq_true_2 (y = y /\ x <= x')) by done.
    destruct (text !! Z.to_nat (x' - x)) as [c|]; [|done].
    destruct transparent; simpl.
    + rewrite orb_false_r, andb_true_r.
      destruct (decide (c = " "%char)) as [->|Hc].
      * by rewrite bool_decide_eq_false_2, bool_decide_eq_true_2 by auto.
      * by rewrite bool_decide_eq_true_2, bool_decide_eq_false_2 by auto.
    + by rewrite orb_true_r, andb_false_r.
  - rewrite (bool_decide_eq_false_2 (y' = y /\ x <= x' < width s)) by done.
    destruct (bool_decide (x' < width s)) eqn:Hlt; [|done].
    apply bool_decide_eq_true_1 in Hlt.
    by rewrite (bool_decide_eq_false_2 (y' = y /\ x <= x')) by lia.
Qed.

Lemma print_at_clips_witness :
  exists b',
    print_at (Py.str "HELLO") (-2) 0 7 0 0 false curses_screen
      = (Ok tt, set_double_buffer b' curses_screen) /\
    cell_at b' 0 0 = Some ("L"%char, 7, 0, 0) /\
    cell_at b' 2 0 = Some ("O"%char, 7, 0, 0) /\
    cell_at b' 3 0 = Some (" "%char, 7, 0, 0).
Proof.
  destruct (print_at_clips curses_screen (Py.str "HELLO") (-2) 0 7 0 0 false
              (reach_curses 2 10 256 5)) as (b' & Hrun & Hcells);
    [by vm_compute..|].
  exists b'. split; [done|].
  split_and!; rewrite Hcells by done; reflexivity.
Defined.

(** The text [print_at] is left with after clipping is part of the text. *)
Lemma clipped_Forall (P : ascii -> Prop) (text : list ascii) (x w : Z) :
  Forall P text ->
  Forall P
    (let '(text0, x0) :=
       if bool_decide (x < 0) then (Py.slice_from text (- x), 0) else (text, x) in
     if bool_decide (x0 + Py.len text0 >= w)
     then Py.slice_to text0 (w - x0) else text0).
Proof.
  intros H. case_bool_decide; case_bool_decide;
    unfold Py.slice_to, Py.slice_from;
    auto using Forall_take, Forall_drop.
Qed.

Lemma print_loop_spaces (t : list ascii) k x y colour attr bg s :
  Forall (fun c => c = " "%char) t ->
  for_each (Py.enumerate_from k t) (fun '(i, c) =>
    when (bool_decide (c <> " "%char) || negb true)
      (store_pending (x + i) y (c, colour, attr, bg))) s = (Ok tt, s).
Proof.
  intros Ht. revert k. induction Ht as [|c t -> _ IH]; intros k; simpl; [done|].
  apply IH.
Qed.

(** X4: with [transparent] set, text made of spaces only is printed nowhere:
    [print_at] returns with the screen as it was, for every state and every
    [x] and [y], also to the right of the right edge where other text makes
    it raise. *)
Theorem print_at_transparent_spaces (s : Screen) (text : list ascii)
    (x y colour attr bg : Z) :
  Forall (fun c => c = " "%char) text ->
  print_at text x y colour attr bg true s = (Ok tt, s).
Proof.
  intros Ht. unfold print_at. rewrite bind_get_l.
  destruct (_ || _); [done|].
  pose proof (clipped_Forall _ text x (width s) Ht) as Hclip.
  destruct (if bool_decide (x < 0) then _ else _) as [text0 x0].
  destruct (bool_decide (x0 + Py.len text0 >= width s));
    unfold when; case_bool_decide; try done; by apply print_loop_spaces.
Qed.

Lemma print_at_transparent_spaces_witness :
  print_at (Py.str "   ") 12 0 7 0 0 true curses_screen = (Ok tt, curses_screen).
Proof. apply print_at_transparent_spaces. by repeat constructor. Defined.


(** ** One character at a time: [paint] *)

Lemma print_at_char_returns c x y colour attr bg tr s :
  wf s -> exists s', print_at [c] x y colour attr bg tr s = (Ok tt, s').
Proof.
  intros Hs.
  destruct (decide (0 <= y < _buffer_height s)) as [Hy|Hy];
    [|eexists; apply print_at_off_buffer; lia].
  destruct (decide (0 <= x < width s)) as [Hx|Hx].
  { destruct (print_at_spec [c] x y colour attr bg tr s) as (b' & -> & _);
      [done|done|lia..|by eexists]. }
  exists s. unfold print_at. rewrite bind_get_l.
  rewrite (bool_decide_eq_false_2 (y < 0)) by lia.
  rewrite (bool_decide_eq_false_2 (y >= _buffer_height s)) by lia. simpl.
  case_bool_decide as Hneg.
  - unfold Py.slice_from, Py.slice_bound.
    rewrite (bool_decide_eq_true_2 (0 <= - x)) by lia.
    replace (Z.to_nat (- x)) with (S (Z.to_nat (- x - 1))) by lia. simpl.
    rewrite drop_nil.
    assert ((if bool_decide (0 + Py.len (@nil ascii) >= width s)
             then Py.slice_to (@nil ascii) (width s - 0) else []) = []) as ->
      by (case_bool_decide; [apply take_nil|done]).
    done.
  - rewrite (bool_decide_eq_true_2 (x + Py.len [c] >= width s))
      by (unfold Py.len; simpl; lia).
    unfold Py.slice_to, Py.slice_bound. simpl.
    destruct (decide (0 <= width s - x));
      [rewrite (bool_decide_eq_true_2 (0 <= width s - x)) by done
      |rewrite (bool_decide_eq_false_2 (0 <= width s - x)) by done].
    + by replace (Z.to_nat (width s - x)) with 0%nat by lia.
    + by replace (Z.to_nat (Z.of_nat 1 + (width s - x))) with 0%nat by lia.
Qed.



Lemma paint_loop_outcome (t : list ascii) (k : nat) x y colour attr bg tr
    (cm : list (list (option Z))) s :
  wf s -> (k <= length cm)%nat ->
  fst (paint_loop (Py.enumerate_from (Z.of_nat k) t) x y colour attr bg tr cm s)
  = if bool_decide (k + length t <= length cm)%nat then Ok tt
    else Raise IndexError.
Proof.
  revert k colour attr bg s.
  induction t as [|c t IH]; intros k colour attr bg s Hs Hk; simpl.
  - by rewrite bool_decide_eq_true_2 by lia.
  - rewrite getitem_nonneg, Nat2Z.id by lia.
    destruct (cm !! k) as [entry|] eqn:Hentry; simpl.
    + apply lookup_lt_Some in Hentry. rewrite bind_ret_l.
      destruct (print_at_char_returns c (x + Z.of_nat k) y
                  (override entry 0 colour) (override entry 1 attr)
                  (override entry 2 bg) tr s Hs) as [s1 Hs1].
      pose proof (print_at_wf [c] (x + Z.of_nat k) y
                    (override entry 0 colour) (override entry 1 attr)
                    (override entry 2 bg) tr s Hs) as Hwf1.
      unfold bind. rewrite Hs1 in *. simpl in Hwf1.
      replace (Z.of_nat k + 1) with (Z.of_nat (S k)) by lia.
      rewrite IH by (done || lia).
      destruct (decide (S k + length t <= length cm)%nat).
      * by rewrite !bool_decide_eq_true_2 by lia.
      * by rewrite !bool_decide_eq_false_2 by lia.
    + apply lookup_ge_None in Hentry. by rewrite bool_decide_eq_false_2 by lia.
Qed.

(** X6: on a reachable screen [paint] with a colour map returns, for every
    [x] and [y], exactly when the map has an entry for every character of
    the text; with a shorter map it raises IndexError (after the characters
    that have an entry have been printed). *)
Theorem paint_returns_iff_map_covers_text (s : Screen) (text : list ascii)
    (x y colour attr bg : Z) (transparent : bool)
    (colour_map : list (list (option Z))) :
  reachable s ->
  fst (paint text x y colour attr bg transparent (Some colour_map) s)
  = if bool_decide (length text <= length colour_map)%nat then Ok tt
    else Raise IndexError.
Proof.
  intros Hs%reachable_wf. unfold paint, Py.enumerate.
  by rewrite (paint_loop_outcome text 0) by (done || lia).
Qed.

Lemma paint_returns_iff_map_covers_text_witness :
  fst (paint (Py.str "AB") 0 0 7 0 0 false (Some [[Some 1]]) curses_screen)
    = Raise IndexError /\
  fst (paint (Py.str "AB") 0 0 7 0 0 false (Some [[Some 1]; []]) curses_screen)
    = Ok tt.
Proof.
  split.
  - apply (paint_returns_iff_map_covers_text curses_screen (Py.str "AB")
             0 0 7 0 0 false [[Some 1]] (reach_curses 2 10 256 5)).
  - apply (paint_returns_iff_map_covers_text curses_screen (Py.str "AB")
             0 0 7 0 0 false [[Some 1]; []] (reach_curses 2 10 256 5)).
Defined.


Lemma drop_lookup_cons {A} (l : list A) (k : nat) (a : A) :
  l !! k = Some a -> drop k l = a :: drop (S k) l.
Proof.
  revert k. induction l as [|b l IH]; intros [|k]; simpl; try done.
  - by intros [= ->].
  - apply IH.
Qed.

(** The loop of [paint] over text that fits on the line. *)
Lemma paint_loop_spec (t : list ascii) (k : nat) x y colour attr bg
    (cm : list (list (option Z))) s :
  wf s -> 0 <= y < _buffer_height s ->
  0 <= x + Z.of_nat k -> x + Z.of_nat k + Py.len t <= width s ->
  (k + length t <= length cm)%nat ->
  exists b',
    paint_loop (Py.enumerate_from (Z.of_nat k) t) x y colour attr bg false cm s
      = (Ok tt, set_double_buffer b' s) /\
    shaped (Z.to_nat (_buffer_height s)) (Z.to_nat (width s)) b' /\
    forall x' y', 0 <= x' -> 0 <= y' ->
      cell_at b' x' y' =
        match text_at t (x + Z.of_nat k) y x' y' with
        | Some c =>
            let seen := take (S (Z.to_nat (x' - (x + Z.of_nat k)))) (drop k cm) in
            Some (c, running 0 colour seen, running 1 attr seen,
                  running 2 bg seen)
        | None => cell_at (_double_buffer s) x' y'
        end.
Proof.
  revert k colour attr bg s.
  induction t as [|c t IH]; intros k colour attr bg s Hs Hy Hk Hw Hcm.
  - exists (_double_buffer s). simpl. rewrite set_double_buffer_same.
    split_and!; [done|apply Hs|]. intros x' y' _ _.
    unfold text_at. by case_bool_decide.
  - unfold Py.len in Hw. simpl in Hw, Hcm. simpl.
    rewrite getitem_nonneg, Nat2Z.id by lia.
    destruct (lookup_lt_is_Some_2 cm k) as [entry Hentry]; [lia|].
    rewrite Hentry. simpl. rewrite bind_ret_l.
    destruct (print_at_spec [c] (x + Z.of_nat k) y (override entry 0 colour)
                (override entry 1 attr) (override entry 2 bg) false s)
      as (b1 & Hrun1 & Hshape1 & Hcells1); [done|done|lia..|].
    unfold bind at 1. rewrite Hrun1.
    replace (Z.of_nat k + 1) with (Z.of_nat (S k)) by lia.
    destruct (IH (S k) (override entry 0 colour) (override entry 1 attr)
                (override entry 2 bg) (set_double_buffer b1 s))
      as (b' & Hrun & Hshape & Hcells);
      [by apply set_double_buffer_wf|done|simpl; lia
      |unfold Py.len; simpl; lia|lia|].
    exists b'. split_and!; [done..|].
    intros x' y' Hx' Hy'. rewrite Hcells by done. simpl.
    rewrite Hcells1 by done. rewrite text_at_single by done.
    rewrite (drop_lookup_cons cm k entry Hentry).
    unfold text_at, overlay.
    replace (x + Z.of_nat (S k)) with (x + Z.of_nat k + 1) by lia.
    destruct (decide (y' = y /\ x + Z.of_nat k <= x')) as [[-> Hle]|Hno].
    + rewrite (bool_decide_eq_true_2 (y = y /\ x + Z.of_nat k <= x')) by done.
      destruct (decide (x' = x + Z.of_nat k)) as [->|Hne].
      * rewrite (bool_decide_eq_false_2 (y = y /\ _ + 1 <= _)) by lia.
        rewrite (bool_decide_eq_true_2 (_ < width s)) by lia.
        rewrite (bool_decide_eq_true_2 (y = y /\ _ = _)) by done.
        replace (Z.to_nat (x + Z.of_nat k - (x + Z.of_nat k))) with 0%nat
          by lia.
        simpl. by rewrite orb_true_r.
      * rewrite (bool_decide_eq_true_2 (y = y /\ _ + 1 <= _)) by lia.
        rewrite (bool_decide_eq_false_2 (y = y /\ x' = _)) by lia.
        replace (Z.to_nat (x' - (x + Z.of_nat k)))
          with (S (Z.to_nat (x' - (x + Z.of_nat k + 1)))) by lia.
        simpl.
        destruct (t !! Z.to_nat (x' - (x + Z.of_nat k + 1))); [done|].
        by destruct (bool_decide (x' < width s)).
    + rewrite (bool_decide_eq_false_2 (y' = y /\ x + Z.of_nat k <= x')) by done.
      rewrite (bool_decide_eq_false_2 (y' = y /\ _ + 1 <= _)) by lia.
      rewrite (bool_decide_eq_false_2 (y' = y /\ x' = _)) by lia.
      by destruct (bool_decide (x' < width s)).
Qed.

(** X7: the overrides of a colour map are sticky.  When the text fits on a
    line of the buffer of a reachable screen and the map has an entry for
    each character, [paint] returns, and character [i] is written at column
    [x + i] with, for each of colour, attribute and background, the value
    given by the latest of the entries 0 to [i] that has one, or the
    argument of the call if none has; no other cell changes. *)
Theorem paint_overrides_are_sticky (s : Screen) (text : list ascii)
    (x y colour attr bg : Z) (colour_map : list (list (option Z))) :
  reachable s -> 0 <= y < _buffer_height s ->
  0 <= x -> x + Py.len text <= width s ->
  (length text <= length colour_map)%nat ->
  exists b',
    paint text x y colour attr bg false (Some colour_map) s
      = (Ok tt, set_double_buffer b' s) /\
    forall x' y', 0 <= x' -> 0 <= y' ->
      cell_at b' x' y' =
        match text_at text x y x' y' with
        | Some c =>
            let seen := take (S (Z.to_nat (x' - x))) colour_map in
            Some (c, running 0 colour seen, running 1 attr seen,
                  running 2 bg seen)
        | None => cell_at (_double_buffer s) x' y'
        end.
Proof.
  intros Hs%reachable_wf Hy Hx Hw Hcm.
  destruct (paint_loop_spec text 0 x y colour attr bg colour_map s)
    as (b' & Hrun & _ & Hcells); [done|done|lia|lia|lia|].
  exists b'. split; [done|]. intros x' y' Hx' Hy'.
  rewrite Hcells by done. simpl. by rewrite Z.add_0_r.
Qed.

Lemma paint_overrides_are_sticky_witness :
  exists b',
    paint (Py.str "AB") 0 0 7 0 0 false (Some [[Some 1; None; None]; []])
      curses_screen = (Ok tt, set_double_buffer b' curses_screen) /\
    cell_at b' 0 0 = Some ("A"%char, 1, 0, 0) /\
    cell_at b' 1 0 = Some ("B"%char, 1, 0, 0).
Proof.
  destruct (paint_overrides_are_sticky curses_screen (Py.str "AB") 0 0 7 0 0
              [[Some 1; None; None]; []] (reach_curses 2 10 256 5))
    as (b' & Hrun & Hcells); [by vm_compute..|simpl; lia|].
  exists b'. split; [done|]. split; rewrite Hcells by done; reflexivity.
Defined.


(** ** More on [refresh] *)

Lemma for_each_unchanged {A} (l : list A) (body : A -> SM unit) s :
  (forall a, a ∈ l -> body a s = (Ok tt, s)) -> for_each l body s = (Ok tt, s).
Proof.
  induction l as [|a l IH]; intros Hbody; simpl; [done|].
  unfold bind. rewrite Hbody by left. apply IH.
  intros a' Ha'. apply Hbody. by right.
Qed.

Lemma set_last_start_line_same s :
  set_last_start_line (_last_start_line s) s = s.
Proof. by destruct s. Qed.

(** A refresh of a screen with nothing to scroll and nothing to copy. *)
Lemma refresh_clean s :
  wf s -> baseline_current s ->
  (forall x y, in_viewport s x y ->
     exists c, cell_at (_screen_buffer s) x y = Some c /\
               cell_at (_double_buffer s) x y = Some c) ->
  refresh s = (Ok tt, s).
Proof.
  intros (Ha & _) Hb Hcells. unfold baseline_current in Hb.
  unfold refresh. rewrite bind_get_l.
  replace (_start_line s - _last_start_line s) with 0 by lia.
  simpl. rewrite bind_ret_l, bind_modify_l.
  rewrite <- Hb, set_last_start_line_same.
  apply for_each_unchanged. intros y Hy%elem_of_range.
  apply for_each_unchanged. intros x Hx%elem_of_range.
  unfold refresh_cell. rewrite bind_get_l.
  destruct (Hcells x (y + _start_line s)) as (c & Hc & Hp);
    [unfold in_viewport; lia|].
  rewrite Hp, Hc. simpl. rewrite !bind_ret_l.
  by rewrite bool_decide_eq_false_2 by auto.
Qed.

(** X8: a refresh right after a refresh that has completed finds nothing to
    do: it returns and leaves the screen exactly as it was, the device log
    included, so that nothing at all is sent to the device. *)
Theorem refresh_twice (s s' : Screen) :
  reachable s -> refresh s = (Ok tt, s') -> refresh s' = (Ok tt, s').
Proof.
  intros Hs%reachable_wf Hrun.
  pose proof (refresh_wf s Hs) as Hs'.
  pose proof (baseline_current_refresh s) as Hb.
  rewrite Hrun in Hs', Hb. simpl in Hs', Hb.
  pose proof Hs as (Ha & _).
  apply refresh_ok in Hrun as ((Hh & Hw & Ha' & _ & Hp & _) & Hsome & Hcells);
    [|done].
  apply refresh_clean; [done..|].
  intros x y [Hy Hx]. rewrite Hh, Hw, Ha' in *.
  destruct (Hsome x y) as [c Hc]; [done|].
  exists c. rewrite Hp, Hcells by lia.
  by rewrite bool_decide_eq_true_2 by lia.
Qed.

Lemma refresh_twice_witness :
  refresh (snd (refresh (snd (print_at (Py.str "A") 3 1 7 0 0 false
                                curses_screen))))
  = (Ok tt, snd (refresh (snd (print_at (Py.str "A") 3 1 7 0 0 false
                                 curses_screen)))).
Proof.
  apply (refresh_twice (snd (print_at (Py.str "A") 3 1 7 0 0 false curses_screen))).
  - apply (reach_call curses_screen 0
             (call_drawing (call_print_at (Py.str "A") 3 1 7 0 0 false))).
    apply reach_curses.
  - by vm_compute.
Defined.

(** X9: [scroll] is not checked against the height of the buffer.  On a
    reachable screen with a window that is not empty and pending cells that
    the backend can send, [refresh] returns exactly when the window lies
    inside the buffer, [start_line + height <= buffer_height]; a window that
    reaches beyond the buffer makes it raise. *)
Theorem refresh_returns_iff_viewport_in_buffer (s : Screen) :
  reachable s -> 0 < width s -> 0 < height s -> pending_renderable s ->
  (viewport_in_buffer s <-> exists s', refresh s = (Ok tt, s')).
Proof.
  intros Hs%reachable_wf Hw Hh Hr. split.
  - intros Hv. by apply refresh_returns.
  - intros [s' Hrun]. pose proof Hs as (Ha & _ & Hp).
    apply refresh_ok in Hrun as (_ & Hsome & _); [|done].
    destruct (Hsome 0 (_start_line s + height s - 1)) as [c Hc];
      [unfold in_viewport; lia|].
    apply (cell_at_Some_inv _ _ _ _ _ _ Hp) in Hc; [|lia..].
    unfold viewport_in_buffer. lia.
Qed.

Lemma refresh_returns_iff_viewport_in_buffer_witness :
  (viewport_in_buffer curses_screen <->
   exists s', refresh curses_screen = (Ok tt, s')) /\
  ~ viewport_in_buffer (scroll_times 4 curses_screen) /\
  fst (refresh (scroll_times 4 curses_screen)) = Raise IndexError.
Proof.
  split_and!.
  - apply (refresh_returns_iff_viewport_in_buffer curses_screen
             (reach_curses 2 10 256 5)); [by vm_compute..|].
    apply new_screen_pending_renderable.
  - by vm_compute.
  - by vm_compute.
Defined.


(** ** The backend primitives *)

Lemma sent_only_refl P s : sent_only P s s.
Proof. by exists []. Qed.

Lemma sent_only_emit (P : DeviceOp -> Prop) s0 s op :
  P op -> sent_only P s0 s -> sent_only P s0 (emit op s).
Proof.
  intros Hop (ops & Hdev & Hops). exists (op :: ops). simpl.
  split; [by rewrite Hdev|by constructor].
Qed.

Lemma curses_attribute_colour_op attr op :
  Curses._ATTRIBUTES !! attr = Some op -> colour_op op.
Proof.
  intros H%elem_of_list_to_map_2.
  repeat (apply elem_of_cons in H as [[= -> ->]|H]; [done|]).
  by apply elem_of_nil in H.
Qed.

Lemma blessed_attribute_colour_ops attr ops :
  Blessed.ATTRIBUTES !! attr = Some ops -> Forall colour_op ops.
Proof.
  intros H%elem_of_list_to_map_2.
  repeat (apply elem_of_cons in H as [[= -> ->]|H];
          [by repeat constructor|]).
  by apply elem_of_nil in H.
Qed.

(** Closes the goals [frame] leaves for an operation sent to the device. *)
Ltac sends :=
  try (intros ? ?; apply sent_only_emit; [exact I|assumption]).

Lemma _change_colours_sends s0 colour attr bg :
  preserves (sent_only colour_op s0) (_change_colours colour attr bg).
Proof.
  unfold _change_colours, Windows._change_colours, Curses._change_colours,
    Blessed._change_colours.
  frame; untouched; sends.
  - intros ? ?. apply sent_only_emit; [|done]. by eapply curses_attribute_colour_op.
  - intros ? ?. apply sent_only_emit; [|done].
    match goal with H : Blessed.ATTRIBUTES !! _ = Some _ |- _ =>
      apply blessed_attribute_colour_ops in H; rename H into Hops end.
    by eapply Forall_forall in Hops.
Qed.

Lemma _change_colours_pen s0 colour attr bg :
  preserves (fun s => _x s = _x s0 /\ _y s = _y s0)
    (_change_colours colour attr bg).
Proof.
  unfold _change_colours, Windows._change_colours, Curses._change_colours,
    Blessed._change_colours.
  frame; untouched.
Qed.

Lemma bind_bind_l {S A B C} (m : M S A) (k : A -> M S B) (k' : B -> M S C) s :
  bind (bind m k) k' s = bind m (fun a => bind (k a) k') s.
Proof. unfold bind. by destruct (m s) as [[a| |] s1]. Qed.

(** Runs the assignments and the reads at the head of a computation. *)
Ltac run :=
  repeat first
    [ rewrite bind_bind_l | rewrite bind_get_l | rewrite bind_ret_l
    | rewrite bind_modify_l | progress unfold write | progress simpl ].

Lemma option_eq_of_bool_decide {A} `{EqDecision A} (a : A) (o : option A) :
  bool_decide (Some a <> o) = false -> o = Some a.
Proof. intros H%bool_decide_eq_false_1. by destruct (decide (Some a = o)). Qed.

(** The record of the colours after [_change_colours] has returned. *)
Lemma _change_colours_records colour attr bg s s' :
  _change_colours colour attr bg s = (Ok tt, s') ->
  _colour s' = Some colour /\ _attr s' = Some attr /\ _bg s' = Some bg.
Proof.
  unfold _change_colours. rewrite bind_get_l.
  destruct (backend s).
  - unfold Windows._change_colours. run.
    destruct (_ || _) eqn:Hchange; run.
    + destruct (Windows._ATTRIBUTES !! attr); run; [|done].
      destruct (Windows._COLOURS !! colour); run; [|done].
      destruct (Windows._BG_COLOURS !! bg); run; [|done].
      by intros [= <-].
    + intros [= <-].
      apply orb_false_elim in Hchange as [[H1 H2]%orb_false_elim H3].
      apply option_eq_of_bool_decide in H1, H2.
      apply bool_decide_eq_false_1 in H3.
      split_and!; [done..|]. by destruct (decide (_bg s = Some bg)).
  - unfold Curses._change_colours. run.
    destruct (bool_decide (Some attr <> _attr s)) eqn:Hattr; run.
    + destruct (bool_decide (attr <> 0)); run.
      * destruct (Curses._ATTRIBUTES !! attr); run; [|done].
        by intros [= <-].
      * by intros [= <-].
    + apply option_eq_of_bool_decide in Hattr.
      destruct (bool_decide (Some colour <> _colour s)) eqn:Hcol; run;
        destruct (bool_decide (Some bg <> _bg s)) eqn:Hbg; run;
        intros [= <-]; simpl; split_and!; try done;
        by apply option_eq_of_bool_decide.
  - unfold Blessed._change_colours. run.
    destruct (bool_decide (Some attr <> _attr s)) eqn:Hattr; run.
    + destruct (bool_decide (attr <> 0)); run.
      * destruct (Blessed.ATTRIBUTES !! attr) as [ops|] eqn:Hops; run; [|done].
        apply elem_of_list_to_map_2 in Hops.
        repeat (apply elem_of_cons in Hops as [[= -> ->]|Hops];
                [run; destruct (bool_decide (Some bg <> _bg s)) eqn:Hbg; run;
                 intros [= <-]; simpl; split_and!; try done;
                 by apply option_eq_of_bool_decide|]).
        by apply elem_of_nil in Hops.
      * destruct (bool_decide (Some bg <> _bg s)) eqn:Hbg; run;
          intros [= <-]; simpl; split_and!; try done;
          by apply option_eq_of_bool_decide.
    + apply option_eq_of_bool_decide in Hattr.
      destruct (bool_decide (Some colour <> _colour s)) eqn:Hcol; run;
        destruct (bool_decide (Some bg <> _bg s)) eqn:Hbg; run;
        intros [= <-]; simpl; split_and!; try done;
        by apply option_eq_of_bool_decide.
Qed.


(** X10: [_change_colours] programs the device only when it has to.  When
    it returns, on any backend, it has recorded the three values it was
    given, it has sent the device operations on colours and attribute only,
    it has left the buffers, the start line and the pen alone, and the same
    call made again returns without sending or changing anything. *)
Theorem change_colours_is_cached (colour attr bg : Z) (s s' : Screen) :
  _change_colours colour attr bg s = (Ok tt, s') ->
  (_colour s' = Some colour /\ _attr s' = Some attr /\ _bg s' = Some bg) /\
  sent_only colour_op s s' /\ same_buffers s s' /\
  (_x s' = _x s /\ _y s' = _y s) /\
  _change_colours colour attr bg s' = (Ok tt, s').
Proof.
  intros Hrun.
  pose proof (_change_colours_records _ _ _ _ _ Hrun) as (Hc & Ha & Hb).
  pose proof (_change_colours_sends s colour attr bg s (sent_only_refl _ s))
    as Hsent.
  pose proof (_change_colours_same s colour attr bg s (same_buffers_refl s))
    as Hsame.
  pose proof (_change_colours_pen s colour attr bg s (conj eq_refl eq_refl))
    as Hpen.
  rewrite Hrun in Hsent, Hsame, Hpen. simpl in Hsent, Hsame, Hpen.
  destruct Hpen as [Hx Hy].
  split_and!; try done.
  unfold _change_colours. rewrite bind_get_l.
  destruct (backend s').
  - unfold Windows._change_colours. run. rewrite Hc, Ha, Hb.
    by rewrite !bool_decide_eq_false_2 by auto.
  - unfold Curses._change_colours. run. rewrite Ha.
    rewrite (bool_decide_eq_false_2 (Some attr <> Some attr)) by auto. run.
    rewrite Hc.
    rewrite (bool_decide_eq_false_2 (Some colour <> Some colour)) by auto. run.
    rewrite Hb. by rewrite bool_decide_eq_false_2 by auto.
  - unfold Blessed._change_colours. run. rewrite Ha.
    rewrite (bool_decide_eq_false_2 (Some attr <> Some attr)) by auto. run.
    rewrite Hc.
    rewrite (bool_decide_eq_false_2 (Some colour <> Some colour)) by auto. run.
    rewrite Hb. by rewrite bool_decide_eq_false_2 by auto.
Qed.

Lemma change_colours_is_cached_witness :
  _change_colours 2 1 4 (snd (_change_colours 2 1 4 windows_screen))
  = (Ok tt, snd (_change_colours 2 1 4 windows_screen)).
Proof.
  refine (proj2 (proj2 (proj2 (proj2
            (change_colours_is_cached 2 1 4 windows_screen _ _))))).
  by vm_compute.
Defined.

(** ** [clear] *)

Lemma clear_calls_sent_only s0 s :
  sent_only colour_op s0 s -> clear_calls s = clear_calls s0.
Proof.
  intros (ops & Hdev & Hops). unfold clear_calls. rewrite Hdev.
  rewrite filter_app, length_app.
  assert (filter (fun op => op = dev_clear) ops = []) as Hnone.
  { clear Hdev. induction Hops as [|op ops Hop _ IH]; [done|].
    rewrite filter_cons, IH.
    destruct (decide (op = dev_clear)) as [->|]; [|done]. exfalso. exact Hop. }
  by rewrite Hnone.
Qed.

Lemma clear_runs s :
  exists s1,
    _change_colours COLOUR_WHITE 0 0 s = (Ok tt, s1) /\
    clear s = (Ok tt, snd (_reset (emit dev_clear s1))).
Proof.
  destruct (_change_colours_returns COLOUR_WHITE 0 0 s) as [s1 Hs1];
    [by destruct (backend s)|].
  exists s1. split; [done|].
  unfold clear, bind at 1. rewrite Hs1.
  assert (_clear s1 = (Ok tt, emit dev_clear s1)) as Hclear.
  { unfold _clear. rewrite bind_get_l. by destruct (backend s1). }
  unfold bind at 1. by rewrite Hclear.
Qed.

(** X11: [clear] returns on every screen, of any backend.  It programs the
    device for white on black, clears it exactly once, and resets the
    screen: both buffers are blank (a white space on black in every cell),
    the start line and the start line seen by the latest refresh are 0, and
    neither the pen nor the device cursor has a position. *)
Theorem clear_resets (s : Screen) :
  exists s',
    clear s = (Ok tt, s') /\
    _screen_buffer s' = blank_buffer (_buffer_height s) (width s) /\
    _double_buffer s' = blank_buffer (_buffer_height s) (width s) /\
    _start_line s' = 0 /\ _last_start_line s' = 0 /\
    _x s' = None /\ _y s' = None /\
    (_colour s' = Some 7 /\ _attr s' = Some 0 /\ _bg s' = Some 0) /\
    clear_calls s' = S (clear_calls s) /\
    (height s' = height s /\ width s' = width s /\
     _buffer_height s' = _buffer_height s /\ backend s' = backend s).
Proof.
  destruct (clear_runs s) as (s1 & Hs1 & Hrun).
  exists (snd (_reset (emit dev_clear s1))). split; [done|].
  pose proof (_change_colours_records _ _ _ _ _ Hs1) as (Hc & Ha & Hg).
  pose proof (_change_colours_sends s COLOUR_WHITE 0 0 s (sent_only_refl _ s))
    as Hsent.
  pose proof (_change_colours_same s COLOUR_WHITE 0 0 s (same_buffers_refl s))
    as [(Hh & Hw & _ & Hbh & _ & Hb) _].
  rewrite Hs1 in *. simpl in Hsent, Hh, Hw, Hbh, Hb.
  apply clear_calls_sent_only in Hsent.
  assert (clear_calls (snd (_reset (emit dev_clear s1))) = S (clear_calls s))
    as Hcount.
  { rewrite <- Hsent. reflexivity. }
  simpl. rewrite Hbh, Hw. by split_and!.
Qed.


(** ** More on [draw] *)

(** X12: a new screen and a cleared screen have no pen position, and [draw]
    raises TypeError on them, whatever its arguments: [move] has to be
    called first. *)
Theorem draw_without_move_raises (fuel : nat) (x y : Z)
    (char : option (list ascii)) (colour bg : Z) (thin : bool) :
  (forall height width buffer_height b,
     fst (draw fuel x y char colour bg thin
            (_BufferedScreen__init__ height width buffer_height b))
       = Raise TypeError) /\
  (forall s, fst (draw fuel x y char colour bg thin (snd (clear s)))
               = Raise TypeError).
Proof.
  split; [reflexivity|]. intros s.
  destruct (clear_runs s) as (s1 & _ & ->). reflexivity.
Qed.

Lemma finishes_bind {A B} (m : SM A) (k : A -> SM B) :
  finishes m -> (forall a, finishes (k a)) -> finishes (bind m k).
Proof.
  intros Hm Hk s. unfold bind. specialize (Hm s).
  destruct (m s) as [[a| |] s1]; simpl in *; [apply Hk|done..].
Qed.

Lemma finishes_for_each {A} (l : list A) (body : A -> SM unit) :
  (forall a, finishes (body a)) -> finishes (for_each l body).
Proof.
  intros Hb. induction l as [|a l IH]; simpl; [done|].
  by apply finishes_bind.
Qed.

Lemma print_at_finishes text x y colour attr bg transparent :
  finishes (print_at text x y colour attr bg transparent).
Proof.
  unfold print_at. apply finishes_bind; [done|]. intros s.
  destruct (_ || _); [done|].
  destruct (if bool_decide (x < 0) then _ else _) as [text0 x0].
  unfold when. case_bool_decide; [|done].
  apply finishes_for_each. intros [i c].
  destruct (_ || _); [|done].
  unfold store_pending. apply finishes_bind; [done|]. intros s1.
  by destruct (store_cell _ _ _ _).
Qed.

Lemma plot_finishes char colour bg n0 n1 cx cy cx' cy' :
  finishes (plot char colour bg n0 n1 cx cy cx' cy').
Proof.
  unfold plot. destruct char as [c|].
  - case_bool_decide; [apply finishes_bind|]; auto using print_at_finishes.
  - destruct (Py.getitem _line_chars n0); simpl; [|done]. rewrite bind_ret_l.
    apply finishes_bind; [apply print_at_finishes|]. intros _.
    unfold when. case_bool_decide; [|done].
    destruct (Py.getitem _line_chars n1); simpl; [|done]. rewrite bind_ret_l.
    apply print_at_finishes.
Qed.

(** A pass of either loop moves two half cells along its axis. *)
Lemma x_major_step_x thin dx dy sx sy py pen ix :
  (x_major_step thin dx dy sx sy py pen ix).1.1.1.1 = pen.1.1.1.1 + sx.
Proof.
  destruct pen as [[[[x0 y0] err0] n0] n1]. unfold x_major_step.
  repeat (destruct (_ && _) || destruct thin || destruct (bool_decide _));
    reflexivity.
Qed.

Lemma y_major_step_y thin dx dy sx sy px pen iy :
  (y_major_step thin dx dy sx sy px pen iy).1.1.1.2 = pen.1.1.1.2 + sy.
Proof.
  destruct pen as [[[[x0 y0] err0] n0] n1]. unfold y_major_step.
  repeat (destruct (_ && _) || destruct thin || destruct (bool_decide _));
    reflexivity.
Qed.

Lemma x_major_pass_x thin dx dy sx sy py x y err :
  exists y' err' n0 n1,
    foldl (x_major_step thin dx dy sx sy py) (x, y, err, 0, 0) (sub_range sx)
    = (x + 2 * sx, y', err', n0, n1).
Proof.
  assert (exists a b, sub_range sx = [a; b]) as (a & b & ->).
  { unfold sub_range. destruct (bool_decide _); by repeat eexists. }
  change (foldl ?f ?p [a; b]) with (f (f p a) b).
  pose proof (x_major_step_x thin dx dy sx sy py (x, y, err, 0, 0) a) as H1.
  pose proof (x_major_step_x thin dx dy sx sy py
    (x_major_step thin dx dy sx sy py (x, y, err, 0, 0) a) b) as H2.
  rewrite H1 in H2. clear H1.
  destruct (x_major_step _ _ _ _ _ _ (x_major_step _ _ _ _ _ _ _ a) b)
    as [[[[x2 y2] e2] a2] b2].
  simpl in H2. exists y2, e2, a2, b2. do 4 f_equal. lia.
Qed.

Lemma y_major_pass_y thin dx dy sx sy px x y err :
  exists x' err' n0 n1,
    foldl (y_major_step thin dx dy sx sy px) (x, y, err, 0, 0) (sub_range sy)
    = (x', y + 2 * sy, err', n0, n1).
Proof.
  assert (exists a b, sub_range sy = [a; b]) as (a & b & ->).
  { unfold sub_range. destruct (bool_decide _); by repeat eexists. }
  change (foldl ?f ?p [a; b]) with (f (f p a) b).
  pose proof (y_major_step_y thin dx dy sx sy px (x, y, err, 0, 0) a) as H1.
  pose proof (y_major_step_y thin dx dy sx sy px
    (y_major_step thin dx dy sx sy px (x, y, err, 0, 0) a) b) as H2.
  rewrite H1 in H2. clear H1.
  destruct (y_major_step _ _ _ _ _ _ (y_major_step _ _ _ _ _ _ _ a) b)
    as [[[[x2 y2] e2] a2] b2].
  simpl in H2. exists x2, e2, a2, b2. do 4 f_equal. lia.
Qed.

(** The loop of a line closer to horizontal gets to the end point in as many
    passes as there are cells between the pen and the end point. *)
Lemma draw_x_major_finishes (n : nat) fuel char colour bg thin dx dy sx sy x1 x y err :
  x1 - x = 2 * Z.of_nat n * sx -> sx = 1 \/ sx = -1 -> (n <= fuel)%nat ->
  finishes (draw_x_major fuel char colour bg thin dx dy sx sy x1 x y err).
Proof.
  revert fuel x y err. induction n as [|n IH]; intros fuel x y err Hx Hsx Hn.
  - replace x with x1 by lia. by rewrite draw_x_major_done.
  - destruct fuel as [|fuel]; [lia|]. simpl.
    rewrite bool_decide_eq_true_2 by lia.
    destruct (x_major_pass_x thin dx dy sx sy (Z.land y (Z.lnot 1)) x y err)
      as (y' & err' & n0 & n1 & ->).
    apply finishes_bind; [apply plot_finishes|]. intros _.
    apply IH; lia.
Qed.

Lemma draw_y_major_done fuel char colour bg thin dx dy sx sy y1 x err :
  draw_y_major fuel char colour bg thin dx dy sx sy y1 x y1 err = ret tt.
Proof.
  destruct fuel; simpl; by rewrite bool_decide_eq_false_2 by (intros ?; done).
Qed.

Lemma draw_y_major_finishes (n : nat) fuel char colour bg thin dx dy sx sy y1 x y err :
  y1 - y = 2 * Z.of_nat n * sy -> sy = 1 \/ sy = -1 -> (n <= fuel)%nat ->
  finishes (draw_y_major fuel char colour bg thin dx dy sx sy y1 x y err).
Proof.
  revert fuel x y err. induction n as [|n IH]; intros fuel x y err Hy Hsy Hn.
  - replace y with y1 by lia. by rewrite draw_y_major_done.
  - destruct fuel as [|fuel]; [lia|]. simpl.
    rewrite bool_decide_eq_true_2 by lia.
    destruct (y_major_pass_y thin dx dy sx sy (Z.land x (Z.lnot 1)) x y err)
      as (x' & err' & n0 & n1 & ->).
    apply finishes_bind; [apply plot_finishes|]. intros _.
    apply IH; lia.
Qed.

(** X13: [draw] terminates from every pen position that [move] or [draw]
    has left, that is, at whole cells: with the pen at the cell [(a, b)],
    [draw(x, y)] takes at most [max(|x - a|, |y - b|)] passes of its loop,
    for every character, colour and thickness (it then returns, or raises
    what [print_at] raises). *)
Theorem draw_terminates (fuel : nat) (a b x y : Z)
    (char : option (list ascii)) (colour bg : Z) (thin : bool) (s : Screen) :
  _x s = Some (a * 2) -> _y s = Some (b * 2) ->
  Z.max (Z.abs (x - a)) (Z.abs (y - b)) <= Z.of_nat fuel ->
  fst (draw fuel x y char colour bg thin s) <> OutOfFuel.
Proof.
  intros Hx Hy Hfuel. unfold draw. run. rewrite Hx, Hy. run.
  case_bool_decide.
  - apply (draw_x_major_finishes (Z.to_nat (Z.abs (x - a)))); [|by case_bool_decide; auto|lia].
    case_bool_decide; lia.
  - apply (draw_y_major_finishes (Z.to_nat (Z.abs (y - b)))); [|by case_bool_decide; auto|lia].
    case_bool_decide; lia.
Qed.

Lemma draw_terminates_witness :
  fst (draw 4 4 2 None 7 0 false (snd (move 0 0 curses_screen))) <> OutOfFuel.
Proof.
  apply (draw_terminates 4 0 0 4 2 None 7 0 false (snd (move 0 0 curses_screen)));
    by vm_compute.
Defined.

(** A loop that starts an odd number of half cells from the end point steps
    over it: it raises or goes on for ever. *)
Lemma draw_x_major_misses fuel char colour bg thin dx dy sx sy x1 x y err s :
  Z.odd (x1 - x) = true -> sx = 1 \/ sx = -1 ->
  fst (draw_x_major fuel char colour bg thin dx dy sx sy x1 x y err s) <> Ok tt.
Proof.
  revert x y err s. induction fuel as [|fuel IH]; intros x y err s Hodd Hsx;
    assert (x <> x1) by (intros ->; by rewrite Z.sub_diag in Hodd);
    simpl; rewrite bool_decide_eq_true_2 by done; [done|].
  destruct (x_major_pass_x thin dx dy sx sy (Z.land y (Z.lnot 1)) x y err)
    as (y' & err' & n0 & n1 & ->).
  unfold bind at 1. destruct (plot _ _ _ _ _ _ _ _ _ s) as [[[]| |] s1]; [|done..].
  apply IH; [|done].
  replace (x1 - (x + 2 * sx)) with (x1 - x + 2 * (- sx)) by lia.
  by rewrite Z.odd_add_mul_2.
Qed.

Lemma draw_y_major_misses fuel char colour bg thin dx dy sx sy y1 x y err s :
  Z.odd (y1 - y) = true -> sy = 1 \/ sy = -1 ->
  fst (draw_y_major fuel char colour bg thin dx dy sx sy y1 x y err s) <> Ok tt.
Proof.
  revert x y err s. induction fuel as [|fuel IH]; intros x y err s Hodd Hsy;
    assert (y <> y1) by (intros ->; by rewrite Z.sub_diag in Hodd);
    simpl; rewrite bool_decide_eq_true_2 by done; [done|].
  destruct (y_major_pass_y thin dx dy sx sy (Z.land x (Z.lnot 1)) x y err)
    as (x' & err' & n0 & n1 & ->).
  unfold bind at 1. destruct (plot _ _ _ _ _ _ _ _ _ s) as [[[]| |] s1]; [|done..].
  apply IH; [|done].
  replace (y1 - (y + 2 * sy)) with (y1 - y + 2 * (- sy)) by lia.
  by rewrite Z.odd_add_mul_2.
Qed.

(** X14: [draw] compares half-cell coordinates that it changes by two at a
    time, so from a pen at an odd coordinate along the longer axis of the
    line it never returns, whatever the number of passes allowed: it raises
    or loops for ever.  [refresh] leaves such a pen on the Windows and
    blessed screens, where [_print_at] keeps the cursor of the device in the
    same attributes. *)
Theorem draw_from_odd_pen_never_returns (fuel : nat) (x y x0 y0 : Z)
    (char : option (list ascii)) (colour bg : Z) (thin : bool) (s : Screen) :
  _x s = Some x0 -> _y s = Some y0 ->
  Z.odd (if bool_decide (Z.abs (x * 2 - x0) > Z.abs (y * 2 - y0))
         then x0 else y0) = true ->
  fst (draw fuel x y char colour bg thin s) <> Ok tt.
Proof.
  intros Hx Hy Hodd. unfold draw. run. rewrite Hx, Hy. run.
  case_bool_decide.
  - apply draw_x_major_misses; [|by case_bool_decide; auto].
    replace (x * 2 - x0) with (- x0 + 2 * x) by lia.
    by rewrite Z.odd_add_mul_2, Z.odd_opp.
  - apply draw_y_major_misses; [|by case_bool_decide; auto].
    replace (y * 2 - y0) with (- y0 + 2 * y) by lia.
    by rewrite Z.odd_add_mul_2, Z.odd_opp.
Qed.

Lemma draw_from_odd_pen_never_returns_witness :
  let s := snd (refresh (snd (print_at (Py.str "A") 0 0 7 0 0 false
                                (snd (move 0 0 windows_screen))))) in
  reachable s /\ _x s = Some 1 /\
  fst (draw 100 5 0 None 7 0 false s) <> Ok tt.
Proof.
  intros s. split; [|split; [by vm_compute|]].
  - subst s. apply (reach_call _ 0%nat call_refresh).
    apply (reach_call _ 0%nat
             (call_drawing (call_print_at (Py.str "A") 0 0 7 0 0 false))).
    apply (reach_call _ 0%nat (call_drawing (call_move 0 0))).
    apply reach_windows.
  - apply (draw_from_odd_pen_never_returns 100 5 0 1 0 None 7 0 false s);
      by vm_compute.
Defined.


(** ** What [refresh] leaves alone *)

Lemma kept_by_refresh_refl s : kept_by_refresh s s.
Proof. split_and!; [apply same_pending_refl|done|done]. Qed.

Lemma _change_colours_kept s0 colour attr bg :
  preserves (kept_by_refresh s0) (_change_colours colour attr bg).
Proof.
  unfold _change_colours, Windows._change_colours, Curses._change_colours,
    Blessed._change_colours.
  frame; untouched.
Qed.

Lemma _print_at_kept s0 text x y :
  preserves (kept_by_refresh s0) (_print_at text x y).
Proof.
  unfold _print_at. apply preserves_get_bind. intros s1 Hs1.
  destruct (backend s1) eqn:Hb;
    unfold Windows._print_at, Curses._print_at, Blessed._print_at;
    frame; untouched;
    intros s3 (Hsame & Hcol & Hpen); (split_and!; [done..|]);
    intros r Hr; destruct Hs1 as ((_ & _ & _ & _ & _ & Hb1) & _);
    congruence.
Qed.

Lemma _scroll_kept s0 : preserves (kept_by_refresh s0) _scroll.
Proof.
  unfold _scroll, Windows._scroll, Curses._scroll, Blessed._scroll.
  frame; untouched.
Qed.

(** X15: whatever becomes of it (it may raise part of the way), [refresh]
    never changes the pending buffer, the sizes, the start line or the class
    of the screen, so no drawing is lost; on a curses screen it leaves the
    pen of [move] and [draw] where it was too. *)
Theorem refresh_keeps_pending (s : Screen) :
  kept_by_refresh s (snd (refresh s)).
Proof.
  assert (preserves (kept_by_refresh s) refresh) as Hkeep.
  { unfold refresh, refresh_cell, store_committed.
    frame; untouched;
      auto using _scroll_kept, _change_colours_kept, _print_at_kept.
    all: try (destruct a1 as [[[c colour] attr] bg]; frame; untouched;
              auto using _change_colours_kept, _print_at_kept). }
  apply Hkeep, kept_by_refresh_refl.
Qed.


(** ** [is_visible] and [centre] *)

(** X16: [is_visible] accepts one column too many.  On every line of the
    window of a reachable screen it answers yes for the column [width],
    where nothing can be drawn and nothing read: [print_at] there returns
    without any change to the screen, and [get_from] raises IndexError. *)
Theorem is_visible_past_right_edge (s : Screen) (y : Z) :
  reachable s -> 0 <= width s ->
  _start_line s <= y < _start_line s + height s ->
  is_visible s (width s) y = true /\
  (forall text colour attr bg transparent,
     print_at text (width s) y colour attr bg transparent s = (Ok tt, s)) /\
  fst (get_from (width s) y s) = Raise IndexError.
Proof.
  intros (Hstart & Hcommitted & _)%reachable_wf Hw Hy. split_and!.
  - unfold is_visible.
    by rewrite !bool_decide_eq_true_2 by lia.
  - intros text colour attr bg transparent. unfold print_at, bind at 1, get.
    destruct (_ || _); [done|].
    rewrite (bool_decide_eq_false_2 (width s < 0)) by lia.
    rewrite (bool_decide_eq_true_2 (_ >= width s)) by (unfold Py.len; lia).
    rewrite Z.sub_diag. unfold Py.slice_to, Py.slice_bound. simpl.
    reflexivity.
  - unfold get_from, bind at 1, get. rewrite cell_at_nonneg by lia.
    destruct (_screen_buffer s !! Z.to_nat y) as [row|] eqn:Hrow; simpl;
      [|done].
    rewrite (lookup_ge_None_2 row); [done|].
    rewrite (shaped_lookup _ _ _ _ _ Hcommitted Hrow). lia.
Qed.

Lemma is_visible_past_right_edge_witness :
  is_visible curses_screen 10 1 = true /\
  print_at (Py.str "A") 10 1 7 0 0 false curses_screen = (Ok tt, curses_screen) /\
  fst (get_from 10 1 curses_screen) = Raise IndexError.
Proof.
  destruct (is_visible_past_right_edge curses_screen 1
              (reach_curses 2 10 256 5)) as (Hvis & Hprint & Hget);
    [by vm_compute..|].
  split_and!; [exact Hvis|apply (Hprint (Py.str "A") 7 0 0 false)|exact Hget].
Defined.

(** X17: text no longer than a line is centred whole.  On a line of the
    buffer of a reachable screen, [centre] without a colour map returns and
    writes character [i] of the text at column [l + i] with background 0,
    where the left margin [l] is not negative and the right margin is [l] or
    [l + 1]; no other cell changes. *)
Theorem centre_places_whole_text (s : Screen) (text : list ascii)
    (y colour attr : Z) :
  reachable s -> 0 <= y < _buffer_height s -> Py.len text <= width s ->
  exists l b',
    0 <= l /\ l <= width s - (l + Py.len text) <= l + 1 /\
    centre text y colour attr None s = (Ok tt, set_double_buffer b' s) /\
    forall x' y', 0 <= x' -> 0 <= y' ->
      cell_at b' x' y' =
        match (if bool_decide (y' = y /\ l <= x')
               then text !! Z.to_nat (x' - l) else None) with
        | Some c => Some (c, colour, attr, 0)
        | None => cell_at (_double_buffer s) x' y'
        end.
Proof.
  intros Hs%reachable_wf Hy Hlen.
  set (l := (width s - Py.len text) / 2).
  assert (0 <= l /\ l <= width s - (l + Py.len text) <= l + 1) as [Hl Hr].
  { pose proof (Z.div_mod (width s - Py.len text) 2).
    pose proof (Z.mod_pos_bound (width s - Py.len text) 2).
    unfold l. lia. }
  destruct (print_at_spec text l y colour attr 0 false s)
    as (b' & Hrun & _ & Hcells); [done|done|unfold Py.len in *; lia..|].
  exists l, b'. split_and!; [lia|lia|lia|exact Hrun|].
  intros x' y' Hx' Hy'. rewrite Hcells by done. unfold overlay, text_at.
  destruct (decide (x' < width s)) as [Hin|Hout].
  - rewrite (bool_decide_eq_true_2 (x' < width s)) by done.
    destruct (if bool_decide (y' = y /\ l <= x') then _ else _); [|done].
    by rewrite orb_true_r.
  - rewrite (bool_decide_eq_false_2 (x' < width s)) by done.
    case_bool_decide; [|done].
    rewrite (lookup_ge_None_2 text); [done|]. unfold Py.len in *. lia.
Qed.

Lemma centre_places_whole_text_witness :
  exists l b',
    l = 3 /\
    centre (Py.str "abc") 1 7 0 None curses_screen
      = (Ok tt, set_double_buffer b' curses_screen) /\
    cell_at b' 3 1 = Some ("a"%char, 7, 0, 0) /\
    cell_at b' 6 1 = cell_at (_double_buffer curses_screen) 6 1.
Proof.
  destruct (centre_places_whole_text curses_screen (Py.str "abc") 1 7 0
              (reach_curses 2 10 256 5))
    as (l & b' & Hl & Hr & Hrun & Hcells); [by vm_compute..|].
  change (width curses_screen) with 10 in Hr.
  change (Py.len (Py.str "abc")) with 3 in Hr.
  assert (l = 3) as -> by lia.
  exists 3, b'. split_and!; [done|done|..]; by rewrite Hcells.
Defined.
